(** * Theme coordinator ([useTheme]) of the portfolio site

    A shallow embedding of [src/hooks/useTheme.ts] (and of the storage-event
    handler of [useLocalStorage]) together with the part of the browser and of
    React the hook talks to: [localStorage], the document root, the
    [theme-color] meta element, [document.body], timers, event listeners,
    and React's state cells, effects and re-rendering.

    JavaScript code is embedded in a state-and-exception monad over a record
    [World]; a thrown exception keeps the side effects performed before it.
    Every primitive also appends to a chronological [trace], so that the order
    of side effects can be stated. *)

From stdpp Require Import gmap strings list.

Local Open Scope string_scope.
Local Open Scope nat_scope.

(** ** JavaScript values reaching the hook *)

(** The hook is typed over ['light' | 'dark'], but the type is erased at run
    time: [setTheme] validates its argument and the value read from storage is
    only cast.  These are the run-time values the claims speak about. *)
Inductive JSValue : Type :=
| JSUndefined
| JSNull
| JSString (s : string).

(** [a === b] on these values *)
Definition js_eqb (a b : JSValue) : bool :=
  match a, b with
  | JSUndefined, JSUndefined => true
  | JSNull, JSNull => true
  | JSString s, JSString t => String.eqb s t
  | _, _ => false
  end.

(** string conversion, as performed by template literals and by [setItem] *)
Definition js_to_string (v : JSValue) : string :=
  match v with
  | JSUndefined => "undefined"
  | JSNull => "null"
  | JSString s => s
  end.

(** [string | null] as returned by [getItem] *)
Definition js_of_item (o : option string) : JSValue :=
  match o with
  | Some s => JSString s
  | None => JSNull
  end.

(** truthiness *)
Definition js_truthy (v : JSValue) : bool :=
  match v with
  | JSString s => negb (String.eqb s "")
  | _ => false
  end.

(** The closed two-valued enumeration of the specification. *)
Inductive Theme : Type := light | dark.

Definition theme_str (t : Theme) : string :=
  match t with light => "light" | dark => "dark" end.

Definition theme_val (t : Theme) : JSValue := JSString (theme_str t).

Definition opposite (t : Theme) : Theme :=
  match t with light => dark | dark => light end.

(** [v === 'light' || v === 'dark'] *)
Definition is_theme (v : JSValue) : bool :=
  js_eqb v (JSString "light") || js_eqb v (JSString "dark").

Definition decode_theme (v : JSValue) : option Theme :=
  if js_eqb v (JSString "light") then Some light
  else if js_eqb v (JSString "dark") then Some dark
  else None.

(** ** constants.ts *)
Module THEME_CONFIG.
Definition defaultTheme : JSValue := JSString "light".
Definition storageKey : string := "theme".
Definition transitionDuration : nat := 200.
End THEME_CONFIG.

(** ** The browser and React state *)

Inductive Exn : Type :=
| ReferenceError (name : string)
| NotFoundError
| StorageError
| TypeError (what : string).

Inductive Callback : Type :=
| CbRemoveTransition
| CbRemoveAnnouncer (el : nat).

Record Timer : Type := { t_due : nat; t_cb : Callback }.

Record Element : Type := {
  el_id : nat;
  el_tag : string;
  el_aria_live : string;
  el_aria_atomic : string;
  el_class : string;
  el_text : string
}.

Inductive Target : Type := TWindow | TDocument | TMediaQuery.

Inductive Handler : Type :=
| HandleChange
| HandleKeyDown (captured : JSValue).

Record Listener : Type := {
  l_id : nat;
  l_target : Target;
  l_type : string;
  l_handler : Handler
}.

(** which subscription interface the media query list offers *)
Inductive MQApi : Type := MQModern | MQLegacy | MQNone.

Inductive Phase : Type := Fresh | Mounted | Unmounted.

Inductive Effect : Type :=
| FxWarn (msg : string)
| FxSetThemeState (v : JSValue)
| FxSetMounted (b : bool)
| FxSetSystemPrefersDark (b : bool)
| FxStorageGet (key : string)
| FxStorageSet (key value : string)
| FxStyleSet (prop value : string)
| FxStyleRemove (prop : string)
| FxClassAdd (c : string)
| FxClassRemove (c : string)
| FxMetaSet (content : string)
| FxSetTimeout (cb : Callback) (delay : nat)
| FxAppendChild (e : Element)
| FxRemoveChild (el : nat)
| FxAddListener (l : Listener)
| FxRemoveListener (id : nat)
| FxPreventDefault
| FxUncaught (e : Exn).

(** The environment the page runs in.  Whether the window has [matchMedia]
    is recorded with the browser ([has_matchMedia] below). *)
Record Env : Type := {
  has_window : bool;            (* typeof window !== 'undefined' *)
  has_document : bool;          (* typeof document !== 'undefined' *)
  prefers_dark : bool;          (* matchMedia('(prefers-color-scheme: dark)').matches *)
  mq_api : MQApi;
  storage_read_throws : bool;   (* getItem throws *)
  storage_write_throws : bool   (* setItem throws *)
}.

Record Browser : Type := {
  storage : gmap string string;      (* localStorage, shared by the origin *)
  root_classes : gset string;        (* documentElement.classList *)
  root_style : gmap string string;   (* documentElement.style *)
  meta_theme_color : option string;  (* content of meta[name=theme-color] *)
  body : list Element;               (* children of document.body *)
  listeners : list Listener;
  timers : list Timer;               (* pending, by due time *)
  now : nat;
  next_id : nat;
  trace : list Effect;
  has_matchMedia : bool              (* window.matchMedia is a function *)
}.

(** The hook instance: React state cells, the ref, the value of [theme] seen
    by the closures of the latest render, and the effect cleanups. *)
Record Hook : Type := {
  theme : JSValue;
  mounted : bool;
  systemPrefersDark : bool;
  announcerRef : option nat;
  rendered_theme : JSValue;
  mq_sub : option nat;
  key_sub : option nat;
  phase : Phase
}.

Record World : Type := { env : Env; br : Browser; hk : Hook }.

Definition upd_env (f : Env → Env) (w : World) : World :=
  {| env := f (env w); br := br w; hk := hk w |}.
Definition upd_br (f : Browser → Browser) (w : World) : World :=
  {| env := env w; br := f (br w); hk := hk w |}.
Definition upd_hk (f : Hook → Hook) (w : World) : World :=
  {| env := env w; br := br w; hk := f (hk w) |}.

Definition env_set_prefers_dark (b : bool) (e : Env) : Env :=
  {| has_window := has_window e; has_document := has_document e;
     prefers_dark := b; mq_api := mq_api e;
     storage_read_throws := storage_read_throws e;
     storage_write_throws := storage_write_throws e |}.

Definition br_set_storage (x : gmap string string) (b : Browser) : Browser :=
  {| storage := x; root_classes := root_classes b; root_style := root_style b;
     meta_theme_color := meta_theme_color b; body := body b;
     listeners := listeners b; timers := timers b; now := now b;
     next_id := next_id b; trace := trace b;
     has_matchMedia := has_matchMedia b |}.
Definition br_set_root_classes (x : gset string) (b : Browser) : Browser :=
  {| storage := storage b; root_classes := x; root_style := root_style b;
     meta_theme_color := meta_theme_color b; body := body b;
     listeners := listeners b; timers := timers b; now := now b;
     next_id := next_id b; trace := trace b;
     has_matchMedia := has_matchMedia b |}.
Definition br_set_root_style (x : gmap string string) (b : Browser) : Browser :=
  {| storage := storage b; root_classes := root_classes b; root_style := x;
     meta_theme_color := meta_theme_color b; body := body b;
     listeners := listeners b; timers := timers b; now := now b;
     next_id := next_id b; trace := trace b;
     has_matchMedia := has_matchMedia b |}.
Definition br_set_meta (x : option string) (b : Browser) : Browser :=
  {| storage := storage b; root_classes := root_classes b;
     root_style := root_style b; meta_theme_color := x; body := body b;
     listeners := listeners b; timers := timers b; now := now b;
     next_id := next_id b; trace := trace b;
     has_matchMedia := has_matchMedia b |}.
Definition br_set_body (x : list Element) (b : Browser) : Browser :=
  {| storage := storage b; root_classes := root_classes b;
     root_style := root_style b; meta_theme_color := meta_theme_color b;
     body := x; listeners := listeners b; timers := timers b; now := now b;
     next_id := next_id b; trace := trace b;
     has_matchMedia := has_matchMedia b |}.
Definition br_set_listeners (x : list Listener) (b : Browser) : Browser :=
  {| storage := storage b; root_classes := root_classes b;
     root_style := root_style b; meta_theme_color := meta_theme_color b;
     body := body b; listeners := x; timers := timers b; now := now b;
     next_id := next_id b; trace := trace b;
     has_matchMedia := has_matchMedia b |}.
Definition br_set_timers (x : list Timer) (b : Browser) : Browser :=
  {| storage := storage b; root_classes := root_classes b;
     root_style := root_style b; meta_theme_color := meta_theme_color b;
     body := body b; listeners := listeners b; timers := x; now := now b;
     next_id := next_id b; trace := trace b;
     has_matchMedia := has_matchMedia b |}.
Definition br_set_now (x : nat) (b : Browser) : Browser :=
  {| storage := storage b; root_classes := root_classes b;
     root_style := root_style b; meta_theme_color := meta_theme_color b;
     body := body b; listeners := listeners b; timers := timers b; now := x;
     next_id := next_id b; trace := trace b;
     has_matchMedia := has_matchMedia b |}.
Definition br_set_next_id (x : nat) (b : Browser) : Browser :=
  {| storage := storage b; root_classes := root_classes b;
     root_style := root_style b; meta_theme_color := meta_theme_color b;
     body := body b; listeners := listeners b; timers := timers b;
     now := now b; next_id := x; trace := trace b;
     has_matchMedia := has_matchMedia b |}.
Definition br_set_trace (x : list Effect) (b : Browser) : Browser :=
  {| storage := storage b; root_classes := root_classes b;
     root_style := root_style b; meta_theme_color := meta_theme_color b;
     body := body b; listeners := listeners b; timers := timers b;
     now := now b; next_id := next_id b; trace := x;
     has_matchMedia := has_matchMedia b |}.

Definition hk_set_theme (x : JSValue) (h : Hook) : Hook :=
  {| theme := x; mounted := mounted h;
     systemPrefersDark := systemPrefersDark h;
     announcerRef := announcerRef h; rendered_theme := rendered_theme h;
     mq_sub := mq_sub h; key_sub := key_sub h; phase := phase h |}.
Definition hk_set_mounted (x : bool) (h : Hook) : Hook :=
  {| theme := theme h; mounted := x;
     systemPrefersDark := systemPrefersDark h;
     announcerRef := announcerRef h; rendered_theme := rendered_theme h;
     mq_sub := mq_sub h; key_sub := key_sub h; phase := phase h |}.
Definition hk_set_systemPrefersDark (x : bool) (h : Hook) : Hook :=
  {| theme := theme h; mounted := mounted h; systemPrefersDark := x;
     announcerRef := announcerRef h; rendered_theme := rendered_theme h;
     mq_sub := mq_sub h; key_sub := key_sub h; phase := phase h |}.
Definition hk_set_announcerRef (x : option nat) (h : Hook) : Hook :=
  {| theme := theme h; mounted := mounted h;
     systemPrefersDark := systemPrefersDark h;
     announcerRef := x; rendered_theme := rendered_theme h;
     mq_sub := mq_sub h; key_sub := key_sub h; phase := phase h |}.
Definition hk_set_rendered_theme (x : JSValue) (h : Hook) : Hook :=
  {| theme := theme h; mounted := mounted h;
     systemPrefersDark := systemPrefersDark h;
     announcerRef := announcerRef h; rendered_theme := x;
     mq_sub := mq_sub h; key_sub := key_sub h; phase := phase h |}.
Definition hk_set_mq_sub (x : option nat) (h : Hook) : Hook :=
  {| theme := theme h; mounted := mounted h;
     systemPrefersDark := systemPrefersDark h;
     announcerRef := announcerRef h; rendered_theme := rendered_theme h;
     mq_sub := x; key_sub := key_sub h; phase := phase h |}.
Definition hk_set_key_sub (x : option nat) (h : Hook) : Hook :=
  {| theme := theme h; mounted := mounted h;
     systemPrefersDark := systemPrefersDark h;
     announcerRef := announcerRef h; rendered_theme := rendered_theme h;
     mq_sub := mq_sub h; key_sub := x; phase := phase h |}.
Definition hk_set_phase (x : Phase) (h : Hook) : Hook :=
  {| theme := theme h; mounted := mounted h;
     systemPrefersDark := systemPrefersDark h;
     announcerRef := announcerRef h; rendered_theme := rendered_theme h;
     mq_sub := mq_sub h; key_sub := key_sub h; phase := x |}.

(** ** The monad of JavaScript code *)

Inductive Res (A : Type) : Type :=
| Ok (a : A)
| Throw (e : Exn).
Arguments Ok {A} a.
Arguments Throw {A} e.

Definition M (A : Type) : Type := World → Res A * World.

Definition ret {A} (a : A) : M A := λ w, (Ok a, w).
Definition throw {A} (e : Exn) : M A := λ w, (Throw e, w).
Definition bind {A B} (m : M A) (k : A → M B) : M B :=
  λ w, match m w with
       | (Ok a, w') => k a w'
       | (Throw e, w') => (Throw e, w')
       end.
(** [try { m } catch (error) { h error }] *)
Definition try_catch {A} (m : M A) (h : Exn → M A) : M A :=
  λ w, match m w with
       | (Ok a, w') => (Ok a, w')
       | (Throw e, w') => h e w'
       end.

Notation "'let!' x ':=' m 'in' k" := (bind m (λ x, k))
  (at level 10, x name, m at level 100, k at level 200, only parsing).
Notation "m '>>>' k" := (bind m (λ _, k))
  (at level 90, right associativity, only parsing).

Definition exec {A} (m : M A) (w : World) : World := snd (m w).
Definition outcome {A} (m : M A) (w : World) : Res A := fst (m w).

Definition returns {A} (m : M A) (w : World) : Prop :=
  ∃ a, outcome m w = Ok a.

Definition get {A} (f : World → A) : M A := λ w, (Ok (f w), w).
Definition modify (f : World → World) : M unit := λ w, (Ok tt, f w).
Definition when (b : bool) (m : M unit) : M unit := if b then m else ret tt.

(** ** Primitives *)

Definition log (e : Effect) : M unit :=
  modify (upd_br (λ b, br_set_trace (trace b ++ [e]) b)).

Definition console_warn (msg : string) : M unit := log (FxWarn msg).

(** React state setters and the ref *)
Definition setThemeState (v : JSValue) : M unit :=
  log (FxSetThemeState v) >>> modify (upd_hk (hk_set_theme v)).
Definition setMounted (b : bool) : M unit :=
  log (FxSetMounted b) >>> modify (upd_hk (hk_set_mounted b)).
Definition setSystemPrefersDark (b : bool) : M unit :=
  log (FxSetSystemPrefersDark b) >>>
  modify (upd_hk (hk_set_systemPrefersDark b)).
Definition set_announcerRef (o : option nat) : M unit :=
  modify (upd_hk (hk_set_announcerRef o)).

(** an unguarded use of the global [document] *)
Definition use_document : M unit :=
  let! d := get (λ w, has_document (env w)) in
  if d then ret tt else throw (ReferenceError "document").

(** [localStorage.getItem(key)] *)
Definition localStorage_getItem (key : string) : M (option string) :=
  log (FxStorageGet key) >>>
  let! bad := get (λ w, storage_read_throws (env w)) in
  if bad then throw StorageError
  else get (λ w, storage (br w) !! key).

(** [localStorage.setItem(key, value)]; the call is traced even if it throws *)
Definition localStorage_setItem (key value : string) : M unit :=
  log (FxStorageSet key value) >>>
  let! bad := get (λ w, storage_write_throws (env w)) in
  if bad then throw StorageError
  else modify (upd_br (λ b, br_set_storage (<[key:=value]> (storage b)) b)).

Definition style_setProperty (p v : string) : M unit :=
  log (FxStyleSet p v) >>>
  modify (upd_br (λ b, br_set_root_style (<[p:=v]> (root_style b)) b)).
Definition style_removeProperty (p : string) : M unit :=
  log (FxStyleRemove p) >>>
  modify (upd_br (λ b, br_set_root_style (delete p (root_style b)) b)).
Definition classList_add (c : string) : M unit :=
  log (FxClassAdd c) >>>
  modify (upd_br (λ b, br_set_root_classes ({[c]} ∪ root_classes b) b)).
Definition classList_remove (c : string) : M unit :=
  log (FxClassRemove c) >>>
  modify (upd_br (λ b, br_set_root_classes (root_classes b ∖ {[c]}) b)).

(** [metaThemeColor.setAttribute('content', c)] *)
Definition meta_setContent (c : string) : M unit :=
  log (FxMetaSet c) >>> modify (upd_br (br_set_meta (Some c))).

(** pending timers are kept ordered by due time, first set first *)
Fixpoint insert_timer (t : Timer) (l : list Timer) : list Timer :=
  match l with
  | [] => [t]
  | u :: l' =>
      if Nat.ltb (t_due t) (t_due u) then t :: l else u :: insert_timer t l'
  end.

Definition setTimeout (cb : Callback) (delay : nat) : M unit :=
  log (FxSetTimeout cb delay) >>>
  modify (upd_br (λ b,
    br_set_timers
      (insert_timer {| t_due := (now b + delay)%nat; t_cb := cb |} (timers b)) b)).

Definition is_child (el : nat) (l : list Element) : bool :=
  existsb (λ e, Nat.eqb (el_id e) el) l.

Definition remove_child (el : nat) (l : list Element) : list Element :=
  filter (λ e, el_id e ≠ el) l.

(** [document.createElement('div')]: a detached element with a fresh identity *)
Definition createElement (tag : string) : M nat :=
  use_document >>>
  let! n := get (λ w, next_id (br w)) in
  modify (upd_br (br_set_next_id (S n))) >>>
  ret n.

(** [document.body.appendChild(e)] *)
Definition body_appendChild (e : Element) : M unit :=
  use_document >>>
  log (FxAppendChild e) >>>
  modify (upd_br (λ b,
    br_set_body (remove_child (el_id e) (body b) ++ [e]) b)).

(** [document.body.removeChild(el)]: throws unless [el] is a child *)
Definition body_removeChild (el : nat) : M unit :=
  use_document >>>
  let! kids := get (λ w, body (br w)) in
  if is_child el kids then
    log (FxRemoveChild el) >>>
    modify (upd_br (λ b, br_set_body (remove_child el (body b)) b))
  else throw NotFoundError.

(** [target.addEventListener(type, handler)] (and the legacy
    [mediaQuery.addListener(handler)]): returns the identity of the closure *)
Definition addEventListener (tg : Target) (ty : string) (h : Handler)
  : M nat :=
  let! n := get (λ w, next_id (br w)) in
  let l := {| l_id := n; l_target := tg; l_type := ty; l_handler := h |} in
  log (FxAddListener l) >>>
  modify (upd_br (λ b,
    br_set_next_id (S n) (br_set_listeners (listeners b ++ [l]) b))) >>>
  ret n.

Definition removeEventListener (tg : Target) (ty : string) (id : nat)
  : M unit :=
  log (FxRemoveListener id) >>>
  modify (upd_br (λ b,
    br_set_listeners
      (filter (λ l, l_id l ≠ id) (listeners b)) b)).

(** [el.parentNode.removeChild(el)] for a child of the body *)
Definition parent_removeChild (el : nat) : M unit :=
  log (FxRemoveChild el) >>>
  modify (upd_br (λ b, br_set_body (remove_child el (body b)) b)).

(** the exception of a call of [window.matchMedia] where it is undefined *)
Definition matchMedia_missing : Exn :=
  TypeError "window.matchMedia is not a function".

(** [window.matchMedia('(prefers-color-scheme: dark)')], called unguarded at
    lines 49 and 176: where the window has no [matchMedia] the call throws *)
Definition window_matchMedia : M unit :=
  let! defined := get (λ w, has_matchMedia (br w)) in
  if defined then ret tt else throw matchMedia_missing.

(** ** useTheme.ts *)

(** [detectSystemTheme] (lines 46-52) *)
Definition detectSystemTheme : M JSValue :=
  let! win := get (λ w, has_window (env w)) in
  if negb win then ret THEME_CONFIG.defaultTheme
  else
    window_matchMedia >>>
    let! matches := get (λ w, prefers_dark (env w)) in
    setSystemPrefersDark matches >>>
    ret (if matches then JSString "dark" else JSString "light").

(** [applyTheme] (lines 57-91) *)
Definition applyTheme (newTheme : JSValue) : M unit :=
  let! doc := get (λ w, has_document (env w)) in
  if negb doc then ret tt
  else
    let isDark := js_eqb newTheme (JSString "dark") in
    style_setProperty "--theme-transition"
                      "background-color 0.2s ease-in-out" >>>
    (if isDark then classList_add "dark" else classList_remove "dark") >>>
    setTimeout CbRemoveTransition THEME_CONFIG.transitionDuration >>>
    (let! metaThemeColor := get (λ w, meta_theme_color (br w)) in
     match metaThemeColor with
     | Some _ => meta_setContent (if isDark then "#18181b" else "#ffffff")
     | None => ret tt
     end) >>>
    try_catch
      (localStorage_setItem THEME_CONFIG.storageKey (js_to_string newTheme))
      (λ _, console_warn "Failed to save theme preference:").

(** [announceThemeChange] (lines 96-120) *)
Definition announceThemeChange (newTheme : JSValue) : M unit :=
  let! cur := get (λ w, announcerRef (hk w)) in
  match cur with
  | Some a => body_removeChild a
  | None => ret tt
  end >>>
  let! n := createElement "div" in
  let announcer :=
    {| el_id := n; el_tag := "div";
       el_aria_live := "polite"; el_aria_atomic := "true";
       el_class := "sr-only";
       el_text := "Theme changed to " +:+ js_to_string newTheme +:+ " mode" |}
  in
  body_appendChild announcer >>>
  set_announcerRef (Some n) >>>
  setTimeout (CbRemoveAnnouncer n) 1000.

(** the two timer callbacks (lines 72-74 and 112-119) *)
Definition run_callback (cb : Callback) : M unit :=
  match cb with
  | CbRemoveTransition => style_removeProperty "--theme-transition"
  | CbRemoveAnnouncer a =>
      use_document >>>
      let! kids := get (λ w, body (br w)) in
      if is_child a kids then
        body_removeChild a >>>
        let! cur := get (λ w, announcerRef (hk w)) in
        match cur with
        | Some c => when (Nat.eqb c a) (set_announcerRef None)
        | None => ret tt
        end
      else ret tt
  end.

(** the value [setTheme] goes on with after validation (lines 126-129) *)
Definition validated (newTheme : JSValue) : JSValue :=
  if negb (js_eqb newTheme (JSString "light"))
     && negb (js_eqb newTheme (JSString "dark"))
  then THEME_CONFIG.defaultTheme
  else newTheme.

(** [setTheme] (lines 125-134) *)
Definition setTheme (newTheme : JSValue) : M unit :=
  let! newTheme :=
    if negb (js_eqb newTheme (JSString "light"))
       && negb (js_eqb newTheme (JSString "dark"))
    then
      console_warn ("Invalid theme: " +:+ js_to_string newTheme
                    +:+ ". Using default theme.") >>>
      ret THEME_CONFIG.defaultTheme
    else ret newTheme in
  setThemeState newTheme >>>
  applyTheme newTheme >>>
  announceThemeChange newTheme.

(** [toggleTheme] (lines 139-142); [theme] is the value of the state cell at
    the render that created the closure *)
Definition toggleTheme (theme : JSValue) : M unit :=
  let newTheme :=
    if js_eqb theme (JSString "dark") then JSString "light"
    else JSString "dark" in
  setTheme newTheme.

(** the [try]/[catch] block of the initialisation effect (lines 150-163):
    the value [initialTheme] holds after it *)
Definition initialTheme : M JSValue :=
  try_catch
    (let! savedTheme := localStorage_getItem THEME_CONFIG.storageKey in
     let savedTheme := js_of_item savedTheme in
     if js_truthy savedTheme
        && (js_eqb savedTheme (JSString "light")
            || js_eqb savedTheme (JSString "dark"))
     then ret savedTheme
     else detectSystemTheme)
    (λ _, console_warn "Failed to load theme preference:" >>>
          detectSystemTheme).

(** the initialisation effect (lines 147-168) *)
Definition initEffect : M unit :=
  let! initialTheme := initialTheme in
  setThemeState initialTheme >>>
  applyTheme initialTheme >>>
  setMounted true.

(** [handleChange] (lines 178-191) *)
Definition handleChange (matches : bool) : M unit :=
  setSystemPrefersDark matches >>>
  try_catch
    (let! savedTheme := localStorage_getItem THEME_CONFIG.storageKey in
     if negb (js_truthy (js_of_item savedTheme)) then
       let systemTheme :=
         if matches then JSString "dark" else JSString "light" in
       setTheme systemTheme
     else ret tt)
    (λ _, console_warn "Failed to check theme preference:").

(** the system-preference effect (lines 173-203); the result is its cleanup *)
Definition systemThemeEffect : M unit :=
  let! win := get (λ w, has_window (env w)) in
  if negb win then ret tt
  else
    window_matchMedia >>>
    let! api := get (λ w, mq_api (env w)) in
    match api with
    | MQModern | MQLegacy =>
        let! id := addEventListener TMediaQuery "change" HandleChange in
        modify (upd_hk (hk_set_mq_sub (Some id)))
    | MQNone => ret tt
    end.

Definition systemThemeCleanup : M unit :=
  let! sub := get (λ w, mq_sub (hk w)) in
  match sub with
  | Some id =>
      removeEventListener TMediaQuery "change" id >>>
      modify (upd_hk (hk_set_mq_sub None))
  | None => ret tt
  end.

(** [handleKeyDown] (lines 209-215) *)
Definition handleKeyDown (theme : JSValue)
    (ctrlKey metaKey shiftKey : bool) (key : string) : M unit :=
  if (ctrlKey || metaKey) && shiftKey && String.eqb key "T" then
    log FxPreventDefault >>> toggleTheme theme
  else ret tt.

(** the keyboard effect (lines 208-219), for the [toggleTheme] of a render *)
Definition keyboardEffect (theme : JSValue) : M unit :=
  use_document >>>
  let! id := addEventListener TDocument "keydown" (HandleKeyDown theme) in
  modify (upd_hk (hk_set_key_sub (Some id))).

Definition keyboardCleanup : M unit :=
  let! sub := get (λ w, key_sub (hk w)) in
  match sub with
  | Some id =>
      use_document >>>
      removeEventListener TDocument "keydown" id >>>
      modify (upd_hk (hk_set_key_sub None))
  | None => ret tt
  end.

(** the cleanup of the last effect (lines 224-230) *)
Definition announcerCleanup : M unit :=
  let! cur := get (λ w, announcerRef (hk w)) in
  match cur with
  | Some a =>
      let! kids := get (λ w, body (br w)) in
      if is_child a kids then parent_removeChild a else ret tt
  | None => ret tt
  end.

(** what the hook returns as [theme]: the state cell as of the latest render *)
Definition getEffectiveTheme (w : World) : JSValue := rendered_theme (hk w).

(** ** useLocalStorage.ts: the handler of storage events *)

(** The generic storage hook is the only code of the repository that listens
    for storage events; [useTheme] does not use it. *)
Module UseLocalStorage.
Section Hook.
Context {T : Type}.
(** the [serializer.read] option, which may throw *)
Variable read : string → Res T.
Variable defaultValue : T.
Variable key : string.

Record State : Type := { value : T; error : option Exn }.

(** [handleStorageChange] (lines 180-197); [localArea] is
    [e.storageArea === window.localStorage] *)
Definition handleStorageChange (e_key e_newValue : option string)
    (localArea : bool) (st : State) : State :=
  if bool_decide (e_key = Some key) && localArea then
    match e_newValue with
    | None => {| value := defaultValue; error := None |}
    | Some s =>
        match read s with
        | Ok newValue => {| value := newValue; error := None |}
        | Throw err => {| value := value st; error := Some err |}
        end
    end
  else st.

End Hook.
End UseLocalStorage.

(** ** React and the browser driving the hook *)

(** An exception escaping a handler, an effect or a timer callback is
    reported and the page goes on.  After an effect that throws React goes on
    to tear the component down; this is not followed here: [mount] below
    describes the mount where no effect throws, which is so on every [page]
    with a document ([initEffect_ok], [systemThemeEffect_run],
    [keyboardEffect_run]), and what the effects do elsewhere is stated for
    the effects themselves. *)
Definition run_handler (m : M unit) (w : World) : World :=
  match m w with
  | (Ok _, w') => w'
  | (Throw e, w') => exec (log (FxUncaught e)) w'
  end.

(** A render after state updates: the closures see the new [theme]; when it
    differs from the previous one, [toggleTheme] is a new closure and the
    keyboard effect, which depends on it, is cleaned up and run again. *)
Definition rerender (w : World) : World :=
  match phase (hk w) with
  | Mounted =>
      let prev := rendered_theme (hk w) in
      let cur := theme (hk w) in
      let w1 := upd_hk (hk_set_rendered_theme cur) w in
      if js_eqb prev cur then w1
      else run_handler (keyboardEffect cur) (run_handler keyboardCleanup w1)
  | _ => w
  end.

Inductive DomEvent : Type :=
| MediaQueryChange (matches : bool)
| StorageEvent (key newValue : option string)
| KeyDown (ctrlKey metaKey shiftKey : bool) (key : string).

Definition event_target (e : DomEvent) : Target :=
  match e with
  | MediaQueryChange _ => TMediaQuery
  | StorageEvent _ _ => TWindow
  | KeyDown _ _ _ _ => TDocument
  end.

Definition event_type (e : DomEvent) : string :=
  match e with
  | MediaQueryChange _ => "change"
  | StorageEvent _ _ => "storage"
  | KeyDown _ _ _ _ => "keydown"
  end.

Definition target_eqb (a b : Target) : bool :=
  match a, b with
  | TWindow, TWindow | TDocument, TDocument | TMediaQuery, TMediaQuery => true
  | _, _ => false
  end.

Definition listens (e : DomEvent) (l : Listener) : bool :=
  target_eqb (l_target l) (event_target e)
  && String.eqb (l_type l) (event_type e).

Definition run_listener (e : DomEvent) (l : Listener) : M unit :=
  match l_handler l, e with
  | HandleChange, MediaQueryChange matches => handleChange matches
  | HandleKeyDown theme, KeyDown c m s k => handleKeyDown theme c m s k
  | _, _ => ret tt
  end.

(** what has already happened outside the page when the event is delivered:
    the system setting has changed, or another tab has written the storage *)
Definition happened (e : DomEvent) (w : World) : World :=
  match e with
  | MediaQueryChange matches => upd_env (env_set_prefers_dark matches) w
  | StorageEvent (Some k) (Some v) =>
      upd_br (λ b, br_set_storage (<[k:=v]> (storage b)) b) w
  | StorageEvent (Some k) None =>
      upd_br (λ b, br_set_storage (delete k (storage b)) b) w
  | StorageEvent None _ =>
      upd_br (br_set_storage ∅) w
  | KeyDown _ _ _ _ => w
  end.

Definition dispatch (e : DomEvent) (w : World) : World :=
  fold_left (λ w l, run_handler (run_listener e l) w)
            (filter (λ l, listens e l = true) (listeners (br w))) w.

(** time passes by [ms]: the timers then due fire in order *)
Definition advance (ms : nat) (w : World) : World :=
  let t := (now (br w) + ms)%nat in
  let due := filter (λ x, Nat.leb (t_due x) t = true) (timers (br w)) in
  let rest := filter (λ x, Nat.leb (t_due x) t = false) (timers (br w)) in
  fold_left (λ w x, run_handler (run_callback (t_cb x)) w) due
            (upd_br (λ b, br_set_now t (br_set_timers rest b)) w).

(** What can happen to the hook: React mounts and unmounts it, the consumer
    calls [setTheme] or [toggleTheme] of the latest render, the browser
    delivers a DOM event, time passes. *)
Inductive Event : Type :=
| EvMount
| EvUnmount
| EvSetTheme (v : JSValue)
| EvToggleTheme
| EvDom (e : DomEvent)
| EvTick (ms : nat).

(** the effects of the first render, in the order they are declared *)
Definition mount (w : World) : World :=
  let w := upd_hk (hk_set_phase Mounted) w in
  let w := run_handler initEffect w in
  let w := run_handler systemThemeEffect w in
  let w := run_handler (keyboardEffect (rendered_theme (hk w))) w in
  rerender w.

(** the cleanups, in the same order *)
Definition unmount (w : World) : World :=
  let w := run_handler systemThemeCleanup w in
  let w := run_handler keyboardCleanup w in
  let w := run_handler announcerCleanup w in
  upd_hk (hk_set_phase Unmounted) w.

Definition is_mounted (w : World) : bool :=
  match phase (hk w) with Mounted => true | _ => false end.

(** One event and the render that follows it.  The hook is mounted once, and
    [setTheme] and [toggleTheme] are events of the mounted component, called
    through the closures of its latest render.  A closure kept by a consumer
    and called after the unmount is no event of the page: what such a call
    does is stated for [setTheme] itself. *)
Definition step (ev : Event) (w : World) : World :=
  match ev with
  | EvMount =>
      match phase (hk w) with Fresh => mount w | _ => w end
  | EvUnmount => if is_mounted w then unmount w else w
  | EvSetTheme v =>
      if is_mounted w then rerender (run_handler (setTheme v) w) else w
  | EvToggleTheme =>
      if is_mounted w
      then rerender (run_handler (toggleTheme (rendered_theme (hk w))) w)
      else w
  | EvDom e => rerender (dispatch e (happened e w))
  | EvTick ms => rerender (advance ms w)
  end.

Definition run (evs : list Event) (w : World) : World :=
  fold_left (λ w ev, step ev w) evs w.

(** The hook before its first effect has run: [useState] initial values,
    an empty ref, nothing subscribed. *)
Definition fresh_hook : Hook :=
  {| theme := THEME_CONFIG.defaultTheme; mounted := false;
     systemPrefersDark := false; announcerRef := None;
     rendered_theme := THEME_CONFIG.defaultTheme;
     mq_sub := None; key_sub := None; phase := Fresh |}.

(** A page on which the hook has not been mounted yet, in a browser whose
    window, where there is one, has [matchMedia]. *)
Definition page (e : Env) (store : gmap string string)
    (classes : gset string) (meta : option string) (kids : list Element)
  : World :=
  {| env := e;
     br := {| storage := store; root_classes := classes; root_style := ∅;
              meta_theme_color := meta; body := kids; listeners := [];
              timers := []; now := 0;
              next_id := S (foldr (λ e m, Nat.max (el_id e) m) 0 kids);
              trace := []; has_matchMedia := true |};
     hk := fresh_hook |}.

(** The same world in a runtime whose window has no [matchMedia], as under
    jsdom. *)
Definition without_matchMedia (w : World) : World :=
  upd_br (λ b,
    {| storage := storage b; root_classes := root_classes b;
       root_style := root_style b; meta_theme_color := meta_theme_color b;
       body := body b; listeners := listeners b; timers := timers b;
       now := now b; next_id := next_id b; trace := trace b;
       has_matchMedia := false |}) w.

Definition browser_env (dark : bool) : Env :=
  {| has_window := true; has_document := true; prefers_dark := dark;
     mq_api := MQModern; storage_read_throws := false;
     storage_write_throws := false |}.

(** ** utils.ts: the theme read off the document *)

(** [getCurrentTheme] (utils.ts, lines 441-444) *)
Definition getCurrentTheme (w : World) : JSValue :=
  if negb (has_document (env w)) then JSString "light"
  else if bool_decide ("dark" ∈ root_classes (br w)) then JSString "dark"
       else JSString "light".

(** ** ThemeButton.tsx: the component that renders the hook *)

Module ThemeButton.

(** What the component returns (lines 67-79 and 98-185), reduced to the
    attributes that depend on the hook: the placeholder shown before the
    hook has mounted, or the button with [aria-pressed], [title] and the
    [aria-hidden] of the sun and of the moon icon. *)
Inductive View : Type :=
| Placeholder
| Button (aria_pressed : bool) (title : string)
         (sun_hidden moon_hidden : bool).

(** the component body (lines 63-79, 129-130, 146, 166) *)
Definition render (w : World) : View :=
  let theme := getEffectiveTheme w in
  let mounted := mounted (hk w) in
  let isDark := js_eqb theme (JSString "dark") in
  if negb mounted then Placeholder
  else Button isDark
         ("Switch to " +:+ (if isDark then "light" else "dark") +:+ " mode")
         isDark (negb isDark).

(** [handleToggle] (lines 84-86), for the [toggleTheme] of a render *)
Definition handleToggle (theme : JSValue) : M unit := toggleTheme theme.

(** [handleKeyDown] of the button (lines 91-96) *)
Definition handleKeyDown (theme : JSValue) (key : string) : M unit :=
  if String.eqb key "Enter" || String.eqb key " " then
    log FxPreventDefault >>> handleToggle theme
  else ret tt.

(** a click on the button and a key press on it, each followed by the
    render; the button is there only while the component is mounted *)
Definition click (w : World) : World :=
  if is_mounted w
  then rerender (run_handler (handleToggle (getEffectiveTheme w)) w)
  else w.

Definition press (key : string) (w : World) : World :=
  if is_mounted w
  then rerender (run_handler (handleKeyDown (getEffectiveTheme w) key) w)
  else w.

End ThemeButton.

(** ** useLocalStorage.ts: the whole hook *)

Module LocalStorageHook.

(** the arguments of the hook: the key and the options (lines 70-78), with
    the test of line 118 on values of the type *)
Record Config (T : Type) : Type := {
  key : string;
  defaultValue : T;
  (** [serializer.read] and [serializer.write], which may throw *)
  read : string → Res T;
  write : T → Res string;
  (** [v === undefined || v === null] (line 118), on values of [T] *)
  nullish : T → bool;
  (** whether the option [onError] is given *)
  onError : bool
}.
Arguments key {T} _.
Arguments defaultValue {T} _.
Arguments read {T} _ _.
Arguments write {T} _ _.
Arguments nullish {T} _ _.
Arguments onError {T} _.

(** the argument of [setValue]: a value or a function of the previous one *)
Inductive Update (T : Type) : Type :=
| Put (v : T)
| Apply (f : T → T).
Arguments Put {T} v.
Arguments Apply {T} f.

(** The state cells of the hook, the [value] seen by the callbacks of the
    latest render, whether its listener is registered, the errors passed to
    [onError] so far, and the storage area. *)
Record St (T : Type) : Type := {
  value : T;
  rendered_value : T;
  isInitialized : bool;
  error : option Exn;
  listening : bool;
  reported : list Exn;
  items : gmap string string
}.
Arguments value {T} _.
Arguments rendered_value {T} _.
Arguments isInitialized {T} _.
Arguments error {T} _.
Arguments listening {T} _.
Arguments reported {T} _.
Arguments items {T} _.

Section Hook.
Context {T : Type}.
Variable c : Config T.
(** the environment of [useTheme]'s model: whether there is a window and
    whether reading or writing storage throws *)
Variable e : Env.
(** whether [removeItem] throws *)
Variable removeItem_throws : bool.

(** computations over the state that may throw *)
Definition L (A : Type) : Type := St T → Res A * St T.

#[local] Instance L_ret : MRet L := λ A a st, (Ok a, st).
#[local] Instance L_bind : MBind L :=
  λ A B k m st,
    match m st with
    | (Ok a, st') => k a st'
    | (Throw err, st') => (Throw err, st')
    end.

Definition lthrow {A} (err : Exn) : L A := λ st, (Throw err, st).
Definition lift {A} (r : Res A) : L A := λ st, (r, st).
Definition lget {A} (f : St T → A) : L A := λ st, (Ok (f st), st).
Definition lmodify (f : St T → St T) : L unit := λ st, (Ok tt, f st).

(** [try { m } catch (error) { h error }] *)
Definition ltry {A} (m : L A) (h : Exn → L A) : L A :=
  λ st, match m st with
        | (Ok a, st') => (Ok a, st')
        | (Throw err, st') => h err st'
        end.

(** [try { m } finally { f }], for a block [m] that has its own [catch] *)
Definition lfinally {A} (m : L A) (f : L unit) : L A :=
  λ st, match m st with
        | (r, st') =>
            match f st' with
            | (Ok _, st'') => (r, st'')
            | (Throw err, st'') => (Throw err, st'')
            end
        end.

Definition setValue (v : T) : L unit :=
  lmodify (λ st, {| value := v; rendered_value := rendered_value st;
                    isInitialized := isInitialized st;
                    error := error st; listening := listening st;
                    reported := reported st; items := items st |}).

Definition setIsInitialized (b : bool) : L unit :=
  lmodify (λ st, {| value := value st; rendered_value := rendered_value st;
                    isInitialized := b;
                    error := error st; listening := listening st;
                    reported := reported st; items := items st |}).

Definition setError (o : option Exn) : L unit :=
  lmodify (λ st, {| value := value st; rendered_value := rendered_value st;
                    isInitialized := isInitialized st;
                    error := o; listening := listening st;
                    reported := reported st; items := items st |}).

Definition set_listening (b : bool) : L unit :=
  lmodify (λ st, {| value := value st; rendered_value := rendered_value st;
                    isInitialized := isInitialized st;
                    error := error st; listening := b;
                    reported := reported st; items := items st |}).

Definition set_items (f : gmap string string → gmap string string)
  : L unit :=
  lmodify (λ st, {| value := value st; rendered_value := rendered_value st;
                    isInitialized := isInitialized st;
                    error := error st; listening := listening st;
                    reported := reported st; items := f (items st) |}).

(** [onError?.(err)]: the call is recorded; the callback returns *)
Definition call_onError (err : Exn) : L unit :=
  if onError c then
    lmodify (λ st, {| value := value st; rendered_value := rendered_value st;
                    isInitialized := isInitialized st;
                      error := error st; listening := listening st;
                      reported := (reported st ++ [err])%list;
                      items := items st |})
  else mret tt.

Definition getItem (k : string) : L (option string) :=
  if storage_read_throws e then lthrow StorageError
  else lget (λ st, items st !! k).

Definition setItem (k s : string) : L unit :=
  if storage_write_throws e then lthrow StorageError
  else set_items (insert k s).

Definition removeItem (k : string) : L unit :=
  if removeItem_throws then lthrow StorageError
  else set_items (delete k).

(** the initializer of the [value] cell (lines 80-97) *)
Definition initialValue : L T :=
  if negb (has_window e) then mret (defaultValue c)
  else
    ltry (item ← getItem (key c);
          match item with
          | None => mret (defaultValue c)
          | Some s => lift (read c s)
          end)
         (λ err, call_onError err;; mret (defaultValue c)).

(** [setStoredValue] (lines 105-131); a function update is applied to the
    [value] of the render that created the callback (line 111) *)
Definition setStoredValue (newValue : Update T) : L unit :=
  ltry (setError None;;
        captured ← lget rendered_value;
        let valueToStore :=
          match newValue with
          | Apply f => f captured
          | Put v => v
          end in
        setValue valueToStore;;
        if has_window e then
          if nullish c valueToStore then removeItem (key c)
          else s ← lift (write c valueToStore); setItem (key c) s
        else mret tt)
       (λ err, setError (Some err);; call_onError err).

(** [removeValue] (lines 136-149) *)
Definition removeValue : L unit :=
  ltry (setError None;;
        setValue (defaultValue c);;
        if has_window e then removeItem (key c) else mret tt)
       (λ err, setError (Some err);; call_onError err).

(** the initialisation effect (lines 154-172) *)
Definition initEffect : L unit :=
  if negb (has_window e) then mret tt
  else
    lfinally
      (ltry (setError None;;
             item ← getItem (key c);
             match item with
             | Some s => parsedValue ← lift (read c s); setValue parsedValue
             | None => mret tt
             end)
            (λ err, setError (Some err);; call_onError err))
      (setIsInitialized true).

(** [handleStorageChange] (lines 180-197); [localArea] is
    [e.storageArea === window.localStorage] *)
Definition handleStorageChange (e_key e_newValue : option string)
    (localArea : bool) : L unit :=
  if bool_decide (e_key = Some (key c)) && localArea then
    ltry (setError None;;
          match e_newValue with
          | None => setValue (defaultValue c)
          | Some s => newValue ← lift (read c s); setValue newValue
          end)
         (λ err, setError (Some err);; call_onError err)
  else mret tt.

(** the listener effect (lines 177-204) and its cleanup *)
Definition storageEffect : L unit :=
  if negb (has_window e) then mret tt else set_listening true.

Definition storageCleanup : L unit :=
  if negb (has_window e) then mret tt else set_listening false.

(** the state a computation leaves *)
Definition run {A} (m : L A) (st : St T) : St T := snd (m st).

(** a render: the callbacks are created anew over the current [value] *)
Definition render (st : St T) : St T :=
  {| value := value st; rendered_value := value st;
     isInitialized := isInitialized st; error := error st;
     listening := listening st; reported := reported st;
     items := items st |}.

(** the first render over a storage area: the cells hold their initial
    values *)
Definition first_render (store : gmap string string) : St T :=
  let st0 := {| value := defaultValue c; rendered_value := defaultValue c;
                isInitialized := false;
                error := None; listening := false; reported := [];
                items := store |} in
  match initialValue st0 with
  | (Ok v, st) => render (run (setValue v) st)
  | (Throw _, st) => st
  end.

(** the effects of the mount, in the order of the source, and the render
    their state updates cause *)
Definition mount (st : St T) : St T :=
  render (run storageEffect (run initEffect st)).

(** a storage event reaches the handler while the listener is registered;
    the render that follows is [render] *)
Definition deliver (e_key e_newValue : option string) (localArea : bool)
    (st : St T) : St T :=
  if listening st then run (handleStorageChange e_key e_newValue localArea) st
  else st.

(** what a first render and a mount read from the storage area *)
Definition loaded (store : gmap string string) : T :=
  if has_window e && negb (storage_read_throws e) then
    match store !! key c with
    | Some s => match read c s with Ok v => v | Throw _ => defaultValue c end
    | None => defaultValue c
    end
  else defaultValue c.

(** the error reading at mount runs into *)
Definition load_error (store : gmap string string) : option Exn :=
  if has_window e then
    if storage_read_throws e then Some StorageError
    else match store !! key c with
         | Some s =>
             match read c s with Ok _ => None | Throw err => Some err end
         | None => None
         end
  else None.

End Hook.

(** A hook for strings stored as they are (a string is never null), a hook
    for values that are a string, null or undefined, a serializer that cannot
    write, and cells to start from. *)
Definition text_config : Config string :=
  {| key := "name"; defaultValue := "anonymous"; read := λ s, Ok s;
     write := λ v, Ok v; nullish := λ _, false; onError := true |}.

Definition js_nullish (v : JSValue) : bool :=
  match v with
  | JSUndefined | JSNull => true
  | JSString _ => false
  end.

Definition nullable_config : Config JSValue :=
  {| key := "name"; defaultValue := JSString "anonymous";
     read := λ s, Ok (JSString s); write := λ v, Ok (js_to_string v);
     nullish := js_nullish; onError := true |}.

Definition unwritable_config : Config string :=
  {| key := "name"; defaultValue := "anonymous"; read := λ s, Ok s;
     write := λ _, Throw (ReferenceError "BigInt"); nullish := λ _, false;
     onError := true |}.

Definition empty_cells : St string :=
  {| value := ""; rendered_value := ""; isInitialized := true;
     error := None; listening := true; reported := []; items := ∅ |}.

Definition null_cells : St JSValue :=
  {| value := JSNull; rendered_value := JSNull; isInitialized := true;
     error := None; listening := true; reported := []; items := ∅ |}.

End LocalStorageHook.

(** ** Properties of worlds, invariants, and the statements to settle *)

(** [m] keeps [P], whether it returns or throws *)
Definition preserves {A} (P : World → Prop) (m : M A) : Prop :=
  ∀ w, P w → P (snd (m w)).

(** The environment, the listeners, the lifecycle phase, the effect cleanups
    and the rendered value are only changed by React and by the browser; what
    the window offers does not change. *)
Definition core (w : World) :=
  (env w, listeners (br w), phase (hk w), mq_sub (hk w), key_sub (hk w),
   rendered_theme (hk w), has_matchMedia (br w)).

(** the state cell holds a theme *)
Definition valid (w : World) : Prop := is_theme (theme (hk w)) = true.

(** [setTheme] is the three calls of lines 131-133 on the validated value,
    after the warning if there is one. *)
Definition setTheme_calls (t : JSValue) : M unit :=
  setThemeState t >>> applyTheme t >>> announceThemeChange t.

(** the page after the warning of lines 126-129, if there is one *)
Definition warned (v : JSValue) (w : World) : World :=
  if is_theme v then w
  else exec (console_warn ("Invalid theme: " +:+ js_to_string v
                           +:+ ". Using default theme.")) w.

(** the announcer the ref points to is a child of the body *)
Definition ann_inv (w : World) : Prop :=
  ∀ a, announcerRef (hk w) = Some a → is_child a (body (br w)) = true.

(** identities are handed out in increasing order *)
Definition fresh_lb (n : nat) (w : World) : Prop := n ≤ next_id (br w).

(** a pending announcer-removal timer is for an element already created *)
Definition timers_fresh (w : World) : Prop :=
  ∀ t x, t ∈ timers (br w) → t_cb t = CbRemoveAnnouncer x →
         x < next_id (br w).

(** What every event handler and timer callback of the hook keeps. *)
Record handler (m : M unit) : Prop := {
  h_core : ∀ c, preserves (λ w, core w = c) m;
  h_valid : preserves valid m;
  h_ann : preserves ann_inv m;
  h_fresh : ∀ n, preserves (fresh_lb n) m;
  h_timers : preserves timers_fresh m
}.

(** the two listeners of the hook *)
Definition mq_listener (i : nat) : Listener :=
  {| l_id := i; l_target := TMediaQuery; l_type := "change";
     l_handler := HandleChange |}.

Definition key_listener (k : nat) (captured : JSValue) : Listener :=
  {| l_id := k; l_target := TDocument; l_type := "keydown";
     l_handler := HandleKeyDown captured |}.

(** the listeners the hook has subscribed and not yet removed *)
Definition sub_listeners (mq key : option nat) (captured : JSValue)
  : list Listener :=
  match mq with Some i => [mq_listener i] | None => [] end ++
  match key with Some k => [key_listener k captured] | None => [] end.

(** the media query list can be subscribed to, one way or the other *)
Definition listenable (a : MQApi) : bool :=
  match a with MQNone => false | _ => true end.

(** which cleanups are pending, by lifecycle phase *)
Definition subs_shape (w : World) : Prop :=
  match phase (hk w) with
  | Mounted =>
      (is_Some (mq_sub (hk w)) ↔
       has_window (env w) && listenable (mq_api (env w)) = true) ∧
      (is_Some (key_sub (hk w)) ↔ has_document (env w) = true)
  | _ => mq_sub (hk w) = None ∧ key_sub (hk w) = None
  end.

(** What holds between the handlers of an event and the render after it. *)
Record PreInv (w : World) : Prop := {
  pi_valid : valid w;
  pi_listeners :
    listeners (br w) =
    sub_listeners (mq_sub (hk w)) (key_sub (hk w)) (rendered_theme (hk w));
  pi_ids : ∀ l, l ∈ listeners (br w) → l_id l < next_id (br w);
  pi_distinct : ∀ i, mq_sub (hk w) = Some i → key_sub (hk w) ≠ Some i;
  pi_ann : phase (hk w) ≠ Unmounted → ann_inv w;
  pi_subs : subs_shape w;
  pi_timers : timers_fresh w;
  pi_matchMedia : has_matchMedia (br w) = true
}.

(** What holds after every event. *)
Definition Inv (w : World) : Prop :=
  PreInv w ∧ rendered_theme (hk w) = theme (hk w).

(** the system preference translated to a theme, or the default where there
    is no window to ask *)
Definition system_theme (e : Env) : JSValue :=
  if has_window e then
    if prefers_dark e then JSString "dark" else JSString "light"
  else THEME_CONFIG.defaultTheme.

(** the value the initialisation effect settles on *)
Definition initial_choice (e : Env) (store : gmap string string) : JSValue :=
  if storage_read_throws e then system_theme e
  else
    match store !! THEME_CONFIG.storageKey with
    | Some s => if is_theme (JSString s) then JSString s else system_theme e
    | None => system_theme e
    end.

(** The worlds the hook can be in: a page, then any events. *)
Definition reachable (w : World) : Prop :=
  ∃ e store classes meta kids evs,
    w = run evs (page e store classes meta kids).

(** everything but the listeners, the identities, the trace and the
    bookkeeping of the render itself *)
Definition page_state (w : World) :=
  (env w, storage (br w), root_classes (br w), root_style (br w),
   meta_theme_color (br w), body (br w), timers (br w), now (br w),
   theme (hk w), mounted (hk w), systemPrefersDark (hk w),
   announcerRef (hk w), phase (hk w)).

(** a browser page with a theme-color meta element, the hook mounted *)
Definition mounted_page (dark_os : bool) (store : gmap string string)
  : World :=
  step EvMount (page (browser_env dark_os) store ∅ (Some "#ffffff") []).

(** the class change and the colour [applyTheme] chooses *)
Definition class_effect (isDark : bool) : Effect :=
  if isDark then FxClassAdd "dark" else FxClassRemove "dark".

Definition theme_color (isDark : bool) : string :=
  if isDark then "#18181b" else "#ffffff".

(** the side effects of [applyTheme], in the order they happen *)
Definition applyTheme_effects (t : JSValue) (w : World) : list Effect :=
  let isDark := js_eqb t (JSString "dark") in
  [FxStyleSet "--theme-transition" "background-color 0.2s ease-in-out";
   class_effect isDark;
   FxSetTimeout CbRemoveTransition THEME_CONFIG.transitionDuration]
  ++ match meta_theme_color (br w) with
     | Some _ => [FxMetaSet (theme_color isDark)]
     | None => []
     end
  ++ [FxStorageSet THEME_CONFIG.storageKey (js_to_string t)]
  ++ (if storage_write_throws (env w)
      then [FxWarn "Failed to save theme preference:"] else []).

(** the element [announceThemeChange] creates *)
Definition announcer_element (n : nat) (t : JSValue) : Element :=
  {| el_id := n; el_tag := "div";
     el_aria_live := "polite"; el_aria_atomic := "true";
     el_class := "sr-only";
     el_text := "Theme changed to " +:+ js_to_string t +:+ " mode" |}.

(** the side effects of [announceThemeChange], in the order they happen *)
Definition announce_effects (t : JSValue) (w : World) : list Effect :=
  match announcerRef (hk w) with
  | Some a => [FxRemoveChild a]
  | None => []
  end
  ++ [FxAppendChild (announcer_element (next_id (br w)) t);
      FxSetTimeout (CbRemoveAnnouncer (next_id (br w))) 1000].

(** the body once the previous announcer, if any, is removed *)
Definition body_without_announcer (w : World) : list Element :=
  match announcerRef (hk w) with
  | Some a => remove_child a (body (br w))
  | None => body (br w)
  end.

(** The specification's rule for the initial theme, in its own words: a
    validly stored preference first, else the system preference translated to
    a theme, else the configured default. *)
Definition spec_initial_theme (persisted : option Theme)
    (system_dark : option bool) : JSValue :=
  match persisted with
  | Some t => theme_val t
  | None =>
      match system_dark with
      | Some d => theme_val (if d then dark else light)
      | None => THEME_CONFIG.defaultTheme
      end
  end.

(** the validly stored preference, if storage can be read and holds one *)
Definition persisted_preference (e : Env) (store : gmap string string)
  : option Theme :=
  if storage_read_throws e then None
  else match store !! THEME_CONFIG.storageKey with
       | Some s => decode_theme (JSString s)
       | None => None
       end.

(** the system signal, where there is a window to ask *)
Definition system_signal (e : Env) : option bool :=
  if has_window e then Some (prefers_dark e) else None.

(** classifiers of effects *)
Definition is_storage_write (fx : Effect) : bool :=
  match fx with FxStorageSet _ _ => true | _ => false end.

(** the storage writes in a trace *)
Definition storage_writes (tr : list Effect) : list Effect :=
  List.filter is_storage_write tr.

(** C1 as the specification states it *)
Definition C1_as_stated : Prop :=
  ∀ w, reachable w → is_mounted w = true →
    let w' := step (EvDom (StorageEvent (Some "theme") (Some "dark"))) w in
    getEffectiveTheme w' = theme_val dark ∧
    storage_writes (trace (br w')) = storage_writes (trace (br w)).

(** events the browser delivers on its own: DOM events and timers *)
Definition is_delivery (ev : Event) : bool :=
  match ev with
  | EvDom _ | EvTick _ => true
  | _ => false
  end.

(** the warning of [setTheme] for an invalid argument *)
Definition warn_effects (v : JSValue) : list Effect :=
  if is_theme v then []
  else [FxWarn ("Invalid theme: " +:+ js_to_string v
                +:+ ". Using default theme.")].

(** everything [setTheme] does to a page with a document, in order *)
Definition setTheme_effects (v : JSValue) (w : World) : list Effect :=
  (warn_effects v ++ [FxSetThemeState (validated v)]
   ++ applyTheme_effects (validated v) w
   ++ announce_effects (validated v) w)%list.

(** a browser whose storage refuses writes *)
Definition write_failing_env : Env :=
  {| has_window := true; has_document := true; prefers_dark := false;
     mq_api := MQModern; storage_read_throws := false;
     storage_write_throws := true |}.

(** the page once [handleChange] has recorded the signal and read storage *)
Definition observed (matches : bool) (w : World) : World :=
  exec (log (FxStorageGet THEME_CONFIG.storageKey))
       (exec (setSystemPrefersDark matches) w).

(** the theme [handleChange] derives from the signal (line 185) *)
Definition system_choice (matches : bool) : JSValue :=
  if matches then JSString "dark" else JSString "light".

(** two calls of [toggleTheme] in succession: the second through the closure
    of the render that follows the first, or both through the closure of one
    render, as two calls in one event handler are *)
Definition toggled_twice (render_between : bool) (w : World) : World :=
  if render_between then step EvToggleTheme (step EvToggleTheme w)
  else
    let toggle := toggleTheme (getEffectiveTheme w) in
    rerender (run_handler (toggle >>> toggle) w).

(** C5 as the specification states it: [toggleTheme()] is [setTheme] of the
    opposite theme, and two calls in succession, however they are made, bring
    the effective theme back *)
Definition C5_as_stated : Prop :=
  ∀ w t render_between,
    reachable w → is_mounted w = true → has_document (env w) = true →
    getEffectiveTheme w = theme_val t →
    step EvToggleTheme w = step (EvSetTheme (theme_val (opposite t))) w ∧
    getEffectiveTheme (toggled_twice render_between w) = getEffectiveTheme w.

(** the light page after another tab has stored [s] under the theme key *)
Definition page_with_foreign_value (s : string) : World :=
  step (EvDom (StorageEvent (Some "theme") (Some s))) (mounted_page false ∅).

(** [ps] are met in this order by effects of [l] *)
Fixpoint in_order (l : list Effect) (ps : list (Effect → bool)) : bool :=
  match l with
  | [] => match ps with [] => true | _ => false end
  | fx :: l' =>
      match ps with
      | [] => true
      | p :: ps' => if p fx then in_order l' ps' else in_order l' ps
      end
  end.

Definition is_set_state (fx : Effect) : bool :=
  match fx with FxSetThemeState _ => true | _ => false end.
Definition is_class_change (fx : Effect) : bool :=
  match fx with FxClassAdd _ | FxClassRemove _ => true | _ => false end.
Definition is_announcement (fx : Effect) : bool :=
  match fx with FxAppendChild _ => true | _ => false end.
Definition is_meta_set (fx : Effect) : bool :=
  match fx with FxMetaSet _ => true | _ => false end.

(** the effects [m] adds to the trace *)
Definition effects_of {A} (m : M A) (w : World) : list Effect :=
  drop (length (trace (br w))) (trace (br (exec m w))).

(** C8 as the specification states it: state, marker class, storage,
    announcement, theme-color metadata, in this order *)
Definition C8_as_stated : Prop :=
  ∀ w t,
    reachable w → is_mounted w = true → has_document (env w) = true →
    meta_theme_color (br w) ≠ None →
    in_order (effects_of (setTheme (theme_val t)) w)
      [is_set_state; is_class_change; is_storage_write; is_announcement;
       is_meta_set] = true.

(** ** Further properties of the page *)

(** the marker class of the document root says what the state cell says *)
Definition dark_shown (w : World) : Prop :=
  "dark" ∈ root_classes (br w) ↔ theme (hk w) = JSString "dark".

(** the theme-color meta element, where the page has one, carries the colour
    of the theme *)
Definition meta_shown (w : World) : Prop :=
  ∀ c, meta_theme_color (br w) = Some c →
       c = theme_color (js_eqb (theme (hk w)) (JSString "dark")).

Definition shown (w : World) : Prop := dark_shown w ∧ meta_shown w.

Definition is_uncaught (fx : Effect) : bool :=
  match fx with FxUncaught _ => true | _ => false end.

(** no exception has escaped a handler, an effect or a timer callback *)
Definition quiet (w : World) : Prop :=
  existsb is_uncaught (trace (br w)) = false.

(** the announcer the ref points to has an identity already handed out *)
Definition ref_fresh (w : World) : Prop :=
  ∀ a, announcerRef (hk w) = Some a → a < next_id (br w).

(** [mounted] is set by the initialisation and never reset *)
Definition mounted_flag (w : World) : Prop :=
  mounted (hk w) = match phase (hk w) with Fresh => false | _ => true end.

(** what stays fixed of the environment *)
Definition static_env (w : World) :=
  (has_window (env w), has_document (env w), mq_api (env w),
   storage_read_throws (env w), storage_write_throws (env w)).

(** What holds of the page besides [Inv]. *)
Definition Extra (w : World) : Prop :=
  quiet w ∧ ref_fresh w ∧ mounted_flag w ∧
  (phase (hk w) ≠ Fresh → shown w).

(** a page with a document on which the attached announcer and the display
    agree with the hook *)
Definition displayed (w : World) : Prop :=
  has_document (env w) = true ∧ ann_inv w ∧ shown w.

(** the page a listener or a callback may start from *)
Definition settled (w : World) : Prop :=
  displayed w ∧ quiet w ∧ ref_fresh w.

(** callbacks need no attached announcer *)
Definition calm (w : World) : Prop :=
  has_document (env w) = true ∧ quiet w ∧ ref_fresh w.

(** a browser whose storage can neither be read nor written *)
Definition no_storage_env : Env :=
  {| has_window := true; has_document := true; prefers_dark := true;
     mq_api := MQLegacy; storage_read_throws := true;
     storage_write_throws := true |}.

(** the chord of lines 211: Ctrl or Cmd, with Shift, on the key 'T' *)
Definition is_shortcut (ctrlKey metaKey shiftKey : bool) (key : string)
  : bool :=
  (ctrlKey || metaKey) && shiftKey && String.eqb key "T".

Definition transition_property : string := "--theme-transition".

Definition unreadable_env : Env :=
  {| has_window := true; has_document := true; prefers_dark := false;
     mq_api := MQModern; storage_read_throws := true;
     storage_write_throws := false |}.

Definition legacy_free_env : Env :=
  {| has_window := true; has_document := true; prefers_dark := false;
     mq_api := MQNone; storage_read_throws := false;
     storage_write_throws := false |}.

(** * Proofs *)

(** ** Reasoning about monadic code *)

Lemma js_eqb_eq a b : js_eqb a b = true ↔ a = b.
Proof.
  destruct a, b; cbn; try (split; (done || congruence)).
  rewrite String.eqb_eq. split; congruence.
Qed.

Lemma js_eqb_refl a : js_eqb a a = true.
Proof. by apply js_eqb_eq. Qed.

Lemma is_theme_decode v : is_theme v = true ↔ ∃ t, v = theme_val t.
Proof.
  unfold is_theme. rewrite orb_true_iff, !js_eqb_eq. split.
  - intros [-> | ->]; [by exists light | by exists dark].
  - intros [[] ->]; [by left | by right].
Qed.

Lemma is_theme_val t : is_theme (theme_val t) = true.
Proof. by destruct t. Qed.

Lemma validated_is_theme v : is_theme (validated v) = true.
Proof.
  unfold validated, is_theme.
  destruct (js_eqb v (JSString "light")) eqn:E1,
           (js_eqb v (JSString "dark")) eqn:E2; cbn; try done.
  - by rewrite E1.
  - by rewrite E1.
  - by rewrite E1, E2.
Qed.

Lemma validated_valid v : is_theme v = true → validated v = v.
Proof.
  unfold validated, is_theme.
  by destruct (js_eqb v (JSString "light")), (js_eqb v (JSString "dark")).
Qed.

Lemma validated_invalid v :
  is_theme v = false → validated v = THEME_CONFIG.defaultTheme.
Proof.
  unfold validated, is_theme.
  by destruct (js_eqb v (JSString "light")), (js_eqb v (JSString "dark")).
Qed.

Section Preserves.
Context (P : World → Prop).

Lemma preserves_ret {A} (a : A) : preserves P (ret a).
Proof. by intros w H. Qed.

Lemma preserves_throw {A} e : preserves P (@throw A e).
Proof. by intros w H. Qed.

Lemma preserves_get {A} (f : World → A) : preserves P (get f).
Proof. by intros w H. Qed.

Lemma preserves_bind {A B} (m : M A) (k : A → M B) :
  preserves P m → (∀ a, preserves P (k a)) → preserves P (bind m k).
Proof.
  intros Hm Hk w H. unfold bind. specialize (Hm w H).
  destruct (m w) as [[a|e] w']; cbn in *; [by apply Hk | done].
Qed.

Lemma preserves_try_catch {A} (m : M A) (h : Exn → M A) :
  preserves P m → (∀ e, preserves P (h e)) → preserves P (try_catch m h).
Proof.
  intros Hm Hh w H. unfold try_catch. specialize (Hm w H).
  destruct (m w) as [[a|e] w']; cbn in *; [done | by apply Hh].
Qed.

Lemma preserves_modify (f : World → World) :
  (∀ w, P w → P (f w)) → preserves P (modify f).
Proof. intros Hf w H. by apply Hf. Qed.

Lemma preserves_run_handler (m : M unit) :
  preserves P m → (∀ e, preserves P (log (FxUncaught e))) →
  ∀ w, P w → P (run_handler m w).
Proof.
  intros Hm Hl w H. unfold run_handler. specialize (Hm w H).
  destruct (m w) as [[a|e] w']; cbn in *; [done |].
  by apply (Hl e).
Qed.

Lemma bind_post {A B} (m : M A) (k : A → M B) w :
  P (snd (m w)) → (∀ a, preserves P (k a)) → P (snd (bind m k w)).
Proof.
  intros H Hk. unfold bind.
  destruct (m w) as [[a|e] w']; cbn in *; [by apply Hk | done].
Qed.
End Preserves.

Create HintDb pres discriminated.

Ltac head_of t :=
  lazymatch t with
  | ?f _ => head_of f
  | _ => t
  end.

(** Walks through monadic code; [leaf] closes the goals [P w → P (f w)] left
    by the state updates, lemmas of the database [pres] cut the walk short. *)
Ltac pres_step leaf :=
  lazymatch goal with
  | |- preserves _ (bind _ _) => apply preserves_bind; [| intros ?; cbv beta]
  | |- preserves _ (try_catch _ _) =>
      apply preserves_try_catch; [| intros ?; cbv beta]
  | |- preserves _ (ret _) => apply preserves_ret
  | |- preserves _ (throw _) => apply preserves_throw
  | |- preserves _ (get _) => apply preserves_get
  | |- preserves _ (modify _) => apply preserves_modify; leaf
  | |- preserves _ (if ?b then _ else _) => destruct b
  | |- preserves _ (match ?x with _ => _ end) => destruct x
  | |- preserves _ (let _ := _ in _) => cbv zeta
  | |- preserves _ ?m =>
      first [ solve [auto 1 with pres nocore]
            | let h := head_of m in unfold h ]
  end.

Ltac pres leaf := repeat pres_step leaf.

(** *** What handlers never touch *)

Ltac leaf_refl := intros ? ?; assumption.

Lemma core_setTheme c v : preserves (λ w, core w = c) (setTheme v).
Proof. pres leaf_refl. Qed.

Lemma core_toggleTheme c v : preserves (λ w, core w = c) (toggleTheme v).
Proof. pres leaf_refl. Qed.

Lemma core_handleChange c b : preserves (λ w, core w = c) (handleChange b).
Proof. pres leaf_refl. Qed.

Lemma core_handleKeyDown c v k1 k2 k3 k :
  preserves (λ w, core w = c) (handleKeyDown v k1 k2 k3 k).
Proof. pres leaf_refl. Qed.

Lemma core_run_callback c cb : preserves (λ w, core w = c) (run_callback cb).
Proof. pres leaf_refl. Qed.

Lemma core_initEffect c : preserves (λ w, core w = c) initEffect.
Proof. pres leaf_refl. Qed.

(** *** The state cell holds a theme *)

Ltac munfold :=
  unfold setTheme, toggleTheme, applyTheme, announceThemeChange, initEffect,
    initialTheme, handleChange, handleKeyDown, detectSystemTheme,
    window_matchMedia, run_callback, systemThemeEffect, systemThemeCleanup, keyboardEffect,
    keyboardCleanup, announcerCleanup,
    body_removeChild, body_appendChild, parent_removeChild, createElement,
    addEventListener, removeEventListener, setTimeout, meta_setContent,
    classList_add, classList_remove, style_setProperty, style_removeProperty,
    localStorage_getItem, localStorage_setItem, use_document,
    setThemeState, setMounted, setSystemPrefersDark, set_announcerRef,
    console_warn, log, when, try_catch, bind, ret, throw, get, modify,
    exec, outcome, run_handler in *.

(** symbolic execution of a small piece of code, one case per path *)
Ltac msim := munfold; repeat (cbn in *; try case_match; simplify_eq); cbn in *.

Lemma setTheme_unfold v w :
  setTheme v w = setTheme_calls (validated v) (warned v w).
Proof.
  unfold setTheme, setTheme_calls, warned, validated, is_theme.
  destruct (js_eqb v (JSString "light")), (js_eqb v (JSString "dark"));
    reflexivity.
Qed.

Lemma theme_applyTheme x t : preserves (λ w, theme (hk w) = x) (applyTheme t).
Proof. pres leaf_refl. Qed.

Lemma theme_announceThemeChange x t :
  preserves (λ w, theme (hk w) = x) (announceThemeChange t).
Proof. pres leaf_refl. Qed.

Lemma theme_run_callback x cb :
  preserves (λ w, theme (hk w) = x) (run_callback cb).
Proof. pres leaf_refl. Qed.

Lemma setTheme_theme v w : theme (hk (exec (setTheme v) w)) = validated v.
Proof.
  unfold exec. rewrite setTheme_unfold. unfold setTheme_calls.
  apply (bind_post (λ w, theme (hk w) = validated v)); [done |].
  intros _. apply preserves_bind; intros; auto using theme_applyTheme,
    theme_announceThemeChange.
Qed.

Lemma valid_setTheme v : preserves valid (setTheme v).
Proof.
  intros w _. unfold valid. fold (exec (setTheme v) w).
  rewrite setTheme_theme. apply validated_is_theme.
Qed.
#[export] Hint Resolve valid_setTheme : pres.

Lemma valid_toggleTheme v : preserves valid (toggleTheme v).
Proof. pres leaf_refl. Qed.

Lemma valid_handleChange b : preserves valid (handleChange b).
Proof. pres leaf_refl. Qed.

Lemma valid_handleKeyDown v k1 k2 k3 k :
  preserves valid (handleKeyDown v k1 k2 k3 k).
Proof. pres leaf_refl. Qed.

Lemma valid_run_callback cb : preserves valid (run_callback cb).
Proof. pres leaf_refl. Qed.

(** *** The announcer the ref points to is a child of the body *)

#[local] Arguments is_child : simpl never.
#[local] Arguments remove_child : simpl never.
#[local] Arguments insert_timer : simpl never.

Lemma is_child_elem a l : is_child a l = true ↔ ∃ e, e ∈ l ∧ el_id e = a.
Proof.
  unfold is_child. rewrite existsb_exists. split.
  - intros (e & Hin & He). apply Nat.eqb_eq in He.
    exists e. by rewrite list_elem_of_In.
  - intros (e & Hin & He). exists e. rewrite <- list_elem_of_In.
    split; [done | by apply Nat.eqb_eq].
Qed.

Lemma is_child_remove_same a l : is_child a (remove_child a l) = false.
Proof.
  apply not_true_is_false. rewrite is_child_elem. intros (e & Hin & He).
  unfold remove_child in Hin. apply list_elem_of_filter in Hin. tauto.
Qed.

Lemma is_child_remove_other a b l :
  a ≠ b → is_child a (remove_child b l) = is_child a l.
Proof.
  intros Hab. apply eq_true_iff_eq. rewrite !is_child_elem.
  unfold remove_child. split.
  - intros (e & Hin & He). apply list_elem_of_filter in Hin.
    exists e. tauto.
  - intros (e & Hin & He). exists e. split; [| done].
    apply list_elem_of_filter. split; [congruence | done].
Qed.

Lemma is_child_app a l e :
  is_child a (l ++ [e]) = is_child a l || Nat.eqb (el_id e) a.
Proof. unfold is_child. rewrite existsb_app. cbn. by rewrite orb_false_r. Qed.

Lemma ann_inv_announceThemeChange t :
  preserves ann_inv (announceThemeChange t).
Proof.
  intros w H. unfold ann_inv in *. msim; intros b Hb; simplify_eq;
    try (by apply H);
    rewrite is_child_app; cbn; rewrite Nat.eqb_refl; apply orb_true_r.
Qed.
#[export] Hint Resolve ann_inv_announceThemeChange : pres.

Lemma ann_inv_run_callback cb : preserves ann_inv (run_callback cb).
Proof.
  intros w H. unfold ann_inv in *. destruct cb as [|a].
  - msim. done.
  - msim; intros b Hb; simplify_eq; try (by apply H).
    rewrite is_child_remove_other; [by apply H |].
    intros ->. by rewrite Nat.eqb_refl in *.
Qed.
#[export] Hint Resolve ann_inv_run_callback : pres.

Lemma ann_inv_setTheme v : preserves ann_inv (setTheme v).
Proof. pres leaf_refl. Qed.
#[export] Hint Resolve ann_inv_setTheme : pres.

Lemma ann_inv_handleChange b : preserves ann_inv (handleChange b).
Proof. pres leaf_refl. Qed.

Lemma ann_inv_handleKeyDown v k1 k2 k3 k :
  preserves ann_inv (handleKeyDown v k1 k2 k3 k).
Proof. pres leaf_refl. Qed.

Lemma ann_inv_initEffect : preserves ann_inv initEffect.
Proof. pres leaf_refl. Qed.

(** *** Identities are handed out in increasing order *)

Ltac leaf_lia := intros ? ?; unfold fresh_lb in *; cbn in *; lia.

Lemma fresh_createElement n tag : preserves (fresh_lb n) (createElement tag).
Proof. intros w H. unfold fresh_lb in *. msim; lia. Qed.
#[export] Hint Resolve fresh_createElement : pres.

Lemma fresh_setTheme n v : preserves (fresh_lb n) (setTheme v).
Proof. pres leaf_lia. Qed.
#[export] Hint Resolve fresh_setTheme : pres.

Lemma fresh_handleChange n b : preserves (fresh_lb n) (handleChange b).
Proof. pres leaf_lia. Qed.

Lemma fresh_handleKeyDown n v k1 k2 k3 k :
  preserves (fresh_lb n) (handleKeyDown v k1 k2 k3 k).
Proof. pres leaf_lia. Qed.

Lemma fresh_run_callback n cb : preserves (fresh_lb n) (run_callback cb).
Proof. pres leaf_lia. Qed.

Lemma fresh_initEffect n : preserves (fresh_lb n) initEffect.
Proof. pres leaf_lia. Qed.

Lemma elem_of_insert_timer t u l : t ∈ insert_timer u l ↔ t = u ∨ t ∈ l.
Proof.
  induction l as [|v l IH]; unfold insert_timer; fold insert_timer.
  - rewrite list_elem_of_singleton, elem_of_nil. tauto.
  - destruct (Nat.ltb (t_due u) (t_due v)).
    + by rewrite elem_of_cons.
    + rewrite !elem_of_cons, IH. tauto.
Qed.

Ltac leaf_timers :=
  let w := fresh "w" in let H := fresh "H" in
  let u := fresh "u" in let x := fresh "x" in
  let Hu := fresh "Hu" in let Hx := fresh "Hx" in
  intros w H u x Hu Hx; cbn in *;
  first [ by eapply H
        | apply elem_of_insert_timer in Hu as [-> | Hu];
          [done | by eapply H] ].

Lemma timers_fresh_applyTheme t : preserves timers_fresh (applyTheme t).
Proof. pres leaf_timers. Qed.
#[export] Hint Resolve timers_fresh_applyTheme : pres.

Lemma timers_fresh_announceThemeChange t :
  preserves timers_fresh (announceThemeChange t).
Proof.
  intros w H. unfold timers_fresh in *.
  msim; intros u x Hu Hx; try (by eapply H).
  all: apply elem_of_insert_timer in Hu as [-> | Hu]; cbn in *;
    [simplify_eq; lia | apply Nat.lt_lt_succ_r; by eapply H].
Qed.
#[export] Hint Resolve timers_fresh_announceThemeChange : pres.

Lemma timers_fresh_setTheme v : preserves timers_fresh (setTheme v).
Proof. pres leaf_refl. Qed.
#[export] Hint Resolve timers_fresh_setTheme : pres.

Lemma timers_fresh_handleChange b : preserves timers_fresh (handleChange b).
Proof. pres leaf_refl. Qed.

Lemma timers_fresh_handleKeyDown v k1 k2 k3 k :
  preserves timers_fresh (handleKeyDown v k1 k2 k3 k).
Proof. pres leaf_refl. Qed.

Lemma timers_fresh_run_callback cb : preserves timers_fresh (run_callback cb).
Proof. pres leaf_refl. Qed.

Lemma timers_fresh_initEffect : preserves timers_fresh initEffect.
Proof. pres leaf_refl. Qed.

(** *** Handlers *)

Lemma handler_setTheme v : handler (setTheme v).
Proof.
  split; auto using core_setTheme, valid_setTheme, ann_inv_setTheme,
    fresh_setTheme, timers_fresh_setTheme.
Qed.

Lemma handler_toggleTheme v : handler (toggleTheme v).
Proof. unfold toggleTheme. apply handler_setTheme. Qed.

Lemma handler_handleChange b : handler (handleChange b).
Proof.
  split; auto using core_handleChange, valid_handleChange,
    ann_inv_handleChange, fresh_handleChange, timers_fresh_handleChange.
Qed.

Lemma handler_handleKeyDown v k1 k2 k3 k :
  handler (handleKeyDown v k1 k2 k3 k).
Proof.
  split; auto using core_handleKeyDown, valid_handleKeyDown,
    ann_inv_handleKeyDown, fresh_handleKeyDown, timers_fresh_handleKeyDown.
Qed.

Lemma handler_run_callback cb : handler (run_callback cb).
Proof.
  split; auto using core_run_callback, valid_run_callback,
    ann_inv_run_callback, fresh_run_callback, timers_fresh_run_callback.
Qed.

Lemma handler_ret : handler (ret tt).
Proof. split; intros; apply preserves_ret. Qed.

Lemma handler_run_listener e l : handler (run_listener e l).
Proof.
  unfold run_listener.
  destruct (l_handler l), e; auto using handler_ret, handler_handleChange,
    handler_handleKeyDown.
Qed.

(** ** The invariant of the hook instance *)

Lemma core_inj w w' :
  core w' = core w →
  env w' = env w ∧ listeners (br w') = listeners (br w) ∧
  phase (hk w') = phase (hk w) ∧ mq_sub (hk w') = mq_sub (hk w) ∧
  key_sub (hk w') = key_sub (hk w) ∧
  rendered_theme (hk w') = rendered_theme (hk w).
Proof. unfold core. intros [=]. auto 10. Qed.

Lemma core_matchMedia w w' :
  core w' = core w → has_matchMedia (br w') = has_matchMedia (br w).
Proof. unfold core. by intros [=]. Qed.

Lemma handler_run m w :
  handler m →
  let w' := run_handler m w in
  core w' = core w ∧ (valid w → valid w') ∧ (ann_inv w → ann_inv w') ∧
  next_id (br w) ≤ next_id (br w') ∧ (timers_fresh w → timers_fresh w').
Proof.
  intros [Hc Hv Ha Hf Ht]. cbn. repeat split.
  - apply (preserves_run_handler (λ x, core x = core w)); [done | | done].
    intros e. pres leaf_refl.
  - apply preserves_run_handler; [done |]. intros e. pres leaf_refl.
  - apply preserves_run_handler; [done |]. intros e. pres leaf_refl.
  - apply (preserves_run_handler (fresh_lb (next_id (br w))));
      [done | | unfold fresh_lb; lia].
    intros e. pres leaf_lia.
  - apply preserves_run_handler; [done |]. intros e. pres leaf_refl.
Qed.

Lemma handler_PreInv m w :
  handler m → PreInv w → PreInv (run_handler m w).
Proof.
  intros Hm [Hv Hl Hi Hd Ha Hs Ht Hmm].
  destruct (handler_run m w Hm) as (Hc & Hv' & Ha' & Hf & Ht').
  pose proof (core_matchMedia _ _ Hc) as Hmm'.
  apply core_inj in Hc as (He & Hls & Hp & Hmq & Hk & Hr).
  split.
  - auto.
  - by rewrite Hls, Hmq, Hk, Hr.
  - intros l Hin. rewrite Hls in Hin. specialize (Hi l Hin). lia.
  - by rewrite Hmq, Hk.
  - rewrite Hp. auto.
  - unfold subs_shape in *. by rewrite Hp, Hmq, Hk, He.
  - auto.
  - by rewrite Hmm'.
Qed.

Lemma handlers_fold {X} (f : X → M unit) (l : list X) w :
  (∀ x, handler (f x)) →
  let w' := fold_left (λ w x, run_handler (f x) w) l w in
  core w' = core w ∧ (PreInv w → PreInv w') ∧
  (valid w → valid w') ∧ next_id (br w) ≤ next_id (br w').
Proof.
  intros Hf. revert w. induction l as [|x l IH]; intros w; cbn.
  - auto.
  - destruct (IH (run_handler (f x) w)) as (Hc & Hp & Hv & Hn).
    destruct (handler_run (f x) w (Hf x)) as (Hc' & Hv' & _ & Hn' & _).
    split; [| split; [| split]].
    + by rewrite Hc.
    + intros H. apply Hp. by apply handler_PreInv.
    + auto.
    + lia.
Qed.

(** *** The effects and their cleanups, run by React *)

Lemma systemThemeEffect_run w :
  has_matchMedia (br w) = true →
  run_handler systemThemeEffect w =
  if has_window (env w) && listenable (mq_api (env w)) then
    upd_hk (hk_set_mq_sub (Some (next_id (br w))))
      (upd_br (λ b,
         br_set_next_id (S (next_id b))
           (br_set_listeners (listeners b ++ [mq_listener (next_id b)])
              (br_set_trace
                 (trace b ++ [FxAddListener (mq_listener (next_id b))]) b)))
         w)
  else w.
Proof.
  intros Hmm.
  unfold systemThemeEffect, window_matchMedia, run_handler, addEventListener,
    log, modify, get, bind, ret.
  destruct (has_window (env w)); cbn; [| reflexivity]. rewrite Hmm. cbn.
  destruct (mq_api (env w)); reflexivity.
Qed.

(** without [matchMedia] the effect throws at line 176 *)
Lemma systemThemeEffect_run_missing w :
  has_matchMedia (br w) = false →
  run_handler systemThemeEffect w =
  if has_window (env w)
  then exec (log (FxUncaught matchMedia_missing)) w
  else w.
Proof.
  intros Hmm.
  unfold systemThemeEffect, window_matchMedia, run_handler, exec, log,
    modify, get, bind, ret, throw.
  destruct (has_window (env w)); cbn; [| reflexivity]. by rewrite Hmm.
Qed.

Lemma keyboardEffect_run c w :
  run_handler (keyboardEffect c) w =
  if has_document (env w) then
    upd_hk (hk_set_key_sub (Some (next_id (br w))))
      (upd_br (λ b,
         br_set_next_id (S (next_id b))
           (br_set_listeners (listeners b ++ [key_listener (next_id b) c])
              (br_set_trace
                 (trace b ++ [FxAddListener (key_listener (next_id b) c)])
                 b)))
         w)
  else exec (log (FxUncaught (ReferenceError "document"))) w.
Proof.
  unfold keyboardEffect, run_handler, addEventListener, use_document, log,
    modify, get, bind, ret, throw, exec.
  destruct (has_document (env w)); reflexivity.
Qed.

Lemma keyboardCleanup_run w :
  run_handler keyboardCleanup w =
  match key_sub (hk w) with
  | Some k =>
      if has_document (env w) then
        upd_hk (hk_set_key_sub None)
          (upd_br (λ b,
             br_set_listeners (filter (λ l, l_id l ≠ k) (listeners b))
               (br_set_trace (trace b ++ [FxRemoveListener k]) b)) w)
      else exec (log (FxUncaught (ReferenceError "document"))) w
  | None => w
  end.
Proof.
  unfold keyboardCleanup, run_handler, removeEventListener, use_document,
    log, modify, get, bind, ret, throw, exec.
  destruct (key_sub (hk w)); cbn; [| reflexivity].
  destruct (has_document (env w)); reflexivity.
Qed.

Lemma systemThemeCleanup_run w :
  run_handler systemThemeCleanup w =
  match mq_sub (hk w) with
  | Some i =>
      upd_hk (hk_set_mq_sub None)
        (upd_br (λ b,
           br_set_listeners (filter (λ l, l_id l ≠ i) (listeners b))
             (br_set_trace (trace b ++ [FxRemoveListener i]) b)) w)
  | None => w
  end.
Proof.
  unfold systemThemeCleanup, run_handler, removeEventListener, log, modify,
    get, bind, ret.
  destruct (mq_sub (hk w)); reflexivity.
Qed.

Lemma announcerCleanup_run w :
  run_handler announcerCleanup w =
  match announcerRef (hk w) with
  | Some a =>
      if is_child a (body (br w)) then
        upd_br (λ b,
          br_set_body (remove_child a (body b))
            (br_set_trace (trace b ++ [FxRemoveChild a]) b)) w
      else w
  | None => w
  end.
Proof.
  unfold announcerCleanup, run_handler, parent_removeChild, log, modify,
    get, bind, ret.
  destruct (announcerRef (hk w)); cbn; [| reflexivity].
  destruct (is_child _ _); reflexivity.
Qed.

Lemma rerender_id w : rendered_theme (hk w) = theme (hk w) → rerender w = w.
Proof.
  intros H. unfold rerender. destruct (phase (hk w)); [done | | done].
  rewrite H, js_eqb_refl. destruct w as [e b h]. destruct h. cbn in *.
  by subst.
Qed.

Lemma filter_key_listeners mq k c :
  (∀ i, mq = Some i → i ≠ k) →
  filter (λ l, l_id l ≠ k) (sub_listeners mq (Some k) c) =
  sub_listeners mq None c.
Proof.
  intros H. unfold sub_listeners. rewrite filter_app. destruct mq as [i|].
  - rewrite filter_cons_True by (cbn; by apply H).
    rewrite filter_cons_False by (cbn; tauto). done.
  - rewrite filter_cons_False by (cbn; tauto). done.
Qed.

Lemma elem_of_sub_listeners l mq key c :
  l ∈ sub_listeners mq key c ↔
  (∃ i, mq = Some i ∧ l = mq_listener i) ∨
  (∃ k, key = Some k ∧ l = key_listener k c).
Proof.
  unfold sub_listeners. rewrite elem_of_app. split.
  - intros [H | H]; [left; destruct mq | right; destruct key];
      first [ apply list_elem_of_singleton in H; eauto
            | by apply elem_of_nil in H ].
  - intros [(i & -> & ->) | (k & -> & ->)]; [left | right];
      by apply list_elem_of_singleton.
Qed.

Lemma rerender_Inv w :
  PreInv w →
  (phase (hk w) ≠ Mounted → rendered_theme (hk w) = theme (hk w)) →
  Inv (rerender w).
Proof.
  intros HP Hr.
  destruct (js_eqb (rendered_theme (hk w)) (theme (hk w))) eqn:Hjs.
  { apply js_eqb_eq in Hjs. rewrite rerender_id by done. by split. }
  unfold rerender.
  destruct (phase (hk w)) eqn:Hph;
    [ rewrite Hr, js_eqb_refl in Hjs; done |
    | rewrite Hr, js_eqb_refl in Hjs; done ].
  rewrite Hjs.
  destruct HP as [Hv Hl Hi Hdi Ha Hs Ht Hmm].
  unfold subs_shape in Hs. rewrite Hph in Hs. destruct Hs as [Hmq Hkey].
  rewrite keyboardCleanup_run, keyboardEffect_run. cbn.
  destruct (key_sub (hk w)) as [k|] eqn:Hk.
  - destruct (has_document (env w)) eqn:Hd;
      [| destruct Hkey as [Hkey _]; by specialize (Hkey ltac:(eauto))].
    assert (∀ i, mq_sub (hk w) = Some i → i ≠ k) as Hik.
    { intros i Hi' ->. by apply (Hdi k). }
    cbn. rewrite Hd. split; [split |];
      unfold valid, ann_inv, timers_fresh, subs_shape in *; cbn.
    + done.
    + rewrite Hl, filter_key_listeners by done.
      unfold sub_listeners. by destruct (mq_sub (hk w)).
    + intros l. rewrite Hl, filter_key_listeners by done.
      rewrite elem_of_app, list_elem_of_singleton.
      intros [Hin | ->]; cbn; [| lia].
      assert (l ∈ listeners (br w)) as Hin'.
      { rewrite Hl. apply elem_of_sub_listeners.
        apply elem_of_sub_listeners in Hin as [H | (? & ? & ?)];
          [by left | done]. }
      specialize (Hi l Hin'). lia.
    + intros i Hi' [= <-].
      assert (mq_listener (next_id (br w)) ∈ listeners (br w)) as Hin.
      { rewrite Hl. apply elem_of_sub_listeners. left. eauto. }
      specialize (Hi _ Hin). cbn in Hi. lia.
    + exact Ha.
    + rewrite Hph, Hd. split; [done |]. split; eauto.
    + intros t x Hin Hx. specialize (Ht t x Hin Hx). lia.
    + exact Hmm.
    + done.
  - destruct (has_document (env w)) eqn:Hd;
      [destruct Hkey as [_ Hkey]; by destruct Hkey |].
    cbn. rewrite Hd. cbn. split; [split |];
      unfold valid, ann_inv, timers_fresh, subs_shape in *; cbn; try done.
    + by rewrite Hl, Hk.
    + by rewrite Hk.
    + by rewrite Hph, Hk, Hd.
Qed.

Lemma fold_preserves {X} (P : World → Prop) (f : X → M unit) (l : list X) :
  (∀ x, preserves P (f x)) →
  (∀ e, preserves P (log (FxUncaught e))) →
  ∀ w, P w → P (fold_left (λ w x, run_handler (f x) w) l w).
Proof.
  intros Hf Hl. induction l as [|x l IH]; intros w H; cbn; [done |].
  apply IH. by apply preserves_run_handler.
Qed.

(** *** Initialisation *)

Lemma system_theme_is_theme e : is_theme (system_theme e) = true.
Proof. unfold system_theme. by destruct (has_window e), (prefers_dark e). Qed.

Lemma initial_choice_is_theme e store :
  is_theme (initial_choice e store) = true.
Proof.
  unfold initial_choice. destruct (storage_read_throws e);
    [apply system_theme_is_theme |].
  destruct (store !! _) as [s|]; [| apply system_theme_is_theme].
  destruct (is_theme (JSString s)) eqn:E; [done | apply system_theme_is_theme].
Qed.

Lemma detectSystemTheme_outcome w :
  has_matchMedia (br w) = true →
  outcome detectSystemTheme w = Ok (system_theme (env w)).
Proof.
  intros Hmm.
  unfold detectSystemTheme, window_matchMedia, system_theme, outcome,
    setSystemPrefersDark, log, modify, get, bind, ret.
  destruct (has_window (env w)); cbn; [| done]. rewrite Hmm. cbn.
  by destruct (prefers_dark (env w)).
Qed.

Lemma truthy_theme s :
  js_truthy (JSString s)
  && (js_eqb (JSString s) (JSString "light")
      || js_eqb (JSString s) (JSString "dark"))
  = is_theme (JSString s).
Proof.
  unfold is_theme. cbn.
  destruct (String.eqb s "light") eqn:E1.
  { apply String.eqb_eq in E1. by subst. }
  destruct (String.eqb s "dark") eqn:E2.
  { apply String.eqb_eq in E2. by subst. }
  cbn. apply andb_false_r.
Qed.

Lemma initialTheme_outcome w :
  has_matchMedia (br w) = true →
  outcome initialTheme w = Ok (initial_choice (env w) (storage (br w))).
Proof.
  intros Hmm.
  unfold initialTheme, initial_choice, outcome, localStorage_getItem,
    console_warn, log, try_catch, modify, get, bind, ret, throw in *.
  cbn -[js_truthy js_eqb detectSystemTheme].
  destruct (storage_read_throws (env w)); cbn -[js_truthy js_eqb detectSystemTheme].
  - by apply (detectSystemTheme_outcome (upd_br _ (upd_br _ w))).
  - pose proof (detectSystemTheme_outcome
                  (upd_br (λ b, br_set_trace
                     (trace b ++ [FxStorageGet THEME_CONFIG.storageKey]) b)
                     w) Hmm) as H.
    unfold outcome in H. cbn -[detectSystemTheme] in H.
    destruct (storage (br w) !! THEME_CONFIG.storageKey) as [s|] eqn:Es;
      [cbn -[js_truthy js_eqb detectSystemTheme] | cbn -[detectSystemTheme]].
    + rewrite truthy_theme.
      destruct (is_theme (JSString s)); cbn -[detectSystemTheme]; [done |].
      destruct (detectSystemTheme _) as [[?|?] ?]; cbn in *; simplify_eq;
        reflexivity.
    + destruct (detectSystemTheme _) as [[?|?] ?]; cbn in *; simplify_eq;
        reflexivity.
Qed.

(** *** Outcomes *)

Lemma bind_ok {A B} (m : M A) (k : A → M B) w a :
  outcome m w = Ok a → bind m k w = k a (exec m w).
Proof.
  unfold outcome, exec, bind. destruct (m w) as [r w']. cbn. by intros ->.
Qed.

Lemma run_handler_ok m w : outcome m w = Ok tt → run_handler m w = exec m w.
Proof.
  unfold outcome, exec, run_handler. destruct (m w) as [r w']. cbn.
  by intros ->.
Qed.

Lemma setThemeState_ok t w : outcome (setThemeState t) w = Ok tt.
Proof. reflexivity. Qed.

Lemma applyTheme_ok t w : outcome (applyTheme t) w = Ok tt.
Proof. msim; reflexivity. Qed.

Lemma announceThemeChange_ok t w :
  has_document (env w) = true → ann_inv w →
  outcome (announceThemeChange t) w = Ok tt.
Proof.
  intros Hd Ha. unfold ann_inv in Ha. msim; try reflexivity; try congruence.
  all: match goal with
       | H : is_child ?n _ = false |- _ =>
           rewrite (Ha n eq_refl) in H; discriminate
       end.
Qed.

Lemma env_setTheme_calls e t :
  preserves (λ w, env w = e) (setThemeState t >>> applyTheme t).
Proof. pres leaf_refl. Qed.

Lemma ann_inv_apply t :
  preserves ann_inv (setThemeState t >>> applyTheme t).
Proof. pres leaf_refl. Qed.

Lemma setTheme_calls_ok t w :
  has_document (env w) = true → ann_inv w →
  outcome (setTheme_calls t) w = Ok tt.
Proof.
  intros Hd Ha. unfold setTheme_calls.
  pose proof (env_setTheme_calls (env w) t w eq_refl) as He.
  pose proof (ann_inv_apply t w Ha) as Ha'.
  unfold outcome in *. unfold bind at 1.
  unfold bind at 1 in He. unfold bind at 1 in Ha'.
  destruct (setThemeState t w) as [r1 w1] eqn:E1.
  pose proof (setThemeState_ok t w) as H1. unfold outcome in H1.
  rewrite E1 in H1. cbn in H1. subst r1.
  unfold bind at 1. unfold bind in He, Ha'.
  pose proof (applyTheme_ok t w1) as H2. unfold outcome in H2.
  destruct (applyTheme t w1) as [r2 w2] eqn:E2. cbn in *. subst r2.
  apply announceThemeChange_ok; [congruence | done].
Qed.

Lemma warned_env v w : env (warned v w) = env w.
Proof. unfold warned. by destruct (is_theme v). Qed.

Lemma warned_ann_inv v w : ann_inv w → ann_inv (warned v w).
Proof. unfold warned. by destruct (is_theme v). Qed.

(** [setTheme] returns whenever there is a document and the announcer the
    ref points to is still attached. *)
Lemma setTheme_ok v w :
  has_document (env w) = true → ann_inv w → outcome (setTheme v) w = Ok tt.
Proof.
  intros Hd Ha. unfold outcome. rewrite setTheme_unfold.
  apply setTheme_calls_ok; [by rewrite warned_env | by apply warned_ann_inv].
Qed.

Lemma initEffect_ok w :
  has_matchMedia (br w) = true → outcome initEffect w = Ok tt.
Proof.
  intros Hmm. unfold outcome, initEffect.
  rewrite (bind_ok _ _ _ _ (initialTheme_outcome w Hmm)).
  rewrite (bind_ok _ _ _ _ (setThemeState_ok _ _)).
  rewrite (bind_ok _ _ _ _ (applyTheme_ok _ _)).
  reflexivity.
Qed.

Lemma theme_setMounted x b : preserves (λ w, theme (hk w) = x) (setMounted b).
Proof. pres leaf_refl. Qed.

Lemma initEffect_theme w :
  has_matchMedia (br w) = true →
  theme (hk (exec initEffect w)) = initial_choice (env w) (storage (br w)).
Proof.
  intros Hmm. unfold exec, initEffect.
  rewrite (bind_ok _ _ _ _ (initialTheme_outcome w Hmm)).
  apply (bind_post (λ x, theme (hk x) = _)); [reflexivity |].
  intros _. apply preserves_bind; intros;
    auto using theme_applyTheme, theme_setMounted.
Qed.

Lemma valid_initEffect w :
  has_matchMedia (br w) = true → valid (exec initEffect w).
Proof.
  intros Hmm. unfold valid. rewrite initEffect_theme by done.
  apply initial_choice_is_theme.
Qed.

(** *** Every step keeps the invariant *)

Lemma subscribe_PreInv w :
  has_matchMedia (br w) = true →
  listeners (br w) = [] → mq_sub (hk w) = None → key_sub (hk w) = None →
  phase (hk w) = Mounted → valid w → ann_inv w → timers_fresh w →
  let w' := run_handler systemThemeEffect w in
  let w'' := run_handler (keyboardEffect (rendered_theme (hk w'))) w' in
  PreInv w'' ∧ theme (hk w'') = theme (hk w).
Proof.
  intros Hmm Hl Hmq Hk Hph Hv Ha Ht. cbn.
  rewrite systemThemeEffect_run by done. rewrite keyboardEffect_run.
  destruct (has_window (env w) && listenable (mq_api (env w))) eqn:Hw;
    cbn; destruct (has_document (env w)) eqn:Hd; cbn.
  all: split; [split |];
    unfold valid, ann_inv, timers_fresh, subs_shape in *; cbn;
    rewrite ?Hl, ?Hmq, ?Hk, ?Hph, ?Hw, ?Hd; cbn; try done.
  all: try (intros t x Hin Hx; specialize (Ht t x Hin Hx); lia).
  all: try (intros l Hin;
            repeat (apply elem_of_cons in Hin as [-> | Hin]; [cbn; lia |]);
            by apply elem_of_nil in Hin).
  all: try (intros _; exact Ha).
  all: try (intros i [= <-] [=]; lia).
  all: try (split; split; eauto; intros [? [=]]).
Qed.

Lemma mount_Inv w : Inv w → phase (hk w) = Fresh → Inv (mount w).
Proof.
  intros [[Hv Hl Hi Hdi Ha Hs Ht Hmm] Hr] Hph. unfold mount.
  unfold subs_shape in Hs. rewrite Hph in Hs. destruct Hs as [Hmq Hk].
  rewrite Hmq, Hk in Hl. cbn in Hl.
  set (w0 := upd_hk (hk_set_phase Mounted) w).
  assert (has_matchMedia (br w0) = true) as Hmm0 by exact Hmm.
  rewrite (run_handler_ok initEffect) by by apply initEffect_ok.
  pose proof (core_initEffect (core w0) w0 eq_refl) as Hc.
  pose proof (core_matchMedia _ _ Hc) as Hmm1.
  apply core_inj in Hc as (He & Hls & Hp & Hmq' & Hk' & Hr').
  fold (exec initEffect w0) in *.
  destruct (subscribe_PreInv (exec initEffect w0)) as [HP Hth].
  - by rewrite Hmm1.
  - by rewrite Hls.
  - by rewrite Hmq'.
  - by rewrite Hk'.
  - by rewrite Hp.
  - by apply valid_initEffect.
  - apply ann_inv_initEffect. apply Ha. by rewrite Hph.
  - by apply timers_fresh_initEffect.
  - apply rerender_Inv; [done |]. intros Hne. destruct Hne.
    destruct HP as [_ _ _ _ _ Hs' _]. revert Hs'.
    rewrite systemThemeEffect_run by by rewrite Hmm1.
    rewrite keyboardEffect_run.
    destruct (has_window _ && _); cbn; destruct (has_document _); cbn;
      by rewrite ?Hp.
Qed.

Lemma unmount_Inv w :
  Inv w → phase (hk w) = Mounted →
  Inv (unmount w) ∧ listeners (br (unmount w)) = [].
Proof.
  intros [[Hv Hl Hi Hdi Ha Hs Ht Hmm] Hr] Hph. unfold unmount.
  unfold subs_shape in Hs. rewrite Hph in Hs. destruct Hs as [Hmq Hkey].
  rewrite systemThemeCleanup_run, keyboardCleanup_run, announcerCleanup_run.
  assert (key_sub (hk w) ≠ None → has_document (env w) = true) as Hkd.
  { intros Hne. apply Hkey. by destruct (key_sub (hk w)). }
  destruct (mq_sub (hk w)) as [i|] eqn:Ei;
    destruct (key_sub (hk w)) as [k|] eqn:Ek; cbn; rewrite ?Ek; cbn;
    rewrite ?Hkd by done; cbn.
  all: destruct (announcerRef (hk w)) as [a|]; cbn;
    [destruct (is_child a (body (br w))) |]; cbn.
  all: try rewrite Hl; unfold sub_listeners; cbn.
  all: repeat (case_decide; cbn); try done.
  all: try (exfalso; by eapply Hdi).
  all: subst; try (exfalso; by eapply Hdi).
  all: split; [| reflexivity].
  all: split; [split |];
    unfold valid, ann_inv, timers_fresh, subs_shape in *; cbn;
    try done.
  all: try (intros l Hin; by apply elem_of_nil in Hin).
  all: try rewrite Hl; unfold sub_listeners; cbn.
  all: repeat (case_decide; cbn); try done.
  all: rewrite ?Ei, ?Ek; try done.
  all: try (intros l Hin; by apply elem_of_nil in Hin).
Qed.

Lemma happened_Inv e w : Inv w → Inv (happened e w).
Proof.
  intros [[Hv Hl Hi Hdi Ha Hs Ht Hmm] Hr].
  destruct e as [m | [k|] [v|] | c m s k]; (split; [split |]); done.
Qed.

Lemma dispatch_nil e w : listeners (br w) = [] → dispatch e w = w.
Proof. unfold dispatch. by intros ->. Qed.

Lemma dispatch_PreInv e w :
  PreInv w → PreInv (dispatch e w) ∧ core (dispatch e w) = core w.
Proof.
  intros H. unfold dispatch.
  destruct (handlers_fold (run_listener e)
              (filter (λ l, listens e l = true) (listeners (br w))) w
              (handler_run_listener e)) as (Hc & Hp & _).
  auto.
Qed.

Lemma theme_advance ms w : theme (hk (advance ms w)) = theme (hk w).
Proof.
  unfold advance.
  apply (fold_preserves (λ x, theme (hk x) = theme (hk w))); [| | done].
  - intros x. apply theme_run_callback.
  - intros e. pres leaf_refl.
Qed.

Lemma advance_PreInv ms w :
  PreInv w → PreInv (advance ms w) ∧ core (advance ms w) = core w.
Proof.
  intros [Hv Hl Hi Hdi Ha Hs Ht Hmm]. unfold advance.
  match goal with
  | |- context [fold_left ?f ?l ?w0] =>
      destruct (handlers_fold (λ x, run_callback (t_cb x)) l w0
                  (λ x, handler_run_callback (t_cb x))) as (Hc & Hp & _)
  end.
  split; [| by rewrite Hc].
  apply Hp. split; try done.
  intros t x Hin Hx. cbn in Hin. apply list_elem_of_filter in Hin as [_ Hin].
  by apply (Ht t x).
Qed.

Lemma PreInv_unsubscribed w :
  PreInv w → phase (hk w) ≠ Mounted → listeners (br w) = [].
Proof.
  intros [_ Hl _ _ _ Hs _] Hph. unfold subs_shape in Hs.
  destruct (phase (hk w)); [| done |]; destruct Hs as [Hmq Hk];
    by rewrite Hl, Hmq, Hk.
Qed.

Lemma is_mounted_phase w : is_mounted w = true ↔ phase (hk w) = Mounted.
Proof. unfold is_mounted. by destruct (phase (hk w)). Qed.

Lemma step_Inv ev w : Inv w → Inv (step ev w).
Proof.
  intros HI. destruct ev as [| | v | | e | ms]; cbn.
  - destruct (phase (hk w)) eqn:Hph; [by apply mount_Inv | done | done].
  - destruct (is_mounted w) eqn:Hm; [| done].
    apply unmount_Inv; [done | by apply is_mounted_phase].
  - destruct (is_mounted w) eqn:Hm; [| done].
    apply is_mounted_phase in Hm. destruct HI as [HP Hr].
    destruct (handler_run (setTheme v) w (handler_setTheme v)) as (Hc & _).
    apply core_inj in Hc as (_ & _ & Hp & _).
    apply rerender_Inv; [apply handler_PreInv; [apply handler_setTheme | done] |].
    intros Hne. by rewrite Hp in Hne.
  - destruct (is_mounted w) eqn:Hm; [| done].
    apply is_mounted_phase in Hm. destruct HI as [HP Hr].
    destruct (handler_run (toggleTheme (rendered_theme (hk w))) w
                (handler_toggleTheme _)) as (Hc & _).
    apply core_inj in Hc as (_ & _ & Hp & _).
    apply rerender_Inv;
      [apply handler_PreInv; [apply handler_toggleTheme | done] |].
    intros Hne. by rewrite Hp in Hne.
  - apply (happened_Inv e) in HI as [HP Hr].
    destruct (dispatch_PreInv e _ HP) as [HP' Hc].
    apply rerender_Inv; [done |]. intros Hne.
    apply core_inj in Hc as (_ & _ & Hp & _). rewrite Hp in Hne.
    by rewrite dispatch_nil by by apply PreInv_unsubscribed.
  - destruct HI as [HP Hr]. destruct (advance_PreInv ms w HP) as [HP' Hc].
    apply rerender_Inv; [done |]. intros _.
    apply core_inj in Hc as (_ & _ & _ & _ & _ & Hc).
    by rewrite Hc, theme_advance.
Qed.

Lemma run_Inv evs w : Inv w → Inv (run evs w).
Proof.
  revert w. induction evs as [|ev evs IH]; intros w H; cbn; [done |].
  apply IH. by apply step_Inv.
Qed.

Lemma page_Inv e store classes meta kids :
  Inv (page e store classes meta kids).
Proof.
  split; [split |]; try done.
  - intros l Hin. by apply elem_of_nil in Hin.
  - intros t x Hin. by apply elem_of_nil in Hin.
Qed.

Lemma reachable_Inv w : reachable w → Inv w.
Proof.
  intros (e & store & classes & meta & kids & evs & ->).
  apply run_Inv, page_Inv.
Qed.

Lemma reachable_step ev w : reachable w → reachable (step ev w).
Proof.
  intros (e & store & classes & meta & kids & evs & ->).
  exists e, store, classes, meta, kids, (evs ++ [ev])%list.
  unfold run. by rewrite fold_left_app.
Qed.

(** *** What a render leaves alone *)

Lemma rerender_page_state w : page_state (rerender w) = page_state w.
Proof.
  unfold rerender. destruct (phase (hk w)) eqn:Hph; [done | | done].
  destruct (js_eqb _ _);
    [unfold page_state; cbn; by rewrite ?Hph |].
  rewrite keyboardCleanup_run, keyboardEffect_run. cbn.
  destruct (key_sub (hk w)); cbn; destruct (has_document (env w)) eqn:Hd;
    unfold page_state; cbn; rewrite ?Hd; cbn; by rewrite ?Hph.
Qed.

Lemma page_state_inj w w' :
  page_state w' = page_state w →
  env w' = env w ∧ storage (br w') = storage (br w) ∧
  root_classes (br w') = root_classes (br w) ∧
  body (br w') = body (br w) ∧ timers (br w') = timers (br w) ∧
  now (br w') = now (br w) ∧ theme (hk w') = theme (hk w) ∧
  mounted (hk w') = mounted (hk w) ∧
  announcerRef (hk w') = announcerRef (hk w) ∧
  phase (hk w') = phase (hk w).
Proof. unfold page_state. intros [=]. auto 15. Qed.

Lemma rerender_rendered w :
  phase (hk w) = Mounted → rendered_theme (hk (rerender w)) = theme (hk w).
Proof.
  intros Hph. unfold rerender. rewrite Hph.
  destruct (js_eqb _ _); [done |].
  rewrite keyboardCleanup_run, keyboardEffect_run. cbn.
  destruct (key_sub (hk w)); cbn; destruct (has_document (env w)) eqn:Hd;
    cbn; by rewrite ?Hd.
Qed.

Lemma phase_run_handler_setTheme v w :
  phase (hk (run_handler (setTheme v) w)) = phase (hk w).
Proof.
  destruct (handler_run (setTheme v) w (handler_setTheme v)) as (Hc & _).
  by apply core_inj in Hc as (_ & _ & Hp & _).
Qed.

Lemma theme_run_handler_setTheme v w :
  theme (hk (run_handler (setTheme v) w)) = validated v.
Proof.
  pose proof (setTheme_theme v w) as H. unfold exec, run_handler in *.
  by destruct (setTheme v w) as [[[]|e] w'].
Qed.

Lemma step_setTheme_get v w :
  is_mounted w = true →
  getEffectiveTheme (step (EvSetTheme v) w) = validated v ∧
  is_mounted (step (EvSetTheme v) w) = true.
Proof.
  intros Hm. cbn. rewrite Hm. apply is_mounted_phase in Hm.
  unfold getEffectiveTheme. split.
  - rewrite rerender_rendered by by rewrite phase_run_handler_setTheme.
    apply theme_run_handler_setTheme.
  - apply is_mounted_phase.
    pose proof (rerender_page_state (run_handler (setTheme v) w)) as H.
    apply page_state_inj in H. destruct H as (_&_&_&_&_&_&_&_&_&H).
    by rewrite H, phase_run_handler_setTheme.
Qed.

(** ** The claims *)

(** C4: for every valid [t] in [{light, dark}], calling [setTheme(t)] on the
    mounted coordinator and then reading the effective theme returns [t]. *)
Theorem C4_setTheme_valid_then_get (w : World) (t : Theme) :
  is_mounted w = true →
  getEffectiveTheme (step (EvSetTheme (theme_val t)) w) = theme_val t.
Proof.
  intros Hm. destruct (step_setTheme_get (theme_val t) w Hm) as [-> _].
  apply validated_valid, is_theme_val.
Qed.

Lemma C4_witness :
  is_mounted (mounted_page false ∅) = true ∧
  getEffectiveTheme (step (EvSetTheme (theme_val dark)) (mounted_page false ∅))
  = theme_val dark.
Proof.
  split; [reflexivity |].
  apply (C4_setTheme_valid_then_get (mounted_page false ∅) dark).
  reflexivity.
Defined.

Lemma toggle_is_setTheme_opposite t :
  toggleTheme (theme_val t) = setTheme (theme_val (opposite t)).
Proof. by destruct t. Qed.

Lemma step_toggle w t :
  is_mounted w = true → getEffectiveTheme w = theme_val t →
  step EvToggleTheme w = step (EvSetTheme (theme_val (opposite t))) w ∧
  getEffectiveTheme (step EvToggleTheme w) = theme_val (opposite t) ∧
  is_mounted (step EvToggleTheme w) = true.
Proof.
  intros Hm Ht.
  assert (step EvToggleTheme w
          = step (EvSetTheme (theme_val (opposite t))) w) as Heq.
  { cbn. rewrite Hm. unfold getEffectiveTheme in Ht.
    by rewrite Ht, toggle_is_setTheme_opposite. }
  split; [done |]. rewrite Heq.
  destruct (step_setTheme_get (theme_val (opposite t)) w Hm) as [-> ->].
  split; [| done]. apply validated_valid, is_theme_val.
Qed.

(** *** What the pieces of [setTheme] do to the page *)

Lemma setTheme_calls_exec t w :
  exec (setTheme_calls t) w =
  exec (announceThemeChange t) (exec (applyTheme t) (exec (setThemeState t) w)).
Proof.
  unfold setTheme_calls, exec at 1.
  rewrite (bind_ok _ _ _ _ (setThemeState_ok t w)).
  by rewrite (bind_ok _ _ _ _ (applyTheme_ok t _)).
Qed.

Lemma setTheme_exec v w :
  exec (setTheme v) w =
  exec (announceThemeChange (validated v))
    (exec (applyTheme (validated v))
       (exec (setThemeState (validated v)) (warned v w))).
Proof. unfold exec at 1. rewrite setTheme_unfold. apply setTheme_calls_exec. Qed.

Lemma applyTheme_exec t w :
  has_document (env w) = true →
  let w' := exec (applyTheme t) w in
  let isDark := js_eqb t (JSString "dark") in
  env w' = env w ∧ hk w' = hk w ∧ body (br w') = body (br w) ∧
  next_id (br w') = next_id (br w) ∧ now (br w') = now (br w) ∧
  timers (br w') =
    insert_timer {| t_due := now (br w) + THEME_CONFIG.transitionDuration;
                    t_cb := CbRemoveTransition |} (timers (br w)) ∧
  storage (br w') =
    (if storage_write_throws (env w) then storage (br w)
     else <[THEME_CONFIG.storageKey := js_to_string t]> (storage (br w))) ∧
  root_classes (br w') =
    (if isDark then {["dark"]} ∪ root_classes (br w)
     else root_classes (br w) ∖ {["dark"]}) ∧
  meta_theme_color (br w') =
    (match meta_theme_color (br w) with
     | Some _ => Some (theme_color isDark)
     | None => None
     end) ∧
  trace (br w') = (trace (br w) ++ applyTheme_effects t w)%list.
Proof.
  intros Hd. unfold applyTheme_effects, class_effect, theme_color.
  munfold; cbn; rewrite Hd; cbn.
  msim; repeat split; rewrite <- ?app_assoc;
    first [reflexivity | congruence].
Qed.

Lemma announceThemeChange_exec t w :
  has_document (env w) = true → ann_inv w →
  let w' := exec (announceThemeChange t) w in
  let n := next_id (br w) in
  env w' = env w ∧ theme (hk w') = theme (hk w) ∧
  storage (br w') = storage (br w) ∧
  root_classes (br w') = root_classes (br w) ∧
  meta_theme_color (br w') = meta_theme_color (br w) ∧
  announcerRef (hk w') = Some n ∧
  body (br w') =
    (remove_child n (body_without_announcer w) ++ [announcer_element n t])%list
  ∧
  timers (br w') =
    insert_timer {| t_due := now (br w) + 1000; t_cb := CbRemoveAnnouncer n |}
                 (timers (br w)) ∧
  now (br w') = now (br w) ∧
  trace (br w') = (trace (br w) ++ announce_effects t w)%list.
Proof.
  intros Hd Ha. unfold ann_inv in Ha.
  unfold announce_effects, body_without_announcer, announcer_element.
  munfold; cbn; rewrite ?Hd; cbn.
  msim; try congruence.
  all: try match goal with
       | H : is_child ?n _ = false |- _ =>
           rewrite (Ha n eq_refl) in H; discriminate
       end.
  all: repeat split; rewrite <- ?app_assoc; first [reflexivity | congruence].
Qed.

(** *** Mounting *)

Lemma subscribe_page_state c w :
  page_state (run_handler (keyboardEffect c) (run_handler systemThemeEffect w))
  = page_state w.
Proof.
  destruct (has_matchMedia (br w)) eqn:Hmm.
  - rewrite systemThemeEffect_run by done. rewrite keyboardEffect_run.
    destruct (has_window (env w) && listenable (mq_api (env w))); cbn;
      destruct (has_document (env w)) eqn:Hd; unfold page_state; cbn;
      by rewrite ?Hd.
  - rewrite (systemThemeEffect_run_missing w Hmm), keyboardEffect_run.
    destruct (has_window (env w)); cbn;
      destruct (has_document (env w)) eqn:Hd; unfold page_state; cbn;
      by rewrite ?Hd.
Qed.

Lemma run_handler_page_state m w :
  page_state (run_handler m w) = page_state (exec m w).
Proof. unfold run_handler, exec. by destruct (m w) as [[[]|?] ?]. Qed.

Lemma mount_page_state w :
  page_state (mount w)
  = page_state (exec initEffect (upd_hk (hk_set_phase Mounted) w)).
Proof.
  unfold mount. rewrite rerender_page_state, subscribe_page_state.
  apply run_handler_page_state.
Qed.

Lemma initEffect_exec w :
  has_matchMedia (br w) = true →
  let t := initial_choice (env w) (storage (br w)) in
  exec initEffect w =
  exec (setMounted true)
    (exec (applyTheme t) (exec (setThemeState t) (exec initialTheme w))).
Proof.
  intros Hmm. cbn. unfold initEffect, exec at 1.
  rewrite (bind_ok _ _ _ _ (initialTheme_outcome w Hmm)).
  rewrite (bind_ok _ _ _ _ (setThemeState_ok _ _)).
  by rewrite (bind_ok _ _ _ _ (applyTheme_ok _ _)).
Qed.

Lemma env_initialTheme e : preserves (λ w, env w = e) initialTheme.
Proof. pres leaf_refl. Qed.

Lemma storage_initialTheme s :
  preserves (λ w, storage (br w) = s) initialTheme.
Proof. pres leaf_refl. Qed.

Lemma phase_initEffect p : preserves (λ w, phase (hk w) = p) initEffect.
Proof. pres leaf_refl. Qed.

Lemma mount_theme w :
  has_matchMedia (br w) = true →
  getEffectiveTheme (mount w) = initial_choice (env w) (storage (br w)) ∧
  theme (hk (mount w)) = initial_choice (env w) (storage (br w)) ∧
  mounted (hk (mount w)) = true ∧ phase (hk (mount w)) = Mounted.
Proof.
  intros Hmm. pose proof (mount_page_state w) as H. apply page_state_inj in H.
  destruct H as (_&_&_&_&_&_&Hth&Hmo&_&Hph).
  unfold getEffectiveTheme. unfold mount in *.
  set (w0 := upd_hk (hk_set_phase Mounted) w) in *.
  set (w1 := run_handler initEffect w0) in *.
  set (w2 := run_handler systemThemeEffect w1) in *.
  set (w3 := run_handler (keyboardEffect (rendered_theme (hk w2))) w2) in *.
  assert (phase (hk (rerender w3)) = Mounted) as Hp.
  { rewrite Hph. by apply (phase_initEffect Mounted w0). }
  assert (theme (hk (rerender w3))
          = initial_choice (env w) (storage (br w))) as Ht.
  { rewrite Hth. by apply (initEffect_theme w0). }
  pose proof (rerender_page_state w3) as H. apply page_state_inj in H.
  destruct H as (_&_&_&_&_&_&Hth3&_&_&Hph3).
  split; [| split; [done | split; [| done]]].
  - rewrite rerender_rendered by congruence. congruence.
  - rewrite Hmo, initEffect_exec by exact Hmm. reflexivity.
Qed.

Lemma decode_theme_Some v t : decode_theme v = Some t → v = theme_val t.
Proof.
  unfold decode_theme.
  destruct (js_eqb v (JSString "light")) eqn:E1;
    [apply js_eqb_eq in E1; by intros [= <-] |].
  destruct (js_eqb v (JSString "dark")) eqn:E2;
    [apply js_eqb_eq in E2; by intros [= <-] | done].
Qed.

Lemma decode_theme_is_theme v :
  is_theme v = match decode_theme v with Some _ => true | None => false end.
Proof.
  unfold is_theme, decode_theme.
  by destruct (js_eqb v (JSString "light")), (js_eqb v (JSString "dark")).
Qed.

Lemma initial_choice_spec e store :
  initial_choice e store
  = spec_initial_theme (persisted_preference e store) (system_signal e).
Proof.
  unfold initial_choice, spec_initial_theme, persisted_preference,
    system_signal, system_theme.
  destruct (storage_read_throws e).
  { by destruct (has_window e), (prefers_dark e). }
  destruct (store !! THEME_CONFIG.storageKey) as [s|].
  - rewrite decode_theme_is_theme.
    destruct (decode_theme (JSString s)) as [t|] eqn:E.
    + by apply decode_theme_Some in E.
    + by destruct (has_window e), (prefers_dark e).
  - by destruct (has_window e), (prefers_dark e).
Qed.

Lemma step_mount_page e store classes meta kids :
  step EvMount (page e store classes meta kids)
  = mount (page e store classes meta kids).
Proof. reflexivity. Qed.

(** without [matchMedia] and without a valid stored theme the initialisation
    effect throws: line 158 inside the [try], then line 162 in the [catch] *)
Lemma initEffect_without_matchMedia w :
  has_matchMedia (br w) = false → has_window (env w) = true →
  persisted_preference (env w) (storage (br w)) = None →
  outcome initEffect w = Throw matchMedia_missing ∧
  hk (exec initEffect w) = hk w ∧
  root_classes (br (exec initEffect w)) = root_classes (br w) ∧
  storage (br (exec initEffect w)) = storage (br w).
Proof.
  intros Hmm Hw. unfold persisted_preference.
  assert (∀ x, has_matchMedia (br x) = false → has_window (env x) = true →
               detectSystemTheme x = (Throw matchMedia_missing, x)) as Hd.
  { intros x Hx Hwx.
    unfold detectSystemTheme, window_matchMedia, get, bind, ret, throw.
    cbn. rewrite Hwx. cbn. by rewrite Hx. }
  unfold initEffect, initialTheme, outcome, exec, localStorage_getItem,
    console_warn, log, try_catch, modify, get, bind, ret, throw.
  cbn -[js_truthy js_eqb decode_theme detectSystemTheme].
  destruct (storage_read_throws (env w));
    cbn -[js_truthy js_eqb decode_theme detectSystemTheme].
  { intros _. by rewrite Hd. }
  destruct (storage (br w) !! THEME_CONFIG.storageKey) as [s|] eqn:Es;
    cbn -[js_truthy js_eqb decode_theme detectSystemTheme].
  - rewrite truthy_theme, decode_theme_is_theme. intros ->.
    cbn -[detectSystemTheme]. rewrite Hd by done.
    cbn -[detectSystemTheme]. by rewrite Hd.
  - intros _. rewrite Hd by done. cbn -[detectSystemTheme]. by rewrite Hd.
Qed.

(** C2: on a page with a document the effective theme after initialisation
    is the validly stored preference if there is one, else the system
    preference translated to a theme (else the default, where the code finds
    no window), and the hook is then marked mounted: stored "dark" wins over a
    system that asks for light, and with nothing stored and a dark system the
    theme is dark.  Where the window has no [matchMedia], so that no system
    signal is available, and no valid theme is stored, the initialisation
    effect does not fall back to the default: it throws a TypeError, having
    set no state and applied nothing to the document, and the hook is not
    marked mounted. *)
Theorem C2_initial_theme_precedence (e : Env) (store : gmap string string)
    (classes : gset string) (meta : option string) (kids : list Element) :
  let ready := λ e store, step EvMount (page e store classes meta kids) in
  let unsupported := without_matchMedia (page e store classes meta kids) in
  (has_document e = true →
   getEffectiveTheme (ready e store)
   = spec_initial_theme (persisted_preference e store) (system_signal e) ∧
   mounted (hk (ready e store)) = true) ∧
  getEffectiveTheme (ready (browser_env false) {["theme" := "dark"]})
  = theme_val dark ∧
  getEffectiveTheme (ready (browser_env true) ∅) = theme_val dark ∧
  THEME_CONFIG.defaultTheme = theme_val light ∧
  (has_window e = true → persisted_preference e store = None →
   outcome initEffect unsupported = Throw matchMedia_missing ∧
   mounted (hk (exec initEffect unsupported)) = false ∧
   theme (hk (exec initEffect unsupported)) = THEME_CONFIG.defaultTheme ∧
   root_classes (br (exec initEffect unsupported)) = classes ∧
   storage (br (exec initEffect unsupported)) = store).
Proof.
  intros ready unsupported. subst ready unsupported. cbv beta.
  rewrite !step_mount_page.
  assert (∀ e store,
    getEffectiveTheme (mount (page e store classes meta kids))
    = spec_initial_theme (persisted_preference e store) (system_signal e))
    as H.
  { intros e' s'.
    destruct (mount_theme (page e' s' classes meta kids) eq_refl) as (-> & _).
    apply initial_choice_spec. }
  split; [intros _; split; [apply H | by apply mount_theme] |].
  rewrite !H. split; [done |]. split; [done |]. split; [done |].
  intros Hw Hp.
  destruct (initEffect_without_matchMedia
              (without_matchMedia (page e store classes meta kids))
              eq_refl Hw Hp) as (Ho & Hh & Hc & Hs).
  rewrite Ho, Hh, Hc, Hs. done.
Qed.

Lemma C2_witness :
  let e := browser_env true in
  let store : gmap string string := {["theme" := "blue"]} in
  let unsupported := without_matchMedia (page e store ∅ None []) in
  (has_document e = true ∧ has_window e = true ∧
   persisted_preference e store = None) ∧
  getEffectiveTheme (step EvMount (page e store ∅ None [])) = theme_val dark ∧
  mounted (hk (step EvMount (page e store ∅ None []))) = true ∧
  outcome initEffect unsupported = Throw matchMedia_missing ∧
  mounted (hk (exec initEffect unsupported)) = false.
Proof.
  intros e store unsupported.
  assert (persisted_preference e store = None) as Hp
    by (vm_compute; reflexivity).
  destruct (C2_initial_theme_precedence e store ∅ None [])
    as (H1 & _ & _ & _ & H2).
  destruct (H1 eq_refl) as (Ht & Hm).
  destruct (H2 eq_refl Hp) as (Ho & Hmo & _).
  assert (spec_initial_theme (persisted_preference e store) (system_signal e)
          = theme_val dark) as Hs by (vm_compute; reflexivity).
  rewrite Hs in Ht.
  exact (conj (conj eq_refl (conj eq_refl Hp))
              (conj Ht (conj Hm (conj Ho Hmo)))).
Defined.

Lemma reachable_theme w : reachable w → ∃ t, getEffectiveTheme w = theme_val t.
Proof.
  intros H. apply reachable_Inv in H as [[Hv _ _ _ _ _ _ _] Hr].
  apply is_theme_decode. unfold getEffectiveTheme. by rewrite Hr.
Qed.

Lemma reachable_ann_inv w : reachable w → is_mounted w = true → ann_inv w.
Proof.
  intros H Hm. apply reachable_Inv in H as [[_ _ _ _ Ha _ _ _] _].
  apply Ha. apply is_mounted_phase in Hm. by rewrite Hm.
Qed.

Lemma initial_choice_invalid_stored e store s :
  is_theme (JSString s) = false →
  initial_choice e (<[THEME_CONFIG.storageKey := s]> store)
  = initial_choice e (delete THEME_CONFIG.storageKey store).
Proof.
  intros Hs. unfold initial_choice.
  rewrite lookup_insert_eq, lookup_delete_eq, Hs. done.
Qed.

(** C3: for an input that is not exactly 'light' or 'dark', [setTheme] on the
    mounted coordinator of a browser page returns normally and the effective
    theme is then the configured default, not the input; a stored value that
    is not a theme counts as absent at initialisation; and the effective theme
    of the coordinator is always light or dark. *)
Theorem C3_invalid_values_never_become_the_theme
    (w : World) (v : JSValue) (s : string)
    (e : Env) (store : gmap string string) (classes : gset string)
    (meta : option string) (kids : list Element) :
  (reachable w → is_mounted w = true → has_document (env w) = true →
   is_theme v = false →
   returns (setTheme v) w ∧
   getEffectiveTheme (step (EvSetTheme v) w) = THEME_CONFIG.defaultTheme ∧
   getEffectiveTheme (step (EvSetTheme v) w) ≠ v) ∧
  (is_theme (JSString s) = false →
   getEffectiveTheme
     (step EvMount (page e (<["theme" := s]> store) classes meta kids))
   = getEffectiveTheme
       (step EvMount (page e (delete "theme" store) classes meta kids)) ∧
   getEffectiveTheme
     (step EvMount (page e (<["theme" := s]> store) classes meta kids))
   ≠ JSString s) ∧
  (reachable w → ∃ t, getEffectiveTheme w = theme_val t).
Proof.
  split; [| split].
  - intros Hr Hm Hd Hv.
    destruct (step_setTheme_get v w Hm) as [Hg _].
    rewrite (validated_invalid v Hv) in Hg.
    split; [| split; [done |]].
    + exists tt. apply setTheme_ok; [done | by apply reachable_ann_inv].
    + rewrite Hg. intros <-. discriminate.
  - intros Hs. rewrite !step_mount_page.
    destruct (mount_theme (page e (<["theme" := s]> store) classes meta kids)
                eq_refl) as (H1 & _).
    destruct (mount_theme (page e (delete "theme" store) classes meta kids)
                eq_refl) as (H2 & _).
    rewrite H1, H2. cbn [env br storage page].
    split; [by apply initial_choice_invalid_stored |].
    intros Heq. pose proof (initial_choice_is_theme e (<["theme" := s]> store)).
    congruence.
  - apply reachable_theme.
Qed.

Lemma reachable_mounted_page d store : reachable (mounted_page d store).
Proof.
  exists (browser_env d), store, ∅, (Some "#ffffff"), [], [EvMount].
  reflexivity.
Qed.

Lemma C3_witness :
  let w := mounted_page false ∅ in
  (reachable w ∧ is_mounted w = true ∧ has_document (env w) = true ∧
   is_theme (JSString "blue") = false ∧ is_theme (JSString "") = false) ∧
  (returns (setTheme (JSString "blue")) w ∧
   getEffectiveTheme (step (EvSetTheme (JSString "blue")) w)
   = THEME_CONFIG.defaultTheme ∧
   getEffectiveTheme (step (EvSetTheme (JSString "blue")) w)
   ≠ JSString "blue") ∧
  (getEffectiveTheme
     (step EvMount (page (browser_env true) (<["theme" := ""]> ∅) ∅ None []))
   = getEffectiveTheme
       (step EvMount (page (browser_env true) (delete "theme" ∅) ∅ None []))
   ∧
   getEffectiveTheme
     (step EvMount (page (browser_env true) (<["theme" := ""]> ∅) ∅ None []))
   ≠ JSString "") ∧
  (∃ t, getEffectiveTheme w = theme_val t).
Proof.
  intros w.
  destruct (C3_invalid_values_never_become_the_theme
              w (JSString "blue") "" (browser_env true) ∅ ∅ None [])
    as (H1 & H2 & H3).
  split; [| split; [| split]].
  - repeat split; try reflexivity. apply reachable_mounted_page.
  - apply H1; try reflexivity. apply reachable_mounted_page.
  - apply H2. reflexivity.
  - apply H3. apply reachable_mounted_page.
Defined.

(** *** Persisting on every application *)

Lemma env_setThemeState e t : preserves (λ w, env w = e) (setThemeState t).
Proof. pres leaf_refl. Qed.

Lemma initEffect_storage w :
  has_matchMedia (br w) = true →
  has_document (env w) = true → storage_write_throws (env w) = false →
  storage (br (exec initEffect w))
  = <[THEME_CONFIG.storageKey :=
        js_to_string (initial_choice (env w) (storage (br w)))]>
      (storage (br w)).
Proof.
  intros Hmm Hd Hw. rewrite initEffect_exec by done. cbn zeta.
  set (t := initial_choice (env w) (storage (br w))).
  set (y := exec (setThemeState t) (exec initialTheme w)).
  assert (env y = env w) as He.
  { apply (env_setThemeState (env w) t), (env_initialTheme (env w) w eq_refl). }
  assert (storage (br y) = storage (br w)) as Hs.
  { apply (storage_initialTheme (storage (br w)) w eq_refl). }
  destruct (applyTheme_exec t y) as (_&_&_&_&_&_&Hst&_); [by rewrite He |].
  change (storage (br (exec (setMounted true) (exec (applyTheme t) y))))
    with (storage (br (exec (applyTheme t) y))).
  by rewrite Hst, He, Hw, Hs.
Qed.

Lemma elem_of_drop_app {A} (l k : list A) x :
  x ∈ k → x ∈ drop (length l) (l ++ k).
Proof. by rewrite drop_app_length. Qed.

(** C10: every application of a theme writes it to storage under the fixed
    key, the one made by the initialisation included; so once the hook has
    mounted on a page with a document and working storage, a stored
    preference exists and equals the effective theme, whatever was (or was
    not) stored before. *)
Theorem C10_every_application_persists
    (w : World) (t : JSValue)
    (e : Env) (store : gmap string string) (classes : gset string)
    (meta : option string) (kids : list Element) :
  (has_document (env w) = true →
   FxStorageSet "theme" (js_to_string t)
     ∈ drop (length (trace (br w))) (trace (br (exec (applyTheme t) w))) ∧
   (storage_write_throws (env w) = false →
    storage (br (exec (applyTheme t) w)) !! "theme"
    = Some (js_to_string t))) ∧
  (has_document e = true → storage_write_throws e = false →
   let w' := step EvMount (page e store classes meta kids) in
   ∃ p, storage (br w') !! "theme" = Some (theme_str p) ∧
        getEffectiveTheme w' = theme_val p).
Proof.
  split.
  - intros Hd. destruct (applyTheme_exec t w Hd) as (_&_&_&_&_&_&Hs&_&_&Ht).
    split.
    + rewrite Ht. apply elem_of_drop_app. unfold applyTheme_effects.
      rewrite !elem_of_app. right. right. left.
      by apply list_elem_of_singleton.
    + intros Hw. rewrite Hs, Hw. apply lookup_insert_eq.
  - intros Hd Hw. cbn zeta. rewrite step_mount_page.
    set (w0 := page e store classes meta kids).
    destruct (mount_theme w0 eq_refl) as (Hg & _).
    pose proof (mount_page_state w0) as H. apply page_state_inj in H.
    destruct H as (_&Hs&_).
    pose proof (initial_choice_is_theme (env w0) (storage (br w0))) as Hv.
    apply is_theme_decode in Hv as [p Hp].
    exists p. rewrite Hg, Hs, Hp. split; [| done].
    rewrite (initEffect_storage (upd_hk (hk_set_phase Mounted) w0) eq_refl)
      by done.
    rewrite lookup_insert_eq. cbn [env br storage upd_hk].
    by rewrite Hp.
Qed.

Lemma C10_witness :
  let w := page (browser_env true) ∅ ∅ None [] in
  (has_document (env w) = true ∧ storage_write_throws (env w) = false) ∧
  (FxStorageSet "theme" (js_to_string (JSString "dark"))
     ∈ drop (length (trace (br w)))
            (trace (br (exec (applyTheme (JSString "dark")) w))) ∧
   storage (br (exec (applyTheme (JSString "dark")) w)) !! "theme"
   = Some (js_to_string (JSString "dark"))) ∧
  (∃ p, storage (br (step EvMount w)) !! "theme" = Some (theme_str p) ∧
        getEffectiveTheme (step EvMount w) = theme_val p).
Proof.
  intros w.
  destruct (C10_every_application_persists
              w (JSString "dark") (browser_env true) ∅ ∅ None [])
    as (H1 & H2).
  split; [by split |]. split.
  - destruct H1 as [Ha Hb]; [reflexivity |]. split; [done |].
    apply Hb. reflexivity.
  - apply H2; reflexivity.
Defined.

(** *** Storage events *)

(** the generic storage hook adopts what another tab wrote under its key; it
    only updates its own state *)
Lemma useLocalStorage_adopts {T} (read : string → Res T) (d : T)
    (key s : string) (v : T) (st : UseLocalStorage.State) :
  read s = Ok v →
  UseLocalStorage.handleStorageChange read d key (Some key) (Some s) true st
  = {| UseLocalStorage.value := v; UseLocalStorage.error := None |}.
Proof.
  intros H. unfold UseLocalStorage.handleStorageChange.
  rewrite bool_decide_eq_true_2 by done. cbn. by rewrite H.
Qed.

Lemma no_storage_listener k v mq key c :
  filter (λ l, listens (StorageEvent k v) l = true) (sub_listeners mq key c)
  = [].
Proof. by destruct mq, key. Qed.

Lemma step_storage_event k v w :
  reachable w →
  step (EvDom (StorageEvent k v)) w = happened (StorageEvent k v) w.
Proof.
  intros Hr. apply reachable_Inv in Hr.
  apply (happened_Inv (StorageEvent k v)) in Hr as [[_ Hl _ _ _ _ _ _] Hr].
  cbn [step]. unfold dispatch. rewrite Hl, no_storage_listener. cbn [fold_left].
  by apply rerender_id.
Qed.

(** C1, counterexample: the hook mounted on a light page stays light when
    another tab stores "dark": it has no listener for storage events. *)
Lemma C1_counterexample : ¬ C1_as_stated.
Proof.
  intros H.
  assert (is_mounted (mounted_page false ∅) = true) as Hm by reflexivity.
  destruct (H (mounted_page false ∅) (reachable_mounted_page false ∅) Hm)
    as [Hg _].
  vm_compute in Hg. discriminate.
Qed.

(** C1, amended: a storage event from another tab changes nothing in this
    page: the effective theme, the dark marker and the trace (so no write is
    issued) stay as they are; the value the other tab wrote is in the shared
    storage, and it is adopted by the next initialisation. *)
Theorem C1_storage_event_not_adopted_until_next_mount
    (w : World) (t : Theme) (classes : gset string) (meta : option string)
    (kids : list Element) :
  reachable w →
  let w' := step (EvDom (StorageEvent (Some "theme") (Some (theme_str t)))) w
  in
  getEffectiveTheme w' = getEffectiveTheme w ∧
  theme (hk w') = theme (hk w) ∧
  root_classes (br w') = root_classes (br w) ∧
  trace (br w') = trace (br w) ∧
  listeners (br w') = listeners (br w) ∧
  storage (br w') !! "theme" = Some (theme_str t) ∧
  (storage_read_throws (env w') = false →
   getEffectiveTheme
     (step EvMount (page (env w') (storage (br w')) classes meta kids))
   = theme_val t).
Proof.
  intros Hr. cbn zeta. rewrite step_storage_event by done.
  cbn [happened]. repeat split.
  - cbn. apply lookup_insert_eq.
  - intros Hread. rewrite step_mount_page.
    match goal with
    | |- getEffectiveTheme (mount ?p) = _ =>
        destruct (mount_theme p eq_refl) as (-> & _)
    end.
    cbn in *. unfold initial_choice. rewrite Hread.
    unfold THEME_CONFIG.storageKey. rewrite lookup_insert_eq.
    by destruct t.
Qed.

Lemma C1_witness :
  let w := mounted_page false ∅ in
  let w' := step (EvDom (StorageEvent (Some "theme") (Some "dark"))) w in
  reachable w ∧ storage_read_throws (env w') = false ∧
  getEffectiveTheme w' = getEffectiveTheme w ∧
  trace (br w') = trace (br w) ∧
  storage (br w') !! "theme" = Some "dark" ∧
  getEffectiveTheme
    (step EvMount (page (env w') (storage (br w')) ∅ None []))
  = theme_val dark.
Proof.
  intros w w'.
  destruct (C1_storage_event_not_adopted_until_next_mount
              w dark ∅ None [] (reachable_mounted_page false ∅))
    as (H1 & _ & _ & H4 & _ & H6 & H7).
  split; [apply reachable_mounted_page |]. split; [reflexivity |].
  split; [exact H1 |]. split; [exact H4 |]. split; [exact H6 |].
  apply H7. reflexivity.
Defined.

(** *** After the teardown *)

Lemma classes_run_callback c cb :
  preserves (λ w, root_classes (br w) = c) (run_callback cb).
Proof. pres leaf_refl. Qed.

Lemma classes_advance ms w :
  root_classes (br (advance ms w)) = root_classes (br w).
Proof.
  unfold advance.
  apply (fold_preserves (λ x, root_classes (br x) = root_classes (br w)));
    [| | done].
  - intros x. apply classes_run_callback.
  - intros e. pres leaf_refl.
Qed.

Ltac leaf_writes :=
  intros ? ?; cbn; unfold storage_writes in *;
  rewrite ?List.filter_app; cbn; rewrite ?app_nil_r; assumption.

Lemma rerender_unmounted w : phase (hk w) ≠ Mounted → rerender w = w.
Proof. unfold rerender. by destruct (phase (hk w)). Qed.

Lemma step_delivery_unmounted ev w :
  Inv w → phase (hk w) ≠ Mounted → is_delivery ev = true →
  let w' := step ev w in
  phase (hk w') = phase (hk w) ∧
  listeners (br w') = [] ∧
  getEffectiveTheme w' = getEffectiveTheme w ∧
  theme (hk w') = theme (hk w) ∧
  root_classes (br w') = root_classes (br w) ∧
  storage_writes (trace (br w')) = storage_writes (trace (br w)).
Proof.
  intros [HP Hr] Hph Hev. pose proof (PreInv_unsubscribed w HP Hph) as Hl.
  destruct ev as [| | | | e | ms]; try discriminate; cbn [step].
  - assert (listeners (br (happened e w)) = []) as Hl'.
    { by destruct e as [m | [k|] [v|] | c m s k]. }
    rewrite (dispatch_nil e) by done.
    rewrite rerender_unmounted
      by by destruct e as [m | [k|] [v|] | c m s k].
    by destruct e as [m | [k|] [v|] | c m s k].
  - destruct (advance_PreInv ms w HP) as [_ Hc].
    apply core_inj in Hc as (_ & Hls & Hp & _ & _ & Hre).
    rewrite rerender_unmounted by by rewrite Hp.
    unfold getEffectiveTheme.
    rewrite Hp, Hls, Hre, theme_advance, classes_advance.
    repeat split; try done.
    unfold advance.
    apply (fold_preserves
             (λ x, storage_writes (trace (br x))
                   = storage_writes (trace (br w)))); [| | done].
    + intros x. pres leaf_writes.
    + intros e. pres leaf_writes.
Qed.

Lemma run_deliveries_unmounted evs w :
  Inv w → phase (hk w) ≠ Mounted → forallb is_delivery evs = true →
  let w' := run evs w in
  listeners (br w') = [] ∧
  getEffectiveTheme w' = getEffectiveTheme w ∧
  theme (hk w') = theme (hk w) ∧
  root_classes (br w') = root_classes (br w) ∧
  storage_writes (trace (br w')) = storage_writes (trace (br w)).
Proof.
  revert w. induction evs as [|ev evs IH]; intros w HI Hph Hall; cbn.
  - split; [| done]. by apply PreInv_unsubscribed; [apply HI |].
  - cbn in Hall. apply andb_true_iff in Hall as [Hev Hall].
    destruct (step_delivery_unmounted ev w HI Hph Hev)
      as (Hp & _ & Hg & Ht & Hc & Hw).
    destruct (IH (step ev w)) as (Hl' & Hg' & Ht' & Hc' & Hw');
      [by apply step_Inv | by rewrite Hp | done |].
    unfold run in *. repeat split; congruence.
Qed.

Lemma unmount_announcer w :
  Inv w → phase (hk w) = Mounted →
  ∀ a, announcerRef (hk w) = Some a →
       is_child a (body (br (unmount w))) = false.
Proof.
  intros [[Hv Hl Hi Hdi Ha Hs Ht Hmm] Hr] Hph a Href. unfold unmount.
  assert (is_child a (body (br w)) = true) as Hc.
  { apply Ha; [by rewrite Hph | done]. }
  unfold subs_shape in Hs. rewrite Hph in Hs. destruct Hs as [Hmq Hkey].
  rewrite systemThemeCleanup_run, keyboardCleanup_run, announcerCleanup_run.
  destruct (mq_sub (hk w)) as [i|] eqn:Ei;
    destruct (key_sub (hk w)) as [k|] eqn:Ek; cbn; rewrite ?Ek; cbn;
    destruct (has_document (env w)) eqn:Hd; cbn;
    rewrite ?Href; cbn; rewrite ?Hc; cbn;
    first [apply is_child_remove_same | idtac].
  all: destruct Hkey as [Hk1 Hk2]; first [by destruct Hk2 | by destruct Hk1].
Qed.

(** C9: once the teardown has run, no listener of the hook is left, and no
    event delivered afterwards (system-preference change, storage event, key
    press, or a timer) changes the effective theme, the dark marker of the
    document, or writes to storage; the announcer the ref pointed to has been
    removed from the document. *)
Theorem C9_nothing_fires_after_teardown (w : World) (evs : list Event) :
  reachable w → forallb is_delivery evs = true →
  let u := step EvUnmount w in
  let u' := run evs u in
  listeners (br u) = [] ∧ listeners (br u') = [] ∧
  getEffectiveTheme u' = getEffectiveTheme u ∧
  theme (hk u') = theme (hk u) ∧
  root_classes (br u') = root_classes (br u) ∧
  storage_writes (trace (br u')) = storage_writes (trace (br u)) ∧
  (is_mounted w = true →
   phase (hk u) = Unmounted ∧
   ∀ a, announcerRef (hk w) = Some a → is_child a (body (br u)) = false).
Proof.
  intros Hr Hall. cbn zeta.
  pose proof (reachable_Inv w Hr) as HI.
  assert (Inv (step EvUnmount w) ∧ phase (hk (step EvUnmount w)) ≠ Mounted)
    as [HI' Hph'].
  { split; [by apply step_Inv |]. cbn.
    destruct (is_mounted w) eqn:Hm.
    - by cbn.
    - intros Hp. apply is_mounted_phase in Hp. congruence. }
  destruct (run_deliveries_unmounted evs _ HI' Hph' Hall)
    as (Hl & Hg & Ht & Hc & Hw).
  split; [by apply PreInv_unsubscribed; [apply HI' |] |].
  repeat (split; [done |]).
  intros Hm. cbn. rewrite Hm. split; [done |].
  apply unmount_announcer; [done | by apply is_mounted_phase].
Qed.

Lemma C9_witness :
  let w := step (EvSetTheme (JSString "dark")) (mounted_page false ∅) in
  let evs := [EvDom (MediaQueryChange false);
              EvDom (StorageEvent (Some "theme") (Some "light"));
              EvDom (KeyDown true false true "T");
              EvTick 1000] in
  let u := step EvUnmount w in
  (reachable w ∧ forallb is_delivery evs = true ∧ is_mounted w = true) ∧
  listeners (br u) = [] ∧
  getEffectiveTheme (run evs u) = getEffectiveTheme u ∧
  root_classes (br (run evs u)) = root_classes (br u) ∧
  phase (hk u) = Unmounted.
Proof.
  intros w evs u.
  assert (reachable w) as Hr.
  { apply reachable_step, reachable_mounted_page. }
  destruct (C9_nothing_fires_after_teardown w evs Hr eq_refl)
    as (H1 & _ & H3 & _ & H5 & _ & H7).
  split; [repeat split; done |].
  split; [exact H1 |]. split; [exact H3 |]. split; [exact H5 |].
  by apply H7.
Defined.

(** *** [setTheme], effect by effect *)

Lemma setTheme_exec_facts v w :
  has_document (env w) = true → ann_inv w →
  let w' := exec (setTheme v) w in
  let t := validated v in
  let isDark := js_eqb t (JSString "dark") in
  let n := next_id (br w) in
  env w' = env w ∧ theme (hk w') = t ∧
  storage (br w') =
    (if storage_write_throws (env w) then storage (br w)
     else <[THEME_CONFIG.storageKey := js_to_string t]> (storage (br w))) ∧
  root_classes (br w') =
    (if isDark then {["dark"]} ∪ root_classes (br w)
     else root_classes (br w) ∖ {["dark"]}) ∧
  meta_theme_color (br w') =
    (match meta_theme_color (br w) with
     | Some _ => Some (theme_color isDark)
     | None => None
     end) ∧
  announcerRef (hk w') = Some n ∧
  body (br w') =
    (remove_child n (body_without_announcer w) ++ [announcer_element n t])%list
  ∧
  timers (br w') =
    insert_timer {| t_due := now (br w) + 1000; t_cb := CbRemoveAnnouncer n |}
      (insert_timer {| t_due := now (br w) + THEME_CONFIG.transitionDuration;
                       t_cb := CbRemoveTransition |} (timers (br w))) ∧
  now (br w') = now (br w) ∧
  trace (br w') = (trace (br w) ++ setTheme_effects v w)%list.
Proof.
  intros Hd Ha. cbn zeta. rewrite setTheme_exec.
  set (t := validated v).
  set (w2 := exec (setThemeState t) (warned v w)).
  assert (env w2 = env w ∧ storage (br w2) = storage (br w) ∧
          body (br w2) = body (br w) ∧
          root_classes (br w2) = root_classes (br w) ∧
          meta_theme_color (br w2) = meta_theme_color (br w) ∧
          timers (br w2) = timers (br w) ∧ now (br w2) = now (br w) ∧
          next_id (br w2) = next_id (br w) ∧
          trace (br w2)
          = (trace (br w) ++ warn_effects v ++ [FxSetThemeState t])%list ∧
          announcerRef (hk w2) = announcerRef (hk w) ∧ theme (hk w2) = t)
    as (He2 & Es & Eb & Ec & Em & Etm & En & Ei & Ht2 & Hr2 & Hth2).
  { unfold w2, warned, warn_effects. destruct (is_theme v); cbn;
      rewrite <- ?app_assoc; done. }
  clearbody w2.
  assert (has_document (env w2) = true) as Hd2 by by rewrite He2.
  destruct (applyTheme_exec t w2 Hd2)
    as (He3 & Hh3 & Hb3 & Hn3 & Hnow3 & Htm3 & Hs3 & Hc3 & Hm3 & Ht3).
  set (w3 := exec (applyTheme t) w2) in *. clearbody w3.
  assert (ann_inv w3) as Ha3.
  { unfold ann_inv. rewrite Hh3, Hb3, Hr2, Eb. exact Ha. }
  assert (has_document (env w3) = true) as Hd3 by by rewrite He3.
  destruct (announceThemeChange_exec t w3 Hd3 Ha3)
    as (He4 & Hth4 & Hs4 & Hc4 & Hm4 & Hr4 & Hb4 & Htm4 & Hnow4 & Ht4).
  repeat split.
  - congruence.
  - by rewrite Hth4, Hh3.
  - rewrite Hs4, Hs3, He2, Es. reflexivity.
  - rewrite Hc4, Hc3, Ec. reflexivity.
  - rewrite Hm4, Hm3, Em. reflexivity.
  - rewrite Hr4, Hn3, Ei. reflexivity.
  - rewrite Hb4, Hn3, Ei. unfold body_without_announcer.
    by rewrite Hh3, Hr2, Hb3, Eb.
  - rewrite Htm4, Hnow3, Hn3, Htm3, En, Ei, Etm. reflexivity.
  - congruence.
  - rewrite Ht4, Ht3, Ht2. unfold setTheme_effects, applyTheme_effects,
      announce_effects. rewrite Hh3, Hr2, Hn3, Ei, Em, He2.
    by rewrite <- !app_assoc.
Qed.

Lemma step_setTheme_exec v w :
  is_mounted w = true → has_document (env w) = true → ann_inv w →
  step (EvSetTheme v) w = rerender (exec (setTheme v) w).
Proof.
  intros Hm Hd Ha. cbn. rewrite Hm.
  by rewrite run_handler_ok by by apply setTheme_ok.
Qed.

Lemma step_setTheme_page_state v w :
  is_mounted w = true → has_document (env w) = true → ann_inv w →
  page_state (step (EvSetTheme v) w) = page_state (exec (setTheme v) w).
Proof.
  intros Hm Hd Ha. rewrite step_setTheme_exec by done.
  apply rerender_page_state.
Qed.

(** C6: when the storage write throws during [setTheme('dark')], the call
    still returns normally, the effective theme is dark and the document
    carries the dark marker; storage is left as it was and a warning is
    logged; the coordinator goes on working from memory (a toggle afterwards
    returns normally and gives light). *)
Theorem C6_storage_failure_does_not_stop_setTheme (w : World) :
  reachable w → is_mounted w = true → has_document (env w) = true →
  storage_write_throws (env w) = true →
  let w' := step (EvSetTheme (JSString "dark")) w in
  returns (setTheme (JSString "dark")) w ∧
  getEffectiveTheme w' = theme_val dark ∧
  "dark" ∈ root_classes (br w') ∧
  storage (br w') = storage (br w) ∧
  FxWarn "Failed to save theme preference:"
    ∈ drop (length (trace (br w)))
           (trace (br (exec (setTheme (JSString "dark")) w))) ∧
  returns (toggleTheme (getEffectiveTheme w')) w' ∧
  getEffectiveTheme (step EvToggleTheme w') = theme_val light.
Proof.
  intros Hr Hm Hd Hw. cbn zeta.
  pose proof (reachable_ann_inv w Hr Hm) as Ha.
  destruct (step_setTheme_get (JSString "dark") w Hm) as [Hg Hm'].
  pose proof (step_setTheme_page_state (JSString "dark") w Hm Hd Ha) as Hps.
  apply page_state_inj in Hps as (He & Hs & Hc & _).
  destruct (setTheme_exec_facts (JSString "dark") w Hd Ha)
    as (He' & _ & Hs' & Hc' & _ & _ & _ & _ & _ & Ht').
  assert (reachable (step (EvSetTheme (JSString "dark")) w)) as Hr'
    by by apply reachable_step.
  split; [exists tt; by apply setTheme_ok |].
  split; [exact Hg |].
  split; [rewrite Hc, Hc'; cbn; apply elem_of_union; left;
          by apply elem_of_singleton |].
  split; [by rewrite Hs, Hs', Hw |].
  split.
  { rewrite Ht'. apply elem_of_drop_app.
    unfold setTheme_effects, applyTheme_effects. rewrite Hw.
    rewrite !elem_of_app. right. right. left. right. right. right.
    by apply list_elem_of_singleton. }
  split.
  - exists tt. apply setTheme_ok; [by rewrite He, He' |].
    by apply reachable_ann_inv.
  - destruct (step_toggle _ dark Hm' Hg) as (_ & H & _). exact H.
Qed.

Lemma C6_witness :
  let w := step EvMount (page write_failing_env ∅ ∅ None []) in
  let w' := step (EvSetTheme (JSString "dark")) w in
  (reachable w ∧ is_mounted w = true ∧ has_document (env w) = true ∧
   storage_write_throws (env w) = true) ∧
  returns (setTheme (JSString "dark")) w ∧
  getEffectiveTheme w' = theme_val dark ∧
  "dark" ∈ root_classes (br w') ∧
  storage (br w') = storage (br w) ∧
  getEffectiveTheme (step EvToggleTheme w') = theme_val light.
Proof.
  intros w w'.
  assert (reachable w) as Hr.
  { exists write_failing_env, ∅, ∅, None, [], [EvMount]. reflexivity. }
  assert (is_mounted w = true) as Hm by (vm_compute; reflexivity).
  assert (has_document (env w) = true) as Hd by (vm_compute; reflexivity).
  assert (storage_write_throws (env w) = true) as Hw
    by (vm_compute; reflexivity).
  destruct (C6_storage_failure_does_not_stop_setTheme w Hr Hm Hd Hw)
    as (H1 & H2 & H3 & H4 & _ & _ & H7).
  split; [split; [exact Hr | split; [exact Hm | split; [exact Hd | exact Hw]]] |].
  split; [exact H1 |]. split; [exact H2 |]. split; [exact H3 |].
  split; [exact H4 | exact H7].
Defined.

(** *** A change of the system preference *)

Lemma handleChange_run m w :
  storage_read_throws (env w) = false →
  handleChange m w =
  if js_truthy (js_of_item (storage (br w) !! THEME_CONFIG.storageKey))
  then (Ok tt, observed m w)
  else try_catch (setTheme (system_choice m))
         (λ _, console_warn "Failed to check theme preference:")
         (observed m w).
Proof.
  intros Hr.
  unfold handleChange, observed, system_choice, localStorage_getItem,
    setSystemPrefersDark, log, try_catch, exec, modify, get, bind, ret.
  cbn -[setTheme js_truthy]. rewrite Hr. cbn -[setTheme js_truthy].
  by destruct (js_truthy _).
Qed.

Lemma mq_listeners_only m i key c :
  filter (λ l, listens (MediaQueryChange m) l = true)
         (sub_listeners (Some i) key c)
  = [mq_listener i].
Proof. by destruct key. Qed.

Lemma try_catch_ok {A} (m : M A) (h : Exn → M A) w a :
  outcome m w = Ok a → try_catch m h w = (Ok a, exec m w).
Proof.
  unfold outcome, exec, try_catch. destruct (m w) as [r w']. cbn.
  by intros ->.
Qed.

Lemma system_change_step m w :
  reachable w → is_mounted w = true →
  has_window (env w) = true → listenable (mq_api (env w)) = true →
  has_document (env w) = true → storage_read_throws (env w) = false →
  let w' := step (EvDom (MediaQueryChange m)) w in
  if js_truthy (js_of_item (storage (br w) !! THEME_CONFIG.storageKey))
  then getEffectiveTheme w' = getEffectiveTheme w ∧
       root_classes (br w') = root_classes (br w) ∧
       storage (br w') = storage (br w)
  else getEffectiveTheme w' = system_choice m ∧
       root_classes (br w') =
         (if m then {["dark"]} ∪ root_classes (br w)
          else root_classes (br w) ∖ {["dark"]}).
Proof.
  intros Hr Hm Hwin Hapi Hd Hread. cbn zeta.
  pose proof (reachable_Inv w Hr) as HI.
  apply (happened_Inv (MediaQueryChange m)) in HI.
  cbn [step]. set (w1 := happened (MediaQueryChange m) w) in *.
  assert (hk w1 = hk w ∧ br w1 = br w ∧
          has_document (env w1) = true ∧
          storage_read_throws (env w1) = false ∧
          has_window (env w1) && listenable (mq_api (env w1)) = true)
    as (Hh & Hb & Hd1 & Hread1 & Hsub).
  { unfold w1. cbn. by rewrite Hd, Hread, Hwin, Hapi. }
  clearbody w1.
  apply is_mounted_phase in Hm.
  destruct HI as [[Hv Hl Hi Hdi Ha Hs Ht Hmm] Hre].
  unfold subs_shape in Hs. rewrite Hh, Hm in Hs. destruct Hs as [Hmq _].
  apply Hmq in Hsub as [i Hi']. rewrite Hh in Hl. rewrite Hi' in Hl.
  unfold dispatch. rewrite Hl, mq_listeners_only. cbn [fold_left].
  change (run_listener (MediaQueryChange m) (mq_listener i))
    with (handleChange m).
  unfold run_handler. rewrite handleChange_run by done. rewrite Hb.
  set (wo := observed m w1).
  assert (hk wo = hk_set_systemPrefersDark m (hk w1) ∧
          root_classes (br wo) = root_classes (br w) ∧
          storage (br wo) = storage (br w) ∧ body (br wo) = body (br w) ∧
          has_document (env wo) = true) as (Hho & Hco & Hso & Hbo & Hdo).
  { unfold wo. cbn. by rewrite Hb. }
  clearbody wo.
  assert (ann_inv wo) as Hao.
  { assert (ann_inv w1) as Ha1 by (apply Ha; by rewrite Hh, Hm).
    intros a. rewrite Hho, Hbo. cbn. rewrite <- Hb. apply Ha1. }
  destruct (js_truthy _).
  - rewrite rerender_id by (rewrite Hho; cbn; by rewrite Hre).
    unfold getEffectiveTheme. rewrite Hho, Hco, Hso. cbn. by rewrite Hh.
  - rewrite (try_catch_ok _ _ _ _ (setTheme_ok (system_choice m) _ Hdo Hao)).
    destruct (setTheme_exec_facts (system_choice m) _ Hdo Hao)
      as (_ & Hth & _ & Hc & _).
    pose proof (core_setTheme (core wo) (system_choice m) wo eq_refl) as Hcore.
    apply core_inj in Hcore as (_ & _ & Hp & _).
    fold (exec (setTheme (system_choice m)) wo) in Hp.
    set (w2 := exec (setTheme (system_choice m)) wo) in *. clearbody w2.
    pose proof (rerender_page_state w2) as Hps.
    apply page_state_inj in Hps as (_ & _ & Hc' & _).
    unfold getEffectiveTheme. rewrite rerender_rendered.
    + rewrite Hth, Hc', Hc, Hco. split; by destruct m.
    + rewrite Hp, Hho. cbn. by rewrite Hh.
Qed.

Lemma reachable_foreign s : reachable (page_with_foreign_value s).
Proof. apply reachable_step, reachable_mounted_page. Qed.

(** *** The announcer and its timer *)

Lemma is_child_remove_false n a l :
  is_child n l = false → is_child n (remove_child a l) = false.
Proof.
  intros H. apply not_true_is_false. intros Hc.
  apply is_child_elem in Hc as (e & Hin & He).
  unfold remove_child in Hin. apply list_elem_of_filter in Hin as [_ Hin].
  assert (is_child n l = true) by (apply is_child_elem; eauto). congruence.
Qed.

Lemma absent_run_callback n cb :
  preserves (λ w, is_child n (body (br w)) = false) (run_callback cb).
Proof.
  pres ltac:(intros ? ?; cbn; first [assumption
                                    | by apply is_child_remove_false]).
Qed.

Lemma env_run_callback e cb : preserves (λ w, env w = e) (run_callback cb).
Proof. pres leaf_refl. Qed.

Lemma callback_removes n w :
  has_document (env w) = true →
  is_child n (body (br (run_handler (run_callback (CbRemoveAnnouncer n)) w)))
  = false.
Proof.
  intros Hd. munfold; cbn; rewrite Hd; cbn.
  destruct (is_child n (body (br w))) eqn:Hc;
    do 3 (cbn; rewrite ?Hd, ?Hc); [| done].
  destruct (announcerRef (hk w)) as [c|]; cbn;
    [destruct (Nat.eqb c n) |]; cbn; apply is_child_remove_same.
Qed.

Lemma callback_keeps n cb w :
  cb ≠ CbRemoveAnnouncer n → is_child n (body (br w)) = true →
  is_child n (body (br (run_handler (run_callback cb) w))) = true.
Proof.
  intros Hne Hc. destruct cb as [|a]; [done |].
  assert (n ≠ a) as Hna by congruence.
  munfold; cbn. destruct (has_document (env w)) eqn:Hd; cbn; [| done].
  destruct (is_child a (body (br w))) eqn:Ha;
    do 3 (cbn; rewrite ?Hd, ?Ha); [| done].
  destruct (announcerRef (hk w)) as [c|]; cbn;
    [destruct (Nat.eqb c a) |]; cbn; by rewrite is_child_remove_other.
Qed.

Lemma fold_callbacks_removed n l w :
  has_document (env w) = true →
  is_child n (body (br w)) = false
  ∨ (∃ x, x ∈ l ∧ t_cb x = CbRemoveAnnouncer n) →
  is_child n
    (body (br (fold_left (λ w x, run_handler (run_callback (t_cb x)) w) l w)))
  = false.
Proof.
  revert w. induction l as [|x l IH]; intros w Hd H; cbn.
  - destruct H as [H | (x & Hin & _)]; [done | by apply elem_of_nil in Hin].
  - apply IH.
    + apply (preserves_run_handler (λ u, has_document (env u) = true));
        [| | done].
      * intros u Hu.
        by rewrite (env_run_callback (env u) (t_cb x) u eq_refl).
      * intros e. pres leaf_refl.
    + destruct H as [H | (y & Hin & Hy)].
      * left. apply preserves_run_handler; [apply absent_run_callback | | done].
        intros e. pres leaf_refl.
      * apply elem_of_cons in Hin as [-> | Hin]; [| right; eauto].
        left. rewrite Hy. by apply callback_removes.
Qed.

Lemma fold_callbacks_kept n l w :
  is_child n (body (br w)) = true →
  (∀ x, x ∈ l → t_cb x ≠ CbRemoveAnnouncer n) →
  is_child n
    (body (br (fold_left (λ w x, run_handler (run_callback (t_cb x)) w) l w)))
  = true.
Proof.
  revert w. induction l as [|x l IH]; intros w Hc H; cbn; [done |].
  apply IH.
  - apply callback_keeps; [| done]. apply H. by left.
  - intros y Hy. apply H. by right.
Qed.

Lemma advance_removed n ms x w :
  has_document (env w) = true → x ∈ timers (br w) →
  t_due x ≤ now (br w) + ms → t_cb x = CbRemoveAnnouncer n →
  is_child n (body (br (advance ms w))) = false.
Proof.
  intros Hd Hin Hdue Hcb. unfold advance.
  apply fold_callbacks_removed; [done |]. right. exists x. split; [| done].
  apply list_elem_of_filter. split; [| done]. by apply Nat.leb_le.
Qed.

Lemma advance_kept n ms w :
  is_child n (body (br w)) = true →
  (∀ x, x ∈ timers (br w) → t_due x ≤ now (br w) + ms →
        t_cb x ≠ CbRemoveAnnouncer n) →
  is_child n (body (br (advance ms w))) = true.
Proof.
  intros Hc H. unfold advance. apply fold_callbacks_kept; [done |].
  intros x Hin. apply list_elem_of_filter in Hin as [Hdue Hin].
  apply H; [done | by apply Nat.leb_le].
Qed.

(** *** The order of the side effects *)

(** C8, counterexample: on a page with a theme-color meta element the
    metadata is updated before the storage write and the announcement, not
    after them. *)
Lemma C8_counterexample : ¬ C8_as_stated.
Proof.
  intros H.
  assert (meta_theme_color (br (mounted_page false ∅)) ≠ None) as Hmeta
    by (vm_compute; discriminate).
  specialize (H (mounted_page false ∅) dark (reachable_mounted_page false ∅)
                eq_refl eq_refl Hmeta).
  vm_compute in H. discriminate.
Qed.

(** C8, amended: [setTheme] performs its side effects in this order:
    (1) the in-memory theme; (2) the dark marker class of the document root;
    (3) the theme-color metadata, when the page has the meta element;
    (4) the write to storage under the fixed key; (5) the announcement, an
    element of class [sr-only] appended to the body, which stays until one
    second has passed and is removed then. *)
Theorem C8_side_effects_in_code_order (w : World) (v : JSValue) :
  reachable w → is_mounted w = true → has_document (env w) = true →
  let t := validated v in
  let n := next_id (br w) in
  let w' := step (EvSetTheme v) w in
  effects_of (setTheme v) w = setTheme_effects v w ∧
  in_order (effects_of (setTheme v) w)
    [is_set_state; is_class_change; is_storage_write; is_announcement]
  = true ∧
  (meta_theme_color (br w) ≠ None →
   in_order (effects_of (setTheme v) w)
     [is_set_state; is_class_change; is_meta_set; is_storage_write;
      is_announcement] = true) ∧
  announcer_element n t ∈ body (br w') ∧
  el_class (announcer_element n t) = "sr-only" ∧
  (∀ ms, ms < 1000 → is_child n (body (br (step (EvTick ms) w'))) = true) ∧
  (∀ ms, 1000 ≤ ms → is_child n (body (br (step (EvTick ms) w'))) = false).
Proof.
  intros Hr Hm Hd. cbn zeta.
  pose proof (reachable_ann_inv w Hr Hm) as Ha.
  pose proof (reachable_Inv w Hr) as [[_ _ _ _ _ _ Hfresh _] _].
  destruct (setTheme_exec_facts v w Hd Ha)
    as (He & _ & _ & _ & _ & _ & Hb & Htm & Hnow & Htr).
  pose proof (step_setTheme_page_state v w Hm Hd Ha) as Hps.
  apply page_state_inj in Hps as (He' & _ & _ & Hb' & Htm' & Hnow' & _).
  assert (effects_of (setTheme v) w = setTheme_effects v w) as Hfx.
  { unfold effects_of. rewrite Htr. apply drop_app_length. }
  set (w' := step (EvSetTheme v) w) in *.
  assert (is_child (next_id (br w)) (body (br w')) = true) as Hchild.
  { rewrite Hb', Hb, is_child_app. cbn. rewrite Nat.eqb_refl.
    apply orb_true_r. }
  assert (∀ ms, body (br (step (EvTick ms) w')) = body (br (advance ms w')))
    as Htick.
  { intros ms. cbn [step].
    pose proof (rerender_page_state (advance ms w')) as H.
    apply page_state_inj in H. by destruct H as (_&_&_&H&_). }
  split; [exact Hfx |]. rewrite Hfx.
  split; [| split; [| split; [| split; [done | split]]]].
  - unfold setTheme_effects, warn_effects, applyTheme_effects,
      announce_effects, class_effect.
    by destruct (is_theme v), (js_eqb (validated v) (JSString "dark")),
      (meta_theme_color (br w)), (storage_write_throws (env w)),
      (announcerRef (hk w)).
  - intros Hmeta.
    unfold setTheme_effects, warn_effects, applyTheme_effects,
      announce_effects, class_effect.
    by destruct (is_theme v), (js_eqb (validated v) (JSString "dark")),
      (meta_theme_color (br w)), (storage_write_throws (env w)),
      (announcerRef (hk w)).
  - rewrite Hb', Hb. apply elem_of_app. right.
    by apply list_elem_of_singleton.
  - intros ms Hms. rewrite Htick. apply advance_kept; [done |].
    intros x Hin Hdue. rewrite Htm', Htm in Hin. rewrite Hnow', Hnow in Hdue.
    apply elem_of_insert_timer in Hin as [-> | Hin]; [cbn in Hdue; lia |].
    apply elem_of_insert_timer in Hin as [-> | Hin]; [done |].
    intros Hcb. specialize (Hfresh x _ Hin Hcb). lia.
  - intros ms Hms. rewrite Htick.
    apply (advance_removed _ _
             {| t_due := now (br w) + 1000;
                t_cb := CbRemoveAnnouncer (next_id (br w)) |}).
    + by rewrite He', He.
    + rewrite Htm', Htm. apply elem_of_insert_timer. by left.
    + rewrite Hnow', Hnow. cbn. lia.
    + done.
Qed.

Lemma C8_witness :
  let w := mounted_page false ∅ in
  let w' := step (EvSetTheme (JSString "dark")) w in
  (reachable w ∧ is_mounted w = true ∧ has_document (env w) = true ∧
   meta_theme_color (br w) ≠ None ∧ 999 < 1000 ∧ 1000 ≤ 1000) ∧
  effects_of (setTheme (JSString "dark")) w
  = setTheme_effects (JSString "dark") w ∧
  in_order (effects_of (setTheme (JSString "dark")) w)
    [is_set_state; is_class_change; is_meta_set; is_storage_write;
     is_announcement] = true ∧
  is_child (next_id (br w)) (body (br (step (EvTick 999) w'))) = true ∧
  is_child (next_id (br w)) (body (br (step (EvTick 1000) w'))) = false.
Proof.
  intros w w'.
  assert (meta_theme_color (br w) ≠ None) as Hmeta
    by (vm_compute; discriminate).
  destruct (C8_side_effects_in_code_order w (JSString "dark")
              (reachable_mounted_page false ∅) eq_refl eq_refl)
    as (H1 & _ & H3 & _ & _ & H6 & H7).
  split.
  { split; [apply reachable_mounted_page |]. split; [reflexivity |].
    split; [reflexivity |]. split; [exact Hmeta |]. split; lia. }
  split; [exact H1 |]. split; [exact (H3 Hmeta) |].
  split; [apply H6; lia | apply H7; lia].
Defined.

(** ** Further properties of the hook *)

Ltac leaf_quiet :=
  let H := fresh "H" in
  intros ? H; unfold quiet in *; cbn;
  rewrite ?existsb_app; cbn; rewrite ?H; reflexivity.

Lemma quiet_setTheme v : preserves quiet (setTheme v).
Proof. pres leaf_quiet. Qed.

Lemma quiet_handleChange b : preserves quiet (handleChange b).
Proof. pres leaf_quiet. Qed.

Lemma quiet_handleKeyDown v k1 k2 k3 k :
  preserves quiet (handleKeyDown v k1 k2 k3 k).
Proof. pres leaf_quiet. Qed.

Lemma quiet_run_callback cb : preserves quiet (run_callback cb).
Proof. pres leaf_quiet. Qed.

Lemma quiet_initEffect : preserves quiet initEffect.
Proof. pres leaf_quiet. Qed.

Lemma ref_fresh_announceThemeChange t :
  preserves ref_fresh (announceThemeChange t).
Proof.
  intros w H. unfold ref_fresh in *.
  msim; intros b Hb; simplify_eq; try (by apply H); lia.
Qed.
#[export] Hint Resolve ref_fresh_announceThemeChange : pres.

Lemma ref_fresh_setTheme v : preserves ref_fresh (setTheme v).
Proof. pres leaf_refl. Qed.
#[export] Hint Resolve ref_fresh_setTheme : pres.

Lemma ref_fresh_handleChange b : preserves ref_fresh (handleChange b).
Proof. pres leaf_refl. Qed.

Lemma ref_fresh_handleKeyDown v k1 k2 k3 k :
  preserves ref_fresh (handleKeyDown v k1 k2 k3 k).
Proof. pres leaf_refl. Qed.

Lemma ref_fresh_run_callback cb : preserves ref_fresh (run_callback cb).
Proof.
  pres ltac:(intros ? H; unfold ref_fresh in *; cbn;
             first [exact H | intros ? [=]]).
Qed.

Lemma ref_fresh_initEffect : preserves ref_fresh initEffect.
Proof. pres leaf_refl. Qed.

Lemma mounted_setTheme b v : preserves (λ w, mounted (hk w) = b) (setTheme v).
Proof. pres leaf_refl. Qed.

Lemma mounted_handleChange b m :
  preserves (λ w, mounted (hk w) = b) (handleChange m).
Proof. pres leaf_refl. Qed.

Lemma mounted_handleKeyDown b v k1 k2 k3 k :
  preserves (λ w, mounted (hk w) = b) (handleKeyDown v k1 k2 k3 k).
Proof. pres leaf_refl. Qed.

Lemma mounted_run_callback b cb :
  preserves (λ w, mounted (hk w) = b) (run_callback cb).
Proof. pres leaf_refl. Qed.

Lemma shown_run_callback cb : preserves shown (run_callback cb).
Proof. pres leaf_refl. Qed.

Lemma shown_after_setTheme v w :
  has_document (env w) = true → ann_inv w → shown (exec (setTheme v) w).
Proof.
  intros Hd Ha.
  destruct (setTheme_exec_facts v w Hd Ha) as (_ & Ht & _ & Hc & Hm & _).
  split.
  - unfold dark_shown. rewrite Hc, Ht.
    destruct (js_eqb (validated v) (JSString "dark")) eqn:E.
    + apply js_eqb_eq in E. split; [done |]. intros _.
      apply elem_of_union. left. by apply elem_of_singleton.
    + split.
      * intros Hin. apply elem_of_difference in Hin as [_ Hn].
        destruct Hn. by apply elem_of_singleton.
      * intros Heq. rewrite Heq in E. discriminate.
  - intros c. rewrite Hm, Ht. destruct (meta_theme_color (br w)); congruence.
Qed.

Lemma displayed_setTheme v : preserves displayed (setTheme v).
Proof.
  intros w (Hd & Ha & _). fold (exec (setTheme v) w).
  destruct (setTheme_exec_facts v w Hd Ha) as (He & _).
  split; [by rewrite He |]. split; [by apply ann_inv_setTheme |].
  by apply shown_after_setTheme.
Qed.
#[export] Hint Resolve displayed_setTheme : pres.

Lemma displayed_handleChange b : preserves displayed (handleChange b).
Proof. pres leaf_refl. Qed.

Lemma displayed_handleKeyDown v k1 k2 k3 k :
  preserves displayed (handleKeyDown v k1 k2 k3 k).
Proof. pres leaf_refl. Qed.

Lemma try_catch_warn_ok (m : M unit) s w :
  outcome (try_catch m (λ _, console_warn s)) w = Ok tt.
Proof.
  unfold outcome, try_catch. destruct (m w) as [[[]|e] w']; reflexivity.
Qed.

Lemma handleChange_ok m w : outcome (handleChange m) w = Ok tt.
Proof.
  unfold handleChange, outcome.
  rewrite (bind_ok _ _ _ tt) by reflexivity. apply try_catch_warn_ok.
Qed.

Lemma handleKeyDown_ok v k1 k2 k3 k w :
  has_document (env w) = true → ann_inv w →
  outcome (handleKeyDown v k1 k2 k3 k) w = Ok tt.
Proof.
  intros Hd Ha. unfold handleKeyDown.
  destruct ((k1 || k2) && k3 && String.eqb k "T"); [| done].
  unfold outcome. rewrite (bind_ok _ _ _ tt) by done.
  by apply setTheme_ok.
Qed.

Lemma run_callback_ok cb w :
  has_document (env w) = true → outcome (run_callback cb) w = Ok tt.
Proof.
  intros Hd. destruct cb as [|a]; [done |].
  munfold; cbn; rewrite Hd; cbn.
  destruct (is_child a (body (br w))) eqn:Hc;
    do 3 (cbn; rewrite ?Hd, ?Hc); [| done].
  destruct (announcerRef (hk w)) as [c|]; cbn;
    [destruct (Nat.eqb c a) |]; done.
Qed.

Lemma run_listener_ok e l w :
  has_document (env w) = true → ann_inv w →
  outcome (run_listener e l) w = Ok tt.
Proof.
  intros Hd Ha. unfold run_listener.
  destruct (l_handler l), e; try done.
  - apply handleChange_ok.
  - by apply handleKeyDown_ok.
Qed.

Lemma listener_settled e l w :
  settled w → settled (run_handler (run_listener e l) w).
Proof.
  intros ((Hd & Ha & Hs) & Hq & Hr).
  rewrite run_handler_ok by by apply run_listener_ok.
  unfold exec, run_listener. destruct (l_handler l), e; try done.
  - split; [by apply displayed_handleChange |].
    split; [by apply quiet_handleChange | by apply ref_fresh_handleChange].
  - split; [by apply displayed_handleKeyDown |].
    split; [by apply quiet_handleKeyDown | by apply ref_fresh_handleKeyDown].
Qed.

Lemma dispatch_settled e w : settled w → settled (dispatch e w).
Proof.
  unfold dispatch.
  generalize (filter (λ l, listens e l = true) (listeners (br w))).
  intros l. revert w. induction l as [|x l IH]; intros w H; cbn; [done |].
  by apply IH, listener_settled.
Qed.

Lemma callback_calm cb w : calm w → calm (run_handler (run_callback cb) w).
Proof.
  intros (Hd & Hq & Hr). rewrite run_handler_ok by by apply run_callback_ok.
  split; [| split].
  - unfold exec. by rewrite (env_run_callback (env w) cb w eq_refl).
  - by apply quiet_run_callback.
  - by apply ref_fresh_run_callback.
Qed.

Lemma fold_callbacks_calm (l : list Timer) w :
  calm w →
  calm (fold_left (λ w x, run_handler (run_callback (t_cb x)) w) l w).
Proof.
  revert w. induction l as [|x l IH]; intros w H; cbn; [done |].
  by apply IH, callback_calm.
Qed.

Lemma advance_calm ms w : calm w → calm (advance ms w).
Proof. intros H. unfold advance. by apply fold_callbacks_calm. Qed.

Lemma shown_advance ms w : shown w → shown (advance ms w).
Proof.
  intros H. unfold advance. apply (fold_preserves shown); [| | done].
  - intros x. apply shown_run_callback.
  - intros e. pres leaf_refl.
Qed.

Lemma mounted_advance ms w : mounted (hk (advance ms w)) = mounted (hk w).
Proof.
  unfold advance.
  apply (fold_preserves (λ x, mounted (hk x) = mounted (hk w))); [| | done].
  - intros x. apply mounted_run_callback.
  - intros e. pres leaf_refl.
Qed.

Lemma mounted_dispatch e w : mounted (hk (dispatch e w)) = mounted (hk w).
Proof.
  unfold dispatch.
  apply (fold_preserves (λ x, mounted (hk x) = mounted (hk w))); [| | done].
  - intros l. unfold run_listener. destruct (l_handler l), e;
      first [apply preserves_ret | apply mounted_handleChange
            | apply mounted_handleKeyDown].
  - intros x. pres leaf_refl.
Qed.

Lemma shown_ext w w' :
  root_classes (br w') = root_classes (br w) →
  meta_theme_color (br w') = meta_theme_color (br w) →
  theme (hk w') = theme (hk w) → shown w → shown w'.
Proof.
  intros Hc Hm Ht [H1 H2]. unfold shown, dark_shown, meta_shown.
  by rewrite Hc, Hm, Ht.
Qed.

Lemma page_state_display w w' :
  page_state w' = page_state w →
  root_classes (br w') = root_classes (br w) ∧
  root_style (br w') = root_style (br w) ∧
  meta_theme_color (br w') = meta_theme_color (br w) ∧
  theme (hk w') = theme (hk w) ∧
  systemPrefersDark (hk w') = systemPrefersDark (hk w).
Proof. unfold page_state. intros [=]. auto 10. Qed.

Lemma shown_page_state w w' :
  page_state w' = page_state w → shown w → shown w'.
Proof.
  intros H. apply page_state_display in H as (Hc & _ & Hm & Ht & _).
  by apply shown_ext.
Qed.

Lemma rerender_calm w : calm w → calm (rerender w).
Proof.
  intros (Hd & Hq & Hr). unfold rerender.
  destruct (phase (hk w)); [done | | done].
  destruct (js_eqb _ _); [done |].
  rewrite keyboardCleanup_run, keyboardEffect_run. cbn.
  destruct (key_sub (hk w)); cbn; rewrite ?Hd; cbn; rewrite ?Hd; cbn.
  all: unfold calm, quiet, ref_fresh in *; cbn;
    rewrite ?existsb_app; cbn; rewrite ?Hq, ?Hd; cbn.
  all: split; [done |]; split; [done |].
  all: intros a Ha; specialize (Hr a Ha); lia.
Qed.

Lemma subscribe_calm c w :
  has_matchMedia (br w) = true → calm w →
  calm (run_handler (keyboardEffect c) (run_handler systemThemeEffect w)).
Proof.
  intros Hmm (Hd & Hq & Hr).
  rewrite systemThemeEffect_run by done. rewrite keyboardEffect_run.
  destruct (has_window (env w) && listenable (mq_api (env w))); cbn;
    rewrite ?Hd; cbn.
  all: unfold calm, quiet, ref_fresh in *; cbn;
    rewrite ?existsb_app; cbn; rewrite ?Hq, ?Hd; cbn.
  all: split; [done |]; split; [done |].
  all: intros a Ha; specialize (Hr a Ha); lia.
Qed.

Lemma shown_after_applyTheme t w :
  has_document (env w) = true → theme (hk w) = t →
  shown (exec (applyTheme t) w).
Proof.
  intros Hd Ht.
  destruct (applyTheme_exec t w Hd) as (_ & Hh & _ & _ & _ & _ & _ & Hc & Hm & _).
  split.
  - unfold dark_shown. rewrite Hc, Hh, Ht.
    destruct (js_eqb t (JSString "dark")) eqn:E.
    + apply js_eqb_eq in E. split; [done |]. intros _.
      apply elem_of_union. left. by apply elem_of_singleton.
    + split.
      * intros Hin. apply elem_of_difference in Hin as [_ Hn].
        destruct Hn. by apply elem_of_singleton.
      * intros Heq. rewrite Heq in E. discriminate.
  - intros c. rewrite Hm, Hh, Ht.
    destruct (meta_theme_color (br w)); congruence.
Qed.

Lemma shown_after_initEffect w :
  has_matchMedia (br w) = true →
  has_document (env w) = true → shown (exec initEffect w).
Proof.
  intros Hmm Hd. rewrite initEffect_exec by done. cbn zeta.
  set (t := initial_choice (env w) (storage (br w))).
  set (y := exec (setThemeState t) (exec initialTheme w)).
  assert (env y = env w) as He.
  { apply (env_setThemeState (env w) t), (env_initialTheme (env w) w eq_refl). }
  assert (shown (exec (applyTheme t) y)) as Hs.
  { apply shown_after_applyTheme; [by rewrite He | done]. }
  exact Hs.
Qed.

Lemma env_initEffect w : env (exec initEffect w) = env w.
Proof.
  pose proof (core_initEffect (core w) w eq_refl) as H.
  by apply core_inj in H as (H & _).
Qed.

Lemma mount_Extra w :
  has_matchMedia (br w) = true →
  has_document (env w) = true → quiet w → ref_fresh w → Extra (mount w).
Proof.
  intros Hmm Hd Hq Hr.
  destruct (mount_theme w Hmm) as (_ & _ & Hmo & Hph).
  pose proof (mount_page_state w) as Hps.
  set (w0 := upd_hk (hk_set_phase Mounted) w).
  assert (has_matchMedia (br w0) = true) as Hmm0 by exact Hmm.
  assert (has_matchMedia (br (exec initEffect w0)) = true) as Hmm1.
  { pose proof (core_initEffect (core w0) w0 eq_refl) as Hc.
    apply core_matchMedia in Hc. unfold exec. by rewrite Hc. }
  assert (calm (mount w)) as (_ & Hq' & Hr').
  { unfold mount. fold w0. apply rerender_calm.
    rewrite (run_handler_ok initEffect) by by apply initEffect_ok.
    apply subscribe_calm; [done |].
    split; [| split].
    - by rewrite env_initEffect.
    - by apply quiet_initEffect.
    - by apply ref_fresh_initEffect. }
  split; [done |]. split; [done |]. split.
  - unfold mounted_flag. by rewrite Hmo, Hph.
  - intros _. apply (shown_page_state _ _ Hps).
    by apply shown_after_initEffect.
Qed.

Lemma unmount_frame w :
  has_document (env w) = true →
  env (unmount w) = env w ∧
  root_classes (br (unmount w)) = root_classes (br w) ∧
  meta_theme_color (br (unmount w)) = meta_theme_color (br w) ∧
  theme (hk (unmount w)) = theme (hk w) ∧
  mounted (hk (unmount w)) = mounted (hk w) ∧
  announcerRef (hk (unmount w)) = announcerRef (hk w) ∧
  next_id (br (unmount w)) = next_id (br w) ∧
  existsb is_uncaught (trace (br (unmount w)))
  = existsb is_uncaught (trace (br w)).
Proof.
  intros Hd. unfold unmount.
  rewrite systemThemeCleanup_run, keyboardCleanup_run, announcerCleanup_run.
  destruct (mq_sub (hk w)); cbn; destruct (key_sub (hk w)); cbn;
    rewrite ?Hd; cbn;
    (destruct (announcerRef (hk w)) as [a|] eqn:Ea; cbn;
     [destruct (is_child a (body (br w))) |]); cbn;
    rewrite ?existsb_app; cbn; rewrite ?orb_false_r;
    repeat split; congruence.
Qed.

Lemma static_env_step ev w : static_env (step ev w) = static_env w.
Proof.
  assert (∀ x y, env x = env y → static_env x = static_env y) as Hs.
  { intros x y H. unfold static_env. by rewrite H. }
  assert (∀ x, env (rerender x) = env x) as Hre.
  { intros x. pose proof (rerender_page_state x) as H.
    apply page_state_inj in H. by destruct H as (H & _). }
  destruct ev as [| | v | | e | ms]; cbn [step].
  - destruct (phase (hk w)); [| done | done]. apply Hs.
    pose proof (mount_page_state w) as H. apply page_state_inj in H.
    destruct H as (-> & _). by rewrite env_initEffect.
  - destruct (is_mounted w); [| done]. unfold unmount.
    rewrite systemThemeCleanup_run, keyboardCleanup_run, announcerCleanup_run.
    destruct (mq_sub (hk w)); cbn; destruct (key_sub (hk w)); cbn;
      destruct (has_document (env w)) eqn:Hd; cbn;
      (destruct (announcerRef (hk w)) as [a|]; cbn;
       [destruct (is_child a (body (br w))) |]); cbn;
      unfold static_env; cbn; by rewrite ?Hd.
  - destruct (is_mounted w); [| done]. apply Hs. rewrite Hre.
    destruct (handler_run (setTheme v) w (handler_setTheme v)) as (Hc & _).
    by apply core_inj in Hc as (He & _).
  - destruct (is_mounted w); [| done]. apply Hs. rewrite Hre.
    destruct (handler_run _ w (handler_toggleTheme (rendered_theme (hk w))))
      as (Hc & _).
    by apply core_inj in Hc as (He & _).
  - transitivity (static_env (happened e w)).
    + apply Hs. rewrite Hre. unfold dispatch.
      destruct (handlers_fold (run_listener e)
                  (filter (λ l, listens e l = true)
                          (listeners (br (happened e w))))
                  (happened e w) (handler_run_listener e)) as (Hc & _).
      by apply core_inj in Hc as (He & _).
    + by destruct e as [m | [k|] [v|] | c m s k].
  - apply Hs. rewrite Hre.
    unfold advance.
    match goal with
    | |- context [fold_left ?f ?l ?w0] =>
        destruct (handlers_fold (λ x, run_callback (t_cb x)) l w0
                    (λ x, handler_run_callback (t_cb x))) as (Hc & _)
    end.
    by apply core_inj in Hc as (He & _).
Qed.

Lemma finish_step w x :
  phase (hk x) = phase (hk w) → mounted (hk x) = mounted (hk w) →
  mounted_flag w → calm x → (phase (hk w) ≠ Fresh → shown x) →
  Extra (rerender x).
Proof.
  intros Hp Hm Hf Hc Hs.
  pose proof (rerender_page_state x) as Hps.
  pose proof (page_state_inj _ _ Hps) as (_&_&_&_&_&_&_&Hm'&_&Hp').
  destruct (rerender_calm x Hc) as (_ & Hq & Hr).
  split; [done |]. split; [done |]. split.
  - unfold mounted_flag in *. by rewrite Hm', Hp', Hm, Hp.
  - rewrite Hp', Hp. intros Hne. apply (shown_page_state _ _ Hps). auto.
Qed.

Lemma happened_frame e w :
  hk (happened e w) = hk w ∧
  has_document (env (happened e w)) = has_document (env w) ∧
  root_classes (br (happened e w)) = root_classes (br w) ∧
  root_style (br (happened e w)) = root_style (br w) ∧
  meta_theme_color (br (happened e w)) = meta_theme_color (br w) ∧
  body (br (happened e w)) = body (br w) ∧
  next_id (br (happened e w)) = next_id (br w) ∧
  trace (br (happened e w)) = trace (br w) ∧
  listeners (br (happened e w)) = listeners (br w) ∧
  timers (br (happened e w)) = timers (br w).
Proof. by destruct e as [m | [k|] [v|] | c m s k]. Qed.

Lemma step_Extra ev w :
  Inv w → has_document (env w) = true → Extra w → Extra (step ev w).
Proof.
  intros HI Hd HE. pose proof HE as (Hq & Hr & Hf & Hs).
  pose proof HI as [[_ _ _ _ Ha _ _ _] _].
  destruct ev as [| | v | | e | ms]; cbn [step].
  - destruct (phase (hk w)) eqn:Hph;
      [apply mount_Extra; [by destruct HI as [[] _] | done ..]
      | exact HE | exact HE].
  - destruct (is_mounted w) eqn:Hm; [| exact HE].
    apply is_mounted_phase in Hm.
    destruct (unmount_frame w Hd) as (He & Hc & Hme & Ht & Hmo & Hre & Hn & Hu).
    assert (phase (hk (unmount w)) = Unmounted) as Hp by reflexivity.
    split; [unfold quiet in *; by rewrite Hu |].
    split; [unfold ref_fresh; by rewrite Hre, Hn |].
    split.
    + unfold mounted_flag in *. by rewrite Hmo, Hp, Hf, Hm.
    + intros _. apply (shown_ext w); [done | done | done |].
      apply Hs. by rewrite Hm.
  - destruct (is_mounted w) eqn:Hm; [| exact HE].
    apply is_mounted_phase in Hm.
    assert (ann_inv w) as Ha' by (apply Ha; by rewrite Hm).
    assert (shown w) as Hs' by (apply Hs; by rewrite Hm).
    rewrite run_handler_ok by by apply setTheme_ok.
    destruct (displayed_setTheme v w) as (Hd1 & _ & Hs1); [done |].
    apply (finish_step w).
    + unfold exec. by rewrite (phase_run_handler_setTheme v w)
        || (pose proof (core_setTheme (core w) v w eq_refl) as Hc;
            by apply core_inj in Hc as (_&_&Hc&_)).
    + by apply (mounted_setTheme (mounted (hk w)) v w).
    + done.
    + split; [done |].
      split; [by apply quiet_setTheme | by apply ref_fresh_setTheme].
    + done.
  - destruct (is_mounted w) eqn:Hm; [| exact HE].
    apply is_mounted_phase in Hm.
    assert (ann_inv w) as Ha' by (apply Ha; by rewrite Hm).
    assert (shown w) as Hs' by (apply Hs; by rewrite Hm).
    unfold toggleTheme.
    set (v := if js_eqb _ _ then _ else _).
    rewrite run_handler_ok by by apply setTheme_ok.
    destruct (displayed_setTheme v w) as (Hd1 & _ & Hs1); [done |].
    apply (finish_step w).
    + pose proof (core_setTheme (core w) v w eq_refl) as Hc.
      by apply core_inj in Hc as (_&_&Hc&_).
    + by apply (mounted_setTheme (mounted (hk w)) v w).
    + done.
    + split; [done |].
      split; [by apply quiet_setTheme | by apply ref_fresh_setTheme].
    + done.
  - destruct (happened_frame e w)
      as (Hh & Hd0 & Hc0 & _ & Hm0 & Hb0 & Hn0 & Ht0 & Hl0 & _).
    apply (happened_Inv e) in HI as [HP0 Hre0].
    destruct (dispatch_PreInv e _ HP0) as [_ Hcore].
    apply core_inj in Hcore as (_ & _ & Hp & _).
    assert (mounted_flag (happened e w)) as Hf0
      by (unfold mounted_flag; by rewrite Hh).
    assert (quiet (happened e w)) as Hq0 by (unfold quiet; by rewrite Ht0).
    assert (ref_fresh (happened e w)) as Hr0
      by (unfold ref_fresh; by rewrite Hh, Hn0).
    assert (has_document (env (happened e w)) = true) as Hd1
      by by rewrite Hd0.
    apply (finish_step (happened e w)); [done | apply mounted_dispatch | done | |].
    + destruct (phase (hk w)) eqn:Hph.
      * rewrite dispatch_nil; [done |].
        apply PreInv_unsubscribed; [done | by rewrite Hh, Hph].
      * assert (settled (happened e w)) as Hst.
        { split; [| done]. split; [done |]. split.
          - unfold ann_inv. rewrite Hh, Hb0. by apply Ha.
          - apply (shown_ext w); [done | done | by rewrite Hh |]. by apply Hs. }
        by destruct (dispatch_settled e _ Hst) as ((? & _ & _) & ? & ?).
      * rewrite dispatch_nil; [done |].
        apply PreInv_unsubscribed; [done | by rewrite Hh, Hph].
    + rewrite Hh. intros Hne. destruct (phase (hk w)) eqn:Hph; [done | |].
      * assert (settled (happened e w)) as Hst.
        { split; [| done]. split; [done |]. split.
          - unfold ann_inv. rewrite Hh, Hb0. by apply Ha.
          - apply (shown_ext w); [done | done | by rewrite Hh |]. by apply Hs. }
        by destruct (dispatch_settled e _ Hst) as ((_ & _ & ?) & _).
      * rewrite dispatch_nil.
        -- apply (shown_ext w); [done | done | by rewrite Hh |]. by apply Hs.
        -- apply PreInv_unsubscribed; [done | by rewrite Hh, Hph].
  - destruct HI as [HP _]. destruct (advance_PreInv ms w HP) as [_ Hcore].
    apply core_inj in Hcore as (_ & _ & Hp & _).
    apply (finish_step w); [done | apply mounted_advance | done | |].
    + by apply advance_calm.
    + intros Hne. by apply shown_advance, Hs.
Qed.

Lemma page_Extra e store classes meta kids :
  Extra (page e store classes meta kids).
Proof. repeat split; done. Qed.

Lemma static_env_run evs w : static_env (run evs w) = static_env w.
Proof.
  revert w. induction evs as [|ev evs IH]; intros w; cbn; [done |].
  unfold run in IH. by rewrite IH, static_env_step.
Qed.

Lemma run_Extra evs w :
  Inv w → has_document (env w) = true → Extra w → Extra (run evs w).
Proof.
  revert w. induction evs as [|ev evs IH]; intros w HI Hd HE; cbn; [done |].
  apply IH; [by apply step_Inv | | by apply step_Extra].
  pose proof (static_env_step ev w) as H. unfold static_env in H.
  by injection H as _ -> _ _ _.
Qed.

Lemma reachable_Extra w :
  reachable w → has_document (env w) = true → Extra w.
Proof.
  intros (e & store & classes & meta & kids & evs & ->) Hd.
  apply run_Extra; [apply page_Inv | | apply page_Extra].
  pose proof (static_env_run evs (page e store classes meta kids)) as H.
  unfold static_env in H. injection H as _ H _ _ _. cbn in *. congruence.
Qed.

(** ** A system change and what is stored *)

Lemma env_step_dom e w : env (step (EvDom e) w) = env (happened e w).
Proof.
  cbn [step].
  pose proof (rerender_page_state (dispatch e (happened e w))) as H.
  apply page_state_inj in H. destruct H as (-> & _).
  unfold dispatch.
  destruct (handlers_fold (run_listener e)
              (filter (λ l, listens e l = true)
                      (listeners (br (happened e w))))
              (happened e w) (handler_run_listener e)) as (Hc & _).
  by apply core_inj in Hc as (He & _).
Qed.

(** C7: when the system signal changes while nothing (or the empty string)
    is stored under the theme key, the effective theme becomes the theme of
    the new signal and is applied to the document; when a theme is stored,
    the change alters neither the effective theme, nor the document marker,
    nor storage.  When a non-empty value that is no theme is stored, which
    counts as no preference, [handleChange] nevertheless ignores the change,
    because line 184 tests the stored string only for emptiness; the
    initialisation over the same storage (line 154, which validates) follows
    the system. *)
Theorem C7_system_change_and_stored_value (w : World) (m : bool)
    (classes : gset string) (meta : option string) (kids : list Element) :
  reachable w → is_mounted w = true →
  has_window (env w) = true → listenable (mq_api (env w)) = true →
  has_document (env w) = true → storage_read_throws (env w) = false →
  let w' := step (EvDom (MediaQueryChange m)) w in
  let saved := storage (br w) !! "theme" in
  (saved = None ∨ saved = Some "" →
   getEffectiveTheme w' = theme_val (if m then dark else light) ∧
   ("dark" ∈ root_classes (br w') ↔ m = true)) ∧
  (∀ t, saved = Some (theme_str t) →
   getEffectiveTheme w' = getEffectiveTheme w ∧
   root_classes (br w') = root_classes (br w) ∧
   storage (br w') = storage (br w)) ∧
  (∀ s, saved = Some s → s ≠ "" → is_theme (JSString s) = false →
   getEffectiveTheme w' = getEffectiveTheme w ∧
   root_classes (br w') = root_classes (br w) ∧
   getEffectiveTheme
     (step EvMount (page (env w') (storage (br w')) classes meta kids))
   = theme_val (if m then dark else light)).
Proof.
  intros Hr Hm Hwin Hapi Hd Hread. cbn zeta.
  pose proof (system_change_step m w Hr Hm Hwin Hapi Hd Hread) as H.
  cbn zeta in H. unfold THEME_CONFIG.storageKey in H.
  assert (∀ s, storage (br w) !! "theme" = Some s → s ≠ "" →
          js_truthy (js_of_item (storage (br w) !! "theme")) = true) as Htr.
  { intros s Hs Hne. rewrite Hs. cbn.
    destruct (String.eqb s "") eqn:E; [| done]. by apply String.eqb_eq in E. }
  split; [| split].
  - intros Hs.
    assert (js_truthy (js_of_item (storage (br w) !! "theme")) = false) as Hf.
    { by destruct Hs as [-> | ->]. }
    rewrite Hf in H. destruct H as [Hg Hc]. split.
    + rewrite Hg. by destruct m.
    + rewrite Hc. destruct m.
      * split; [done |]. intros _. apply elem_of_union. left.
        by apply elem_of_singleton.
      * split; [| done]. intros Hin. apply elem_of_difference in Hin as [_ Hn].
        destruct Hn. by apply elem_of_singleton.
  - intros t Hs. rewrite (Htr (theme_str t) Hs) in H by by destruct t.
    exact H.
  - intros s Hs Hne Hinv. rewrite (Htr s Hs Hne) in H.
    destruct H as (Hg & Hc & Hst). split; [done |]. split; [done |].
    rewrite step_mount_page.
    match goal with
    | |- getEffectiveTheme (mount ?p) = _ =>
        destruct (mount_theme p eq_refl) as (-> & _)
    end.
    cbn [env br storage page]. rewrite env_step_dom, Hst. cbn.
    unfold initial_choice, system_theme. cbn.
    rewrite Hread, Hwin. unfold THEME_CONFIG.storageKey. rewrite Hs, Hinv.
    by destruct m.
Qed.

Lemma C7_witness :
  let w := page_with_foreign_value "blue" in
  let w' := step (EvDom (MediaQueryChange true)) w in
  (reachable w ∧ is_mounted w = true ∧ has_window (env w) = true ∧
   listenable (mq_api (env w)) = true ∧ has_document (env w) = true ∧
   storage_read_throws (env w) = false ∧
   storage (br w) !! "theme" = Some "blue" ∧ "blue" ≠ "" ∧
   is_theme (JSString "blue") = false) ∧
  getEffectiveTheme w = theme_val light ∧
  getEffectiveTheme w' = theme_val light ∧
  getEffectiveTheme
    (step EvMount (page (env w') (storage (br w')) ∅ None []))
  = theme_val dark.
Proof.
  intros w w'.
  assert (reachable w) as Hr by apply reachable_foreign.
  assert (is_mounted w = true) as A1 by (vm_compute; reflexivity).
  assert (has_window (env w) = true) as A2 by (vm_compute; reflexivity).
  assert (listenable (mq_api (env w)) = true) as A3
    by (vm_compute; reflexivity).
  assert (has_document (env w) = true) as A4 by (vm_compute; reflexivity).
  assert (storage_read_throws (env w) = false) as A5
    by (vm_compute; reflexivity).
  assert (storage (br w) !! "theme" = Some "blue") as Hs
    by (vm_compute; reflexivity).
  assert ("blue" ≠ "") as Hne by discriminate.
  assert (is_theme (JSString "blue") = false) as Hinv by reflexivity.
  assert (getEffectiveTheme w = theme_val light) as Hl
    by (vm_compute; reflexivity).
  destruct (C7_system_change_and_stored_value w true ∅ None []
              Hr A1 A2 A3 A4 A5) as (_ & _ & H).
  destruct (H "blue" Hs Hne Hinv) as (Hg & _ & Hmount).
  fold w' in Hg, Hmount. rewrite Hl in Hg.
  exact (conj (conj Hr (conj A1 (conj A2 (conj A3 (conj A4 (conj A5
           (conj Hs (conj Hne Hinv))))))))
              (conj Hl (conj Hg Hmount))).
Defined.

(** ** The display follows the hook *)

Lemma quiet_elem w : quiet w ↔ ∀ e, FxUncaught e ∉ trace (br w).
Proof.
  unfold quiet. split.
  - intros H e Hin. apply not_true_iff_false in H. apply H.
    apply existsb_exists. exists (FxUncaught e).
    split; [by apply list_elem_of_In | done].
  - intros H. apply not_true_iff_false. intros Hex.
    apply existsb_exists in Hex as (fx & Hin & Hfx).
    destruct fx; try discriminate. eapply H. by apply list_elem_of_In.
Qed.

(** X1: on a page with a document, once the hook reports [mounted], the dark
    marker of the document root and the theme-color metadata agree with the
    effective theme, so [getCurrentTheme()] of utils.ts returns the effective
    theme. *)
Theorem X1_document_shows_effective_theme (w : World) :
  reachable w → has_document (env w) = true → mounted (hk w) = true →
  getCurrentTheme w = getEffectiveTheme w ∧
  ("dark" ∈ root_classes (br w) ↔ getEffectiveTheme w = theme_val dark) ∧
  (∀ c, meta_theme_color (br w) = Some c →
        c = if js_eqb (getEffectiveTheme w) (theme_val dark)
            then "#18181b" else "#ffffff").
Proof.
  intros Hr Hd Hm.
  destruct (reachable_Extra w Hr Hd) as (_ & _ & Hf & Hs).
  destruct (reachable_Inv w Hr) as [[Hv _ _ _ _ _ _ _] Hre].
  assert (phase (hk w) ≠ Fresh) as Hph.
  { intros Hp. unfold mounted_flag in Hf. rewrite Hp in Hf. congruence. }
  destruct (Hs Hph) as [Hdark Hmeta].
  unfold getEffectiveTheme. rewrite Hre.
  split; [| split; [exact Hdark | exact Hmeta]].
  unfold getCurrentTheme. rewrite Hd. cbn.
  apply is_theme_decode in Hv as [t Ht]. unfold dark_shown in Hdark.
  rewrite Ht in *. destruct t; cbn in *.
  - rewrite bool_decide_eq_false_2; [done |].
    intros Hin. apply Hdark in Hin. discriminate.
  - rewrite bool_decide_eq_true_2; [done |]. by apply Hdark.
Qed.

Lemma X1_witness :
  let w := step (EvSetTheme (JSString "dark")) (mounted_page false ∅) in
  (reachable w ∧ has_document (env w) = true ∧ mounted (hk w) = true) ∧
  getCurrentTheme w = getEffectiveTheme w ∧
  ("dark" ∈ root_classes (br w) ↔ getEffectiveTheme w = theme_val dark).
Proof.
  intros w.
  assert (reachable w) as Hr by apply reachable_step, reachable_mounted_page.
  assert (has_document (env w) = true) as Hd by (vm_compute; reflexivity).
  assert (mounted (hk w) = true) as Hm by (vm_compute; reflexivity).
  destruct (X1_document_shows_effective_theme w Hr Hd Hm) as (H1 & H2 & _).
  split; [by repeat split |]. split; [exact H1 | exact H2].
Defined.

(** X2: on a page with a document, in a browser whose window has
    [matchMedia], no exception escapes the hook during its life: none of its
    effects, cleanups, event handlers and timer callbacks throws, and every
    call of [setTheme] or [toggleTheme] made while the hook is mounted
    returns, whatever is stored, whether or not storage can be read or
    written, and whatever value [setTheme] is called with. *)
Theorem X2_no_exception_escapes (w : World) :
  reachable w → has_document (env w) = true →
  (∀ e, FxUncaught e ∉ trace (br w)) ∧
  (is_mounted w = true →
   ∀ v, returns (setTheme v) w ∧ returns (toggleTheme v) w).
Proof.
  intros Hr Hd. split.
  - intros e. destruct (reachable_Extra w Hr Hd) as (Hq & _).
    by apply quiet_elem.
  - intros Hm v. pose proof (reachable_ann_inv w Hr Hm) as Ha.
    split; exists tt; [by apply setTheme_ok |].
    unfold toggleTheme. by apply setTheme_ok.
Qed.

Lemma X2_witness :
  let w := run [EvMount; EvSetTheme JSNull; EvDom (MediaQueryChange false);
                EvToggleTheme; EvTick 1000; EvUnmount; EvTick 5]
               (page no_storage_env ∅ ∅ None []) in
  (reachable w ∧ has_document (env w) = true) ∧
  FxUncaught StorageError ∉ trace (br w).
Proof.
  intros w.
  assert (reachable w) as Hr.
  { exists no_storage_env, ∅, ∅, None, [],
      [EvMount; EvSetTheme JSNull; EvDom (MediaQueryChange false);
       EvToggleTheme; EvTick 1000; EvUnmount; EvTick 5]. reflexivity. }
  assert (has_document (env w) = true) as Hd by (vm_compute; reflexivity).
  exact (conj (conj Hr Hd)
              (proj1 (X2_no_exception_escapes w Hr Hd) StorageError)).
Defined.

(** ** The keyboard shortcut *)

Lemma key_listeners_only c m s k mq i cap :
  filter (λ l, listens (KeyDown c m s k) l = true)
         (sub_listeners mq (Some i) cap)
  = [key_listener i cap].
Proof. by destruct mq. Qed.

Lemma keydown_dispatch c m s k w :
  reachable w → is_mounted w = true → has_document (env w) = true →
  dispatch (KeyDown c m s k) w
  = run_handler (handleKeyDown (rendered_theme (hk w)) c m s k) w.
Proof.
  intros Hr Hm Hd. apply is_mounted_phase in Hm.
  destruct (reachable_Inv w Hr) as [[_ Hl _ _ _ Hs _ _] _].
  unfold subs_shape in Hs. rewrite Hm in Hs. destruct Hs as [_ Hkey].
  apply Hkey in Hd as [i Hi]. rewrite Hi in Hl.
  unfold dispatch. by rewrite Hl, key_listeners_only.
Qed.

(** X3: on a mounted page, a key press with Ctrl or Cmd, Shift and the key
    'T' suppresses the default action and switches to the opposite theme,
    with all side effects of [setTheme]; any other key press changes
    nothing at all. *)
Theorem X3_keyboard_shortcut (w : World) (t : Theme)
    (ctrlKey metaKey shiftKey : bool) (key : string) :
  reachable w → is_mounted w = true → has_document (env w) = true →
  getEffectiveTheme w = theme_val t →
  let w' := step (EvDom (KeyDown ctrlKey metaKey shiftKey key)) w in
  if is_shortcut ctrlKey metaKey shiftKey key then
    getEffectiveTheme w' = theme_val (opposite t) ∧
    effects_of (handleKeyDown (getEffectiveTheme w)
                  ctrlKey metaKey shiftKey key) w
    = FxPreventDefault :: setTheme_effects (theme_val (opposite t)) w
  else w' = w.
Proof.
  intros Hr Hm Hd Ht. cbn zeta. cbn [step happened].
  rewrite keydown_dispatch by done.
  pose proof (reachable_ann_inv w Hr Hm) as Ha.
  destruct (reachable_Inv w Hr) as [_ Hre].
  unfold getEffectiveTheme in *. unfold is_shortcut, handleKeyDown.
  destruct ((ctrlKey || metaKey) && shiftKey && String.eqb key "T").
  - rewrite Ht, toggle_is_setTheme_opposite.
    set (v := theme_val (opposite t)).
    set (w1 := exec (log FxPreventDefault) w).
    assert (ann_inv w1) as Ha1 by exact Ha.
    assert (has_document (env w1) = true) as Hd1 by exact Hd.
    assert (bind (log FxPreventDefault) (λ _, setTheme v) w = setTheme v w1)
      as Hb by reflexivity.
    unfold run_handler, effects_of, exec. rewrite Hb.
    pose proof (setTheme_ok v w1 Hd1 Ha1) as Hok.
    destruct (setTheme_exec_facts v w1 Hd1 Ha1)
      as (_ & Hth & _ & _ & _ & _ & _ & _ & _ & Htr).
    pose proof (core_setTheme (core w1) v w1 eq_refl) as Hc.
    apply core_inj in Hc as (_ & _ & Hp & _).
    unfold outcome, exec in *.
    destruct (setTheme v w1) as [r w2]. cbn in *. subst r. split.
    + rewrite rerender_rendered.
      * rewrite Hth. apply validated_valid, is_theme_val.
      * rewrite Hp. by apply is_mounted_phase.
    + rewrite Htr, <- app_assoc, drop_app_length. reflexivity.
  - cbn. by apply rerender_id.
Qed.

Lemma X3_witness :
  let w := mounted_page false ∅ in
  (reachable w ∧ is_mounted w = true ∧ has_document (env w) = true ∧
   getEffectiveTheme w = theme_val light) ∧
  getEffectiveTheme (step (EvDom (KeyDown true false true "T")) w)
  = theme_val dark ∧
  step (EvDom (KeyDown true false true "t")) w = w.
Proof.
  intros w.
  pose proof (X3_keyboard_shortcut w light true false true "T"
                (reachable_mounted_page false ∅) eq_refl eq_refl eq_refl)
    as H1.
  pose proof (X3_keyboard_shortcut w light true false true "t"
                (reachable_mounted_page false ∅) eq_refl eq_refl eq_refl)
    as H2.
  split; [repeat split; apply reachable_mounted_page |].
  split; [apply H1 | exact H2].
Defined.

(** ** Two toggles from one render *)

Lemma theme_setTheme_twice v w :
  theme (hk (exec (setTheme v >>> setTheme v) w)) = validated v.
Proof.
  pose proof (setTheme_theme v w) as H1. unfold exec, bind in *.
  destruct (setTheme v w) as [[[]|e] w1]; cbn in *; [| done].
  apply (setTheme_theme v w1).
Qed.

Lemma core_setTheme_twice c v :
  preserves (λ w, core w = c) (setTheme v >>> setTheme v).
Proof. apply preserves_bind; intros; apply core_setTheme. Qed.

(** X4: [toggleTheme] computes the new theme from the theme of the render
    that created it.  Called twice in one handler, before React has rendered
    again, it sets the opposite of the rendered theme both times: the
    effective theme ends opposite, not back where it started. *)
Theorem X4_two_toggles_of_one_render (w : World) (t : Theme) :
  is_mounted w = true → getEffectiveTheme w = theme_val t →
  let toggle := toggleTheme (getEffectiveTheme w) in
  getEffectiveTheme (rerender (run_handler (toggle >>> toggle) w))
  = theme_val (opposite t).
Proof.
  intros Hm Ht. cbn zeta. rewrite Ht, toggle_is_setTheme_opposite.
  set (v := theme_val (opposite t)).
  assert (theme (hk (run_handler (setTheme v >>> setTheme v) w)) = v
          ∧ phase (hk (run_handler (setTheme v >>> setTheme v) w))
            = phase (hk w)) as [Hth Hp].
  { pose proof (theme_setTheme_twice v w) as H1.
    pose proof (core_setTheme_twice (core w) v w eq_refl) as H2.
    apply core_inj in H2 as (_ & _ & H2 & _).
    unfold exec, run_handler in *.
    destruct ((setTheme v >>> setTheme v) w) as [[[]|e] w1]; cbn in *.
    - split; [| done]. rewrite H1. apply validated_valid, is_theme_val.
    - split; [| done]. rewrite H1. apply validated_valid, is_theme_val. }
  unfold getEffectiveTheme. rewrite rerender_rendered; [done |].
  rewrite Hp. by apply is_mounted_phase.
Qed.

Lemma X4_witness :
  let w := mounted_page false ∅ in
  (is_mounted w = true ∧ getEffectiveTheme w = theme_val light) ∧
  getEffectiveTheme
    (rerender (run_handler (toggleTheme (getEffectiveTheme w) >>>
                            toggleTheme (getEffectiveTheme w)) w))
  = theme_val dark.
Proof.
  intros w. split; [by split |].
  exact (X4_two_toggles_of_one_render w light eq_refl eq_refl).
Defined.

(** ** Two toggles in succession *)

Lemma run_setTheme_twice v w :
  theme (hk (run_handler (setTheme v >>> setTheme v) w)) = validated v ∧
  phase (hk (run_handler (setTheme v >>> setTheme v) w)) = phase (hk w).
Proof.
  pose proof (theme_setTheme_twice v w) as H1.
  pose proof (core_setTheme_twice (core w) v w eq_refl) as H2.
  apply core_inj in H2 as (_ & _ & H2 & _).
  unfold exec, run_handler in *.
  by destruct ((setTheme v >>> setTheme v) w) as [[[]|e] w1].
Qed.

(** C5, counterexample.  On the light page the hook has mounted on, two
    calls of [toggleTheme] from one render leave the theme dark. *)
Lemma C5_counterexample : ¬ C5_as_stated.
Proof.
  intros H.
  assert (is_mounted (mounted_page false ∅) = true) as Hm
    by (vm_compute; reflexivity).
  assert (has_document (env (mounted_page false ∅)) = true) as Hdoc
    by (vm_compute; reflexivity).
  assert (getEffectiveTheme (mounted_page false ∅) = theme_val light) as Ht
    by (vm_compute; reflexivity).
  destruct (H (mounted_page false ∅) light false
              (reachable_mounted_page false ∅) Hm Hdoc Ht) as [_ Hg].
  assert (getEffectiveTheme (toggled_twice false (mounted_page false ∅))
          = theme_val dark) as Hd by (vm_compute; reflexivity).
  rewrite Hd in Hg. vm_compute in Hg. discriminate.
Qed.

(** C5, amended: [toggleTheme()] is [setTheme] applied to the opposite of the
    effective theme of the render that created it.  Two calls bring the
    effective theme back when the hook has rendered between them, so that the
    second call is made through the new closure; two calls through the
    closure of one render both set the opposite of that render's theme, and
    the effective theme ends opposite. *)
Theorem C5_toggle_opposite_and_round_trip (w : World) (t : Theme) :
  is_mounted w = true →
  getEffectiveTheme w = theme_val t →
  step EvToggleTheme w = step (EvSetTheme (theme_val (opposite t))) w ∧
  getEffectiveTheme (step EvToggleTheme w) = theme_val (opposite t) ∧
  getEffectiveTheme (toggled_twice true w) = getEffectiveTheme w ∧
  getEffectiveTheme (toggled_twice false w) = theme_val (opposite t).
Proof.
  intros Hm Ht.
  destruct (step_toggle w t Hm Ht) as (Heq & H1 & Hm1).
  destruct (step_toggle _ _ Hm1 H1) as (_ & H2 & _).
  split; [done |]. split; [done |]. split.
  - cbn [toggled_twice]. rewrite H2, Ht. by destruct t.
  - cbn [toggled_twice]. cbv zeta. rewrite Ht, toggle_is_setTheme_opposite.
    destruct (run_setTheme_twice (theme_val (opposite t)) w) as [Hth Hp].
    unfold getEffectiveTheme. rewrite rerender_rendered.
    + rewrite Hth. apply validated_valid, is_theme_val.
    + rewrite Hp. by apply is_mounted_phase.
Qed.

Lemma C5_witness :
  let w := mounted_page false ∅ in
  (is_mounted w = true ∧ getEffectiveTheme w = theme_val light) ∧
  getEffectiveTheme (step EvToggleTheme w) = theme_val dark ∧
  getEffectiveTheme (toggled_twice true w) = theme_val light ∧
  getEffectiveTheme (toggled_twice false w) = theme_val dark.
Proof.
  intros w.
  assert (is_mounted w = true) as Hm by (vm_compute; reflexivity).
  assert (getEffectiveTheme w = theme_val light) as Ht
    by (vm_compute; reflexivity).
  destruct (C5_toggle_opposite_and_round_trip w light Hm Ht)
    as (_ & H1 & H2 & H3).
  rewrite Ht in H2.
  exact (conj (conj Hm Ht) (conj H1 (conj H2 H3))).
Defined.

(** ** One announcer at a time *)

(** X5: a new announcement replaces the previous one: when [setTheme] is
    called while the announcer of an earlier call is still attached, that
    element is removed from the body and the ref moves to the new element,
    which is attached. *)
Theorem X5_announcement_replaces_previous (w : World) (v : JSValue)
    (a : nat) :
  reachable w → is_mounted w = true → has_document (env w) = true →
  announcerRef (hk w) = Some a →
  let w' := step (EvSetTheme v) w in
  let n := next_id (br w) in
  is_child a (body (br w)) = true ∧
  is_child a (body (br w')) = false ∧
  announcerRef (hk w') = Some n ∧
  is_child n (body (br w')) = true.
Proof.
  intros Hr Hm Hd Href. cbn zeta.
  pose proof (reachable_ann_inv w Hr Hm) as Ha.
  destruct (reachable_Extra w Hr Hd) as (_ & Hfresh & _).
  specialize (Hfresh a Href).
  destruct (setTheme_exec_facts v w Hd Ha)
    as (_ & _ & _ & _ & _ & Hr' & Hb & _).
  pose proof (step_setTheme_page_state v w Hm Hd Ha) as Hps.
  apply page_state_inj in Hps as (_ & _ & _ & Hb' & _ & _ & _ & _ & Hr'' & _).
  rewrite Hb', Hb, Hr'', Hr'. unfold body_without_announcer. rewrite Href.
  split; [by apply Ha |]. split; [| split; [done |]].
  - rewrite is_child_app. cbn.
    rewrite is_child_remove_false by apply is_child_remove_same. cbn.
    apply Nat.eqb_neq. lia.
  - rewrite is_child_app. cbn. rewrite Nat.eqb_refl. apply orb_true_r.
Qed.

Lemma X5_witness :
  let w := step (EvSetTheme (JSString "dark")) (mounted_page false ∅) in
  let w' := step (EvSetTheme (JSString "light")) w in
  (reachable w ∧ is_mounted w = true ∧ has_document (env w) = true ∧
   announcerRef (hk w) = Some 3) ∧
  is_child 3 (body (br w)) = true ∧
  is_child 3 (body (br w')) = false ∧
  announcerRef (hk w') = Some (next_id (br w)).
Proof.
  intros w w'.
  assert (reachable w) as Hr by apply reachable_step, reachable_mounted_page.
  assert (is_mounted w = true) as Hm by (vm_compute; reflexivity).
  assert (has_document (env w) = true) as Hd by (vm_compute; reflexivity).
  assert (announcerRef (hk w) = Some 3) as Ha by (vm_compute; reflexivity).
  destruct (X5_announcement_replaces_previous w (JSString "light") 3
              Hr Hm Hd Ha) as (H1 & H2 & H3 & _).
  split; [by repeat split |]. split; [exact H1 |]. split; [exact H2 | exact H3].
Defined.

(** ** The transition property *)

Lemma style_announceThemeChange s t :
  preserves (λ w, root_style (br w) = s) (announceThemeChange t).
Proof. pres leaf_refl. Qed.

Lemma applyTheme_style t w :
  has_document (env w) = true →
  root_style (br (exec (applyTheme t) w))
  = <[transition_property := "background-color 0.2s ease-in-out"]>
      (root_style (br w)).
Proof.
  intros Hd. munfold; cbn; rewrite Hd; cbn. msim; reflexivity.
Qed.

Lemma setTheme_style v w :
  has_document (env w) = true →
  root_style (br (exec (setTheme v) w))
  = <[transition_property := "background-color 0.2s ease-in-out"]>
      (root_style (br w)).
Proof.
  intros Hd. rewrite setTheme_exec.
  set (y := exec (setThemeState (validated v)) (warned v w)).
  assert (env y = env w ∧ root_style (br y) = root_style (br w)) as [He Hs].
  { unfold y, warned. by destruct (is_theme v). }
  unfold exec at 1.
  rewrite (style_announceThemeChange _ (validated v) _ eq_refl).
  rewrite applyTheme_style by by rewrite He. by rewrite Hs.
Qed.

Lemma style_gone_run_callback p cb :
  preserves (λ w, root_style (br w) !! p = None) (run_callback cb).
Proof.
  pres ltac:(intros ? H; cbn;
             first [exact H
                   | rewrite lookup_delete; case_decide; [done | exact H]]).
Qed.

Lemma fold_callbacks_style (l : list Timer) w :
  root_style (br w) !! transition_property = None
  ∨ (∃ x, x ∈ l ∧ t_cb x = CbRemoveTransition) →
  root_style
    (br (fold_left (λ w x, run_handler (run_callback (t_cb x)) w) l w))
  !! transition_property = None.
Proof.
  revert w. induction l as [|x l IH]; intros w H; cbn.
  - destruct H as [H | (x & Hin & _)]; [done | by apply elem_of_nil in Hin].
  - apply IH. destruct H as [H | (y & Hin & Hy)].
    + left. apply (preserves_run_handler
                     (λ u, root_style (br u) !! transition_property = None));
        [apply style_gone_run_callback | | done].
      intros e. pres leaf_refl.
    + apply elem_of_cons in Hin as [-> | Hin]; [| right; eauto].
      left. rewrite Hy. cbn. apply lookup_delete_eq.
Qed.

(** X6: [setTheme] sets the custom property [--theme-transition] on the
    document root, and the property is gone again once 200 ms (the
    configured transition duration) have passed. *)
Theorem X6_transition_property_is_transient
    (w : World) (v : JSValue) (ms : nat) :
  reachable w → is_mounted w = true → has_document (env w) = true →
  THEME_CONFIG.transitionDuration ≤ ms →
  let w' := step (EvSetTheme v) w in
  root_style (br w') !! "--theme-transition"
  = Some "background-color 0.2s ease-in-out" ∧
  root_style (br (step (EvTick ms) w')) !! "--theme-transition" = None.
Proof.
  intros Hr Hm Hd Hms. cbn zeta.
  pose proof (reachable_ann_inv w Hr Hm) as Ha.
  destruct (setTheme_exec_facts v w Hd Ha)
    as (_ & _ & _ & _ & _ & _ & _ & Htm & Hnow & _).
  pose proof (step_setTheme_page_state v w Hm Hd Ha) as Hps.
  pose proof (page_state_display _ _ Hps) as (_ & Hst & _).
  apply page_state_inj in Hps as (_ & _ & _ & _ & Htm' & Hnow' & _).
  split.
  - rewrite Hst, setTheme_style by done. apply lookup_insert_eq.
  - set (w' := step (EvSetTheme v) w) in *.
    change (step (EvTick ms) w') with (rerender (advance ms w')).
    pose proof (rerender_page_state (advance ms w')) as Hps2.
    apply page_state_display in Hps2 as (_ & -> & _).
    unfold advance. apply fold_callbacks_style. right.
    exists {| t_due := now (br w) + THEME_CONFIG.transitionDuration;
              t_cb := CbRemoveTransition |}.
    split; [| done]. apply list_elem_of_filter. split.
    + apply Nat.leb_le. rewrite Hnow', Hnow. cbn in *. lia.
    + rewrite Htm', Htm. apply elem_of_insert_timer. right.
      apply elem_of_insert_timer. by left.
Qed.

Lemma X6_witness :
  let w := mounted_page false ∅ in
  let w' := step (EvSetTheme (JSString "dark")) w in
  (reachable w ∧ is_mounted w = true ∧ has_document (env w) = true ∧
   THEME_CONFIG.transitionDuration ≤ 200) ∧
  root_style (br w') !! "--theme-transition"
  = Some "background-color 0.2s ease-in-out" ∧
  root_style (br (step (EvTick 200) w')) !! "--theme-transition" = None.
Proof.
  intros w w'.
  assert (THEME_CONFIG.transitionDuration ≤ 200) as Hms by exact (le_n 200).
  split; [repeat split; first [apply reachable_mounted_page | exact Hms] |].
  exact (X6_transition_property_is_transient w (JSString "dark") 200
           (reachable_mounted_page false ∅) eq_refl eq_refl Hms).
Defined.

(** ** What the hook reports about the system *)

Lemma sysdark_setThemeState x t :
  preserves (λ w, systemPrefersDark (hk w) = x) (setThemeState t).
Proof. pres leaf_refl. Qed.

Lemma sysdark_setMounted x b :
  preserves (λ w, systemPrefersDark (hk w) = x) (setMounted b).
Proof. pres leaf_refl. Qed.

Lemma sysdark_applyTheme x t :
  preserves (λ w, systemPrefersDark (hk w) = x) (applyTheme t).
Proof. pres leaf_refl. Qed.

Lemma sysdark_initialTheme w :
  has_matchMedia (br w) = true →
  systemPrefersDark (hk (exec initialTheme w))
  = match persisted_preference (env w) (storage (br w)) with
    | Some _ => systemPrefersDark (hk w)
    | None =>
        if has_window (env w) then prefers_dark (env w)
        else systemPrefersDark (hk w)
    end.
Proof.
  intros Hmm.
  unfold persisted_preference, initialTheme, detectSystemTheme,
    window_matchMedia, exec,
    localStorage_getItem, setSystemPrefersDark, console_warn, log, try_catch,
    modify, get, bind, ret, throw.
  cbn -[js_truthy js_eqb decode_theme].
  destruct (storage_read_throws (env w)); cbn -[js_truthy js_eqb decode_theme].
  { destruct (has_window (env w)); cbn; by rewrite ?Hmm. }
  destruct (storage (br w) !! THEME_CONFIG.storageKey) as [s|] eqn:Es;
    cbn -[js_truthy js_eqb decode_theme].
  - rewrite truthy_theme.
    destruct (is_theme (JSString s)) eqn:Ht.
    + apply is_theme_decode in Ht as [t ->]. by destruct t.
    + rewrite decode_theme_is_theme in Ht.
      destruct (decode_theme (JSString s)); [done |].
      cbn. destruct (has_window (env w)); cbn; by rewrite ?Hmm.
  - cbn. destruct (has_window (env w)); cbn; by rewrite ?Hmm.
Qed.

(** X7: [systemPrefersDark] is learned at mount only when the stored value is
    not used: with a valid stored theme the initialisation effect never asks
    the system, and the hook keeps reporting [false] even on a system that
    prefers dark. *)
Theorem X7_systemPrefersDark_at_mount (e : Env) (store : gmap string string)
    (classes : gset string) (meta : option string) (kids : list Element) :
  let ready := λ e store, step EvMount (page e store classes meta kids) in
  systemPrefersDark (hk (ready e store))
  = match persisted_preference e store with
    | Some _ => false
    | None => has_window e && prefers_dark e
    end ∧
  systemPrefersDark (hk (ready (browser_env true) {["theme" := "light"]}))
  = false ∧
  systemPrefersDark (hk (ready (browser_env true) {["theme" := "blue"]}))
  = true.
Proof.
  cbn zeta.
  assert (∀ e store,
    systemPrefersDark (hk (step EvMount (page e store classes meta kids)))
    = match persisted_preference e store with
      | Some _ => false
      | None => has_window e && prefers_dark e
      end) as Hgen.
  { clear e store. intros e store. rewrite step_mount_page.
    pose proof (mount_page_state (page e store classes meta kids)) as H.
    apply page_state_display in H as (_ & _ & _ & _ & ->).
    rewrite initEffect_exec by reflexivity. cbn zeta.
    unfold exec at 1. rewrite (sysdark_setMounted _ true _ eq_refl).
    unfold exec at 1. rewrite (sysdark_applyTheme _ _ _ eq_refl).
    unfold exec at 1. rewrite (sysdark_setThemeState _ _ _ eq_refl).
    rewrite sysdark_initialTheme by reflexivity. cbn.
    destruct (persisted_preference e store); [done |].
    by destruct (has_window e). }
  split; [apply Hgen |]. rewrite !Hgen. split; vm_compute; reflexivity.
Qed.

(** ** A system change when storage cannot be read *)

Lemma handleChange_read_fails m w :
  storage_read_throws (env w) = true →
  handleChange m w =
  (Ok tt,
   exec (console_warn "Failed to check theme preference:") (observed m w)).
Proof.
  intros Hr.
  unfold handleChange, observed, localStorage_getItem, console_warn,
    setSystemPrefersDark, log, try_catch, exec, modify, get, bind, ret, throw.
  cbn -[setTheme js_truthy]. rewrite Hr. reflexivity.
Qed.

(** X8: when reading storage throws, a change of the system preference is
    recorded in [systemPrefersDark] and a warning is logged, but the theme,
    the marker class and storage stay as they were: unlike the
    initialisation effect, [handleChange] does not fall back to the system
    theme. *)
Theorem X8_system_change_with_unreadable_storage (w : World) (m : bool) :
  reachable w → is_mounted w = true →
  has_window (env w) = true → listenable (mq_api (env w)) = true →
  storage_read_throws (env w) = true →
  let w' := step (EvDom (MediaQueryChange m)) w in
  getEffectiveTheme w' = getEffectiveTheme w ∧
  root_classes (br w') = root_classes (br w) ∧
  storage (br w') = storage (br w) ∧
  systemPrefersDark (hk w') = m ∧
  trace (br w') =
    (trace (br w) ++ [FxSetSystemPrefersDark m;
                      FxStorageGet THEME_CONFIG.storageKey;
                      FxWarn "Failed to check theme preference:"])%list.
Proof.
  intros Hr Hm Hwin Hapi Hread. cbn zeta.
  pose proof (reachable_Inv w Hr) as HI.
  apply (happened_Inv (MediaQueryChange m)) in HI.
  cbn [step]. set (w1 := happened (MediaQueryChange m) w) in *.
  assert (hk w1 = hk w ∧ br w1 = br w ∧
          storage_read_throws (env w1) = true ∧
          has_window (env w1) && listenable (mq_api (env w1)) = true)
    as (Hh & Hb & Hread1 & Hsub).
  { unfold w1. cbn. by rewrite Hread, Hwin, Hapi. }
  clearbody w1.
  apply is_mounted_phase in Hm.
  destruct HI as [[Hv Hl Hi Hdi Ha Hs Ht Hmm] Hre].
  unfold subs_shape in Hs. rewrite Hh, Hm in Hs. destruct Hs as [Hmq _].
  apply Hmq in Hsub as [i Hi']. rewrite Hh in Hl. rewrite Hi' in Hl.
  unfold dispatch. rewrite Hl, mq_listeners_only. cbn [fold_left].
  change (run_listener (MediaQueryChange m) (mq_listener i))
    with (handleChange m).
  unfold run_handler. rewrite handleChange_read_fails by done.
  rewrite rerender_id by (cbn; by rewrite Hre).
  unfold getEffectiveTheme. cbn. rewrite Hh, Hb.
  repeat split. by rewrite <- !app_assoc.
Qed.

Lemma X8_witness :
  let w := run [EvMount] (page unreadable_env {["theme" := "light"]} ∅ None [])
  in
  let w' := step (EvDom (MediaQueryChange true)) w in
  (reachable w ∧ is_mounted w = true ∧ has_window (env w) = true ∧
   listenable (mq_api (env w)) = true ∧
   storage_read_throws (env w) = true) ∧
  getEffectiveTheme w' = getEffectiveTheme w ∧
  systemPrefersDark (hk w') = true.
Proof.
  intros w w'.
  assert (reachable w) as Hr.
  { exists unreadable_env, {["theme" := "light"]}, ∅, None, [], [EvMount].
    reflexivity. }
  assert (is_mounted w = true) as Hm by (vm_compute; reflexivity).
  assert (has_window (env w) = true) as Hwin by (vm_compute; reflexivity).
  assert (listenable (mq_api (env w)) = true) as Hapi
    by (vm_compute; reflexivity).
  assert (storage_read_throws (env w) = true) as Hread
    by (vm_compute; reflexivity).
  destruct (X8_system_change_with_unreadable_storage w true Hr
              Hm Hwin Hapi Hread) as (H1 & _ & _ & H4 & _).
  exact (conj (conj Hr (conj Hm (conj Hwin (conj Hapi Hread))))
              (conj H1 H4)).
Defined.

Lemma prevent_then_toggle w t :
  reachable w → is_mounted w = true → has_document (env w) = true →
  getEffectiveTheme w = theme_val t →
  getEffectiveTheme
    (rerender (run_handler (log FxPreventDefault >>> toggleTheme (theme_val t))
                           w))
  = theme_val (opposite t).
Proof.
  intros Hr Hm Hd Ht.
  pose proof (reachable_ann_inv w Hr Hm) as Ha.
  rewrite toggle_is_setTheme_opposite.
  set (v := theme_val (opposite t)).
  set (w1 := exec (log FxPreventDefault) w).
  assert (ann_inv w1) as Ha1 by exact Ha.
  assert (has_document (env w1) = true) as Hd1 by exact Hd.
  assert (bind (log FxPreventDefault) (λ _, setTheme v) w = setTheme v w1)
    as Hb by reflexivity.
  unfold run_handler. rewrite Hb.
  pose proof (setTheme_ok v w1 Hd1 Ha1) as Hok.
  destruct (setTheme_exec_facts v w1 Hd1 Ha1) as (_ & Hth & _).
  pose proof (core_setTheme (core w1) v w1 eq_refl) as Hc.
  apply core_inj in Hc as (_ & _ & Hp & _).
  unfold outcome, exec, getEffectiveTheme in *.
  destruct (setTheme v w1) as [r w2]. cbn in *. subst r.
  rewrite rerender_rendered.
  - rewrite Hth. apply validated_valid, is_theme_val.
  - rewrite Hp. by apply is_mounted_phase.
Qed.

(** X9: the theme button reflects the hook and the document.  Before the
    hook has mounted the component renders the placeholder.  Once mounted
    it renders the button; [aria-pressed] is true exactly when the document
    root carries the class "dark", exactly one of the two icons is hidden,
    and the title names the theme a click switches to.  Enter and Space on
    the button do what a click does to the theme; any other key changes
    nothing. *)
Theorem X9_button_reflects_theme (w : World) :
  reachable w → has_document (env w) = true →
  (phase (hk w) = Fresh → ThemeButton.render w = ThemeButton.Placeholder) ∧
  (is_mounted w = true →
   let d := bool_decide ("dark" ∈ root_classes (br w)) in
   let next := getEffectiveTheme (ThemeButton.click w) in
   ThemeButton.render w
   = ThemeButton.Button d ("Switch to " +:+ js_to_string next +:+ " mode")
       d (negb d) ∧
   next ≠ getEffectiveTheme w ∧
   ∀ key,
     if String.eqb key "Enter" || String.eqb key " "
     then getEffectiveTheme (ThemeButton.press key w) = next
     else ThemeButton.press key w = w).
Proof.
  intros Hr Hd.
  destruct (reachable_Extra w Hr Hd) as (_ & _ & Hmf & Hsh).
  destruct (reachable_Inv w Hr) as [_ Hre].
  unfold mounted_flag in Hmf. split.
  - intros Hph. unfold ThemeButton.render. by rewrite Hmf, Hph.
  - intros Hm. cbn zeta.
    pose proof Hm as Hph. apply is_mounted_phase in Hph.
    destruct (reachable_theme w Hr) as [t Ht].
    destruct (step_toggle w t Hm Ht) as (_ & Hnext & _).
    assert (ThemeButton.click w = step EvToggleTheme w) as Hclick.
    { unfold ThemeButton.click, ThemeButton.handleToggle. cbn [step].
      by rewrite Hm. }
    rewrite Hclick, Hnext.
    destruct Hsh as [Hdark _]; [by rewrite Hph |].
    unfold dark_shown in Hdark. rewrite <- Hre in Hdark.
    unfold getEffectiveTheme in Ht. rewrite Ht in Hdark.
    assert (bool_decide ("dark" ∈ root_classes (br w))
            = js_eqb (theme_val t) (JSString "dark")) as ->.
    { destruct t; cbn.
      - apply bool_decide_eq_false. intros Hin. by apply Hdark in Hin.
      - apply bool_decide_eq_true. by apply Hdark. }
    split; [| split].
    + unfold ThemeButton.render, getEffectiveTheme.
      rewrite Hmf, Hph, Ht. by destruct t.
    + unfold getEffectiveTheme. rewrite Ht. by destruct t.
    + intros key. unfold ThemeButton.press, ThemeButton.handleKeyDown,
        ThemeButton.handleToggle. rewrite Hm.
      destruct (String.eqb key "Enter" || String.eqb key " ").
      * unfold getEffectiveTheme at 2. rewrite Ht.
        by apply prevent_then_toggle.
      * cbn. by apply rerender_id.
Qed.

Lemma X9_witness :
  let w := mounted_page false {["theme" := "dark"]} in
  (reachable w ∧ has_document (env w) = true) ∧
  ThemeButton.render w
  = ThemeButton.Button true "Switch to light mode" true false ∧
  getEffectiveTheme (ThemeButton.press " " w) = JSString "light" ∧
  ThemeButton.press "Tab" w = w.
Proof.
  intros w.
  assert (reachable w) as Hr by apply reachable_mounted_page.
  assert (has_document (env w) = true) as Hd by (vm_compute; reflexivity).
  assert (is_mounted w = true) as Hm by (vm_compute; reflexivity).
  destruct (X9_button_reflects_theme w Hr Hd) as [_ H].
  destruct (H Hm) as (H1 & _ & H3).
  assert (getEffectiveTheme (ThemeButton.click w) = JSString "light") as Hn
    by (vm_compute; reflexivity).
  assert (bool_decide ("dark" ∈ root_classes (br w)) = true) as Hb
    by (vm_compute; reflexivity).
  rewrite Hn, Hb in H1.
  pose proof (H3 " ") as Hs. pose proof (H3 "Tab") as Ht.
  rewrite Hn in Hs.
  exact (conj (conj Hr Hd) (conj H1 (conj Hs Ht))).
Defined.

(** ** A media query that cannot be subscribed to *)

Lemma mq_unsubscribed_listeners m key c :
  filter (λ l, listens (MediaQueryChange m) l = true)
         (sub_listeners None key c)
  = [].
Proof. by destruct key. Qed.

(** X10: where there is no window, or the media query list offers neither
    [addEventListener] nor [addListener], the hook has no listener for
    system changes: a change of the system preference leaves the hook and
    the page exactly as they were, also when nothing is stored. *)
Theorem X10_system_change_unheard_without_listener_api (w : World)
    (m : bool) :
  reachable w → is_mounted w = true →
  has_window (env w) && listenable (mq_api (env w)) = false →
  let w' := step (EvDom (MediaQueryChange m)) w in
  hk w' = hk w ∧ br w' = br w ∧
  getEffectiveTheme w' = getEffectiveTheme w ∧
  systemPrefersDark (hk w') = systemPrefersDark (hk w).
Proof.
  intros Hr Hm Hno. cbn zeta.
  pose proof (reachable_Inv w Hr) as HI.
  apply (happened_Inv (MediaQueryChange m)) in HI.
  cbn [step]. set (w1 := happened (MediaQueryChange m) w) in *.
  assert (hk w1 = hk w ∧ br w1 = br w ∧
          has_window (env w1) && listenable (mq_api (env w1)) = false)
    as (Hh & Hb & Hsub) by (unfold w1; cbn; by rewrite Hno).
  clearbody w1.
  apply is_mounted_phase in Hm.
  destruct HI as [[Hv Hl Hi Hdi Ha Hs Ht Hmm] Hre].
  unfold subs_shape in Hs. rewrite Hh, Hm in Hs. destruct Hs as [Hmq _].
  assert (mq_sub (hk w) = None) as Hnone.
  { destruct (mq_sub (hk w)) as [i|] eqn:Hi'; [| done].
    assert (is_Some (Some i)) as Hsome by eauto.
    apply Hmq in Hsome. congruence. }
  rewrite Hh, Hnone in Hl.
  unfold dispatch. rewrite Hl, mq_unsubscribed_listeners. cbn [fold_left].
  rewrite rerender_id by done.
  unfold getEffectiveTheme. by rewrite Hh, Hb.
Qed.

Lemma X10_witness :
  let w := run [EvMount] (page legacy_free_env ∅ ∅ None []) in
  let w' := step (EvDom (MediaQueryChange true)) w in
  (reachable w ∧ is_mounted w = true ∧
   has_window (env w) && listenable (mq_api (env w)) = false) ∧
  getEffectiveTheme w' = JSString "light" ∧
  systemPrefersDark (hk w') = false.
Proof.
  intros w w'.
  assert (reachable w) as Hr.
  { exists legacy_free_env, ∅, ∅, None, [], [EvMount]. reflexivity. }
  assert (is_mounted w = true) as Hm by (vm_compute; reflexivity).
  assert (has_window (env w) && listenable (mq_api (env w)) = false) as Hno
    by (vm_compute; reflexivity).
  destruct (X10_system_change_unheard_without_listener_api w true Hr Hm Hno)
    as (_ & _ & H3 & H4).
  assert (getEffectiveTheme w = JSString "light") as Ht
    by (vm_compute; reflexivity).
  assert (systemPrefersDark (hk w) = false) as Hs
    by (vm_compute; reflexivity).
  rewrite Ht in H3. rewrite Hs in H4.
  exact (conj (conj Hr (conj Hm Hno)) (conj H3 H4)).
Defined.

(** ** Outside the life of the hook *)

Lemma classes_announceThemeChange c t :
  preserves (λ w, root_classes (br w) = c) (announceThemeChange t).
Proof. pres leaf_refl. Qed.

Lemma announceThemeChange_detached t w a :
  has_document (env w) = true → announcerRef (hk w) = Some a →
  is_child a (body (br w)) = false →
  outcome (announceThemeChange t) w = Throw NotFoundError.
Proof.
  intros Hd Ha Hc.
  unfold announceThemeChange, body_removeChild, use_document, outcome, get,
    bind, ret, throw.
  cbn. by rewrite Ha, Hd, Hc.
Qed.

(** X17: a [setTheme] kept by a consumer and called after the unmount throws
    when the announcer of an earlier call was still attached at the unmount:
    the cleanup of lines 224-230 detaches the element but leaves it in the
    ref, so line 99 asks the body to remove an element that is no longer its
    child.  The theme has by then been applied to the document. *)
Theorem X17_setTheme_after_unmount_throws (w : World) (v : JSValue)
    (a : nat) :
  reachable w → is_mounted w = true → has_document (env w) = true →
  announcerRef (hk w) = Some a →
  let u := step EvUnmount w in
  let after := exec (setTheme v) u in
  announcerRef (hk u) = Some a ∧
  is_child a (body (br u)) = false ∧
  outcome (setTheme v) u = Throw NotFoundError ∧
  ("dark" ∈ root_classes (br after) ↔ validated v = theme_val dark).
Proof.
  intros Hr Hm Hd Href. cbn zeta. cbn [step]. rewrite Hm.
  pose proof (reachable_Inv w Hr) as HI.
  pose proof Hm as Hph. apply is_mounted_phase in Hph.
  pose proof (unmount_announcer w HI Hph a Href) as Hdet.
  destruct (unmount_frame w Hd) as (He & _ & _ & _ & _ & Hre & _).
  set (u := unmount w) in *.
  assert (has_document (env u) = true) as Hdu by by rewrite He.
  assert (announcerRef (hk u) = Some a) as Hru by by rewrite Hre.
  split; [done |]. split; [done |].
  set (t := validated v).
  set (y := exec (setThemeState t) (warned v u)).
  assert (env y = env u ∧ announcerRef (hk y) = Some a ∧
          body (br y) = body (br u) ∧ theme (hk y) = t) as (Hey & Hry & Hby & Hty).
  { unfold y, warned. by destruct (is_theme v). }
  destruct (applyTheme_exec t y) as (Hea & Hha & Hba & _ & _ & _ & _ & Hca & _);
    [by rewrite Hey |].
  set (z := exec (applyTheme t) y) in *.
  assert (outcome (announceThemeChange t) z = Throw NotFoundError) as Hthrow.
  { apply (announceThemeChange_detached t z a).
    - by rewrite Hea, Hey.
    - by rewrite Hha.
    - by rewrite Hba, Hby. }
  assert (setTheme v u = announceThemeChange t z) as Hrun.
  { rewrite setTheme_unfold. unfold setTheme_calls.
    rewrite (bind_ok _ _ _ _ (setThemeState_ok t (warned v u))).
    by rewrite (bind_ok _ _ _ _ (applyTheme_ok t _)). }
  split.
  - unfold outcome. rewrite Hrun. exact Hthrow.
  - unfold exec. rewrite Hrun.
    assert (root_classes (br (snd (announceThemeChange t z)))
            = root_classes (br z)) as ->.
    { apply (classes_announceThemeChange (root_classes (br z)) t z eq_refl). }
    rewrite Hca.
    assert (root_classes (br y) = root_classes (br u)) as Hcy.
    { unfold y, warned. by destruct (is_theme v). }
    assert (is_theme t = true) as Hvt by apply validated_is_theme.
    apply is_theme_decode in Hvt as [p Hp]. rewrite Hp.
    destruct p; cbn.
    + split; [| done]. intros Hin.
      apply elem_of_difference in Hin as [_ Hn]. destruct Hn.
      by apply elem_of_singleton.
    + split; [done |]. intros _. apply elem_of_union. left.
      by apply elem_of_singleton.
Qed.

Lemma X17_witness :
  let w := step (EvSetTheme (JSString "dark")) (mounted_page false ∅) in
  let u := step EvUnmount w in
  (reachable w ∧ is_mounted w = true ∧ has_document (env w) = true ∧
   announcerRef (hk w) = Some 3) ∧
  is_child 3 (body (br u)) = false ∧
  outcome (setTheme (JSString "light")) u = Throw NotFoundError.
Proof.
  intros w u.
  assert (reachable w) as Hr by apply reachable_step, reachable_mounted_page.
  assert (is_mounted w = true) as Hm by (vm_compute; reflexivity).
  assert (has_document (env w) = true) as Hd by (vm_compute; reflexivity).
  assert (announcerRef (hk w) = Some 3) as Ha by (vm_compute; reflexivity).
  destruct (X17_setTheme_after_unmount_throws w (JSString "light") 3
              Hr Hm Hd Ha) as (_ & H2 & H3 & _).
  exact (conj (conj Hr (conj Hm (conj Hd Ha))) (conj H2 H3)).
Defined.

Lemma initEffect_stored_theme w t :
  persisted_preference (env w) (storage (br w)) = Some t →
  outcome initEffect w = Ok tt.
Proof.
  unfold persisted_preference. intros Hp.
  assert (outcome initialTheme w = Ok (theme_val t)) as Hi.
  { unfold initialTheme, outcome, localStorage_getItem, log, try_catch,
      modify, get, bind, ret, throw.
    cbn -[js_truthy js_eqb decode_theme detectSystemTheme].
    destruct (storage_read_throws (env w)); [done |].
    cbn -[js_truthy js_eqb decode_theme detectSystemTheme].
    destruct (storage (br w) !! THEME_CONFIG.storageKey) as [s|]; [| done].
    apply decode_theme_Some in Hp. injection Hp as ->.
    by destruct t. }
  unfold outcome, initEffect.
  rewrite (bind_ok _ _ _ _ Hi).
  rewrite (bind_ok _ _ _ _ (setThemeState_ok _ _)).
  by rewrite (bind_ok _ _ _ _ (applyTheme_ok _ _)).
Qed.

(** X18: where the window has no [matchMedia], [detectSystemTheme] and the
    system-preference effect throw a TypeError, whatever is stored, and the
    effect subscribes nothing.  So the mount fails there even with a valid
    theme stored, for which the initialisation effect itself returns. *)
Theorem X18_mount_needs_matchMedia (w : World) :
  has_window (env w) = true → has_matchMedia (br w) = false →
  outcome detectSystemTheme w = Throw matchMedia_missing ∧
  outcome systemThemeEffect w = Throw matchMedia_missing ∧
  exec systemThemeEffect w = w ∧
  (∀ t, persisted_preference (env w) (storage (br w)) = Some t →
        outcome initEffect w = Ok tt) ∧
  (persisted_preference (env w) (storage (br w)) = None →
   outcome initEffect w = Throw matchMedia_missing).
Proof.
  intros Hw Hmm.
  unfold detectSystemTheme, systemThemeEffect, window_matchMedia, outcome,
    exec, get, bind, ret, throw.
  cbn. rewrite Hw. cbn. rewrite Hmm. cbn.
  split; [done |]. split; [done |]. split; [done |]. split.
  - intros t. apply initEffect_stored_theme.
  - intros Hp. by destruct (initEffect_without_matchMedia w Hmm Hw Hp).
Qed.

Lemma X18_witness :
  let w := without_matchMedia
             (page (browser_env false) {["theme" := "dark"]} ∅ None []) in
  (has_window (env w) = true ∧ has_matchMedia (br w) = false) ∧
  outcome initEffect w = Ok tt ∧
  outcome systemThemeEffect w = Throw matchMedia_missing.
Proof.
  intros w.
  destruct (X18_mount_needs_matchMedia w eq_refl eq_refl)
    as (_ & H2 & _ & H4 & _).
  assert (persisted_preference (env w) (storage (br w)) = Some dark) as Hp
    by (vm_compute; reflexivity).
  exact (conj (conj eq_refl eq_refl) (conj (H4 dark Hp) H2)).
Defined.

(** ** useLocalStorage *)

Section LocalStorageFacts.
Import LocalStorageHook.

Ltac ls_unfold :=
  unfold mount, first_render, render, deliver, run, initialValue,
    setStoredValue,
    removeValue, initEffect, handleStorageChange, storageEffect,
    storageCleanup, loaded, load_error, ltry, lfinally, getItem, setItem,
    removeItem, call_onError, setValue, setError, setIsInitialized,
    set_listening, set_items, lthrow, lget, lift, lmodify, mbind, mret,
    L_bind, L_ret in *.

(** X11: a value that is set is found again after a reload: with working
    storage and a serializer that reads back what it writes, [setValue]
    stores the serialized value under the key, and a hook rendered and
    mounted over the resulting storage holds the value. *)
Theorem X11_stored_value_survives_reload {T} (c : Config T) (e : Env)
    (rm : bool) (st : St T) (v : T) (s : string) :
  has_window e = true → storage_read_throws e = false →
  storage_write_throws e = false → nullish c v = false →
  write c v = Ok s → read c s = Ok v →
  let st' := run (setStoredValue c e rm (Put v)) st in
  value st' = v ∧ error st' = None ∧
  items st' = <[key c := s]> (items st) ∧
  value (first_render c e (items st')) = v ∧
  value (mount c e (first_render c e (items st'))) = v.
Proof.
  intros Hw Hr Hwr Hn Hs Hv. ls_unfold.
  repeat (progress (cbn; rewrite ?Hw, ?Hn, ?Hs, ?Hwr, ?Hr, ?Hv,
                      ?lookup_insert_eq)).
  done.
Qed.

Lemma X11_witness :
  let st' := run (setStoredValue text_config (browser_env false) false
                    (Put "Ada")) empty_cells in
  value st' = "Ada" ∧
  value (mount text_config (browser_env false)
           (first_render text_config (browser_env false) (items st')))
  = "Ada".
Proof.
  intros st'.
  destruct (X11_stored_value_survives_reload text_config (browser_env false)
              false empty_cells "Ada" "Ada"
              eq_refl eq_refl eq_refl eq_refl eq_refl eq_refl)
    as (H1 & _ & _ & _ & H5).
  exact (conj H1 H5).
Defined.

(** X12: when the write to storage fails, because the serializer or
    [setItem] throws, the new value is nevertheless kept in the state: the
    storage area is unchanged, the error is stored in the [error] cell
    and passed to [onError] once, and a reload would show the old value. *)
Theorem X12_failed_write_keeps_value_in_memory {T} (c : Config T) (e : Env)
    (rm : bool) (st : St T) (v : T) :
  has_window e = true → nullish c v = false →
  storage_write_throws e = true ∨ (∃ err, write c v = Throw err) →
  let st' := run (setStoredValue c e rm (Put v)) st in
  let err := match write c v with Throw err => err | Ok _ => StorageError end
  in
  value st' = v ∧ items st' = items st ∧ error st' = Some err ∧
  reported st' = (reported st ++ if onError c then [err] else [])%list ∧
  first_render c e (items st') = first_render c e (items st).
Proof.
  intros Hw Hn Hf. ls_unfold. cbn. rewrite Hw, Hn. cbn.
  destruct (write c v) as [s | err] eqn:Hs; cbn.
  - destruct Hf as [Hf | [err Hf]]; [| done]. rewrite Hf. cbn.
    destruct (onError c); cbn; by rewrite ?app_nil_r.
  - destruct (onError c); cbn; by rewrite ?app_nil_r.
Qed.

Lemma X12_witness :
  let st' := run (setStoredValue unwritable_config (browser_env false) false
                    (Put "Ada")) empty_cells in
  (has_window (browser_env false) = true ∧
   nullish unwritable_config "Ada" = false ∧
   (storage_write_throws (browser_env false) = true ∨
    ∃ err, write unwritable_config "Ada" = Throw err)) ∧
  value st' = "Ada" ∧ items st' = ∅ ∧
  error st' = Some (ReferenceError "BigInt").
Proof.
  intros st'.
  assert (storage_write_throws (browser_env false) = true ∨
          ∃ err, write unwritable_config "Ada" = Throw err) as Hf
    by (right; eexists; reflexivity).
  destruct (X12_failed_write_keeps_value_in_memory unwritable_config
              (browser_env false) false empty_cells "Ada" eq_refl eq_refl Hf)
    as (H1 & H2 & H3 & _).
  exact (conj (conj eq_refl (conj eq_refl Hf)) (conj H1 (conj H2 H3))).
Defined.

(** X13: setting a value that is null or undefined removes the key from
    storage instead of writing it, so the state holds the null value while
    a reload gives the default; [removeValue] removes the key and resets the
    state to the default.  Neither touches another key. *)
Theorem X13_null_and_removeValue_delete_the_key {T} (c : Config T) (e : Env)
    (st : St T) (v : T) :
  has_window e = true → nullish c v = true →
  let st1 := run (setStoredValue c e false (Put v)) st in
  let st2 := run (removeValue c e false) st in
  (value st1 = v ∧ error st1 = None ∧
   items st1 = delete (key c) (items st) ∧
   value (first_render c e (items st1)) = defaultValue c) ∧
  (value st2 = defaultValue c ∧ error st2 = None ∧
   items st2 = delete (key c) (items st)) ∧
  ∀ k, k ≠ key c →
       items st1 !! k = items st !! k ∧ items st2 !! k = items st !! k.
Proof.
  intros Hw Hn. ls_unfold. cbn. rewrite Hw, Hn. cbn.
  split; [| split; [done |]].
  - repeat split. rewrite ?Hw. cbn.
    destruct (storage_read_throws e); cbn.
    + by destruct (onError c).
    + by rewrite lookup_delete_eq.
  - intros k Hk. by rewrite lookup_delete_ne.
Qed.

Lemma X13_witness :
  let e := browser_env false in
  let st := run (setStoredValue nullable_config e false (Put (JSString "Ada")))
                null_cells in
  let st1 := run (setStoredValue nullable_config e false (Put JSNull)) st in
  (has_window e = true ∧ nullish nullable_config JSNull = true) ∧
  items st = {["name" := "Ada"]} ∧
  value st1 = JSNull ∧ items st1 !! "name" = None ∧
  value (first_render nullable_config e (items st1)) = JSString "anonymous".
Proof.
  intros e st st1.
  destruct (X13_null_and_removeValue_delete_the_key nullable_config e st
              JSNull eq_refl eq_refl)
    as ((H1 & _ & H3 & H4) & _ & _).
  assert (items st = {["name" := "Ada"]}) as Hi by reflexivity.
  assert (items st1 !! "name" = None) as Hn.
  { unfold st1. rewrite H3. apply lookup_delete_eq. }
  exact (conj (conj eq_refl eq_refl) (conj Hi (conj H1 (conj Hn H4)))).
Defined.

(** X14: rendering and mounting the hook reads storage and never writes
    it.  The first render already holds the stored value, or the default
    where there is no window, no entry, or reading fails; [isInitialized] is
    false at the first render and after the mount it is true exactly when
    there is a window.  A failure to read is reported to [onError] twice,
    by the initializer and by the effect, and only the effect records it in
    [error]. *)
Theorem X14_mount_loads_and_never_writes {T} (c : Config T) (e : Env)
    (store : gmap string string) :
  let st0 := first_render c e store in
  let st := mount c e st0 in
  (value st0 = loaded c e store ∧ isInitialized st0 = false ∧
   error st0 = None ∧ items st0 = store) ∧
  (value st = loaded c e store ∧ isInitialized st = has_window e ∧
   listening st = has_window e ∧ items st = store ∧
   error st = load_error c e store) ∧
  reported st =
    if onError c then
      match load_error c e store with Some err => [err; err] | None => [] end
    else [].
Proof.
  ls_unfold. cbn.
  destruct (has_window e); cbn; [| by destruct (onError c)].
  destruct (storage_read_throws e); cbn.
  { by destruct (onError c). }
  destruct (store !! key c) as [s|] eqn:Hs; cbn; rewrite ?Hs; cbn.
  - destruct (read c s) as [v | err] eqn:Hr; cbn; rewrite ?Hs; cbn;
      rewrite ?Hr; cbn.
    + by destruct (onError c).
    + destruct (onError c); cbn; rewrite ?Hs; cbn; rewrite ?Hr; cbn; done.
  - by destruct (onError c).
Qed.

(** X15: a storage event reaches the state only if it is for the hook's key
    and for local storage.  Then the state follows the event: the default
    when the entry was removed, the value read otherwise, and on a failure
    to read the old value with the error recorded; value and error are those
    of the handler modelled on its own above.  The storage area is never
    written by the handler. *)
Theorem X15_storage_event_updates_state_only {T} (c : Config T) (st : St T)
    (k v : option string) (area : bool) :
  listening st = true →
  let st' := deliver c k v area st in
  let p := UseLocalStorage.handleStorageChange (read c) (defaultValue c)
             (key c) k v area
             {| UseLocalStorage.value := value st;
                UseLocalStorage.error := error st |} in
  items st' = items st ∧
  value st' = UseLocalStorage.value p ∧
  error st' = UseLocalStorage.error p ∧
  (k ≠ Some (key c) ∨ area = false → st' = st) ∧
  (k = Some (key c) → area = true → v = None →
   value st' = defaultValue c ∧ error st' = None).
Proof.
  intros Hl. unfold UseLocalStorage.handleStorageChange. ls_unfold.
  rewrite Hl. cbn.
  destruct (bool_decide (k = Some (key c))) eqn:Hk; cbn.
  - apply bool_decide_eq_true in Hk. destruct area; cbn.
    + assert (¬ (k ≠ Some (key c) ∨ true = false)) as Hno
        by (intros [? | ?]; done).
      destruct v as [s|]; cbn;
        [destruct (read c s); cbn; [| destruct (onError c); cbn] |];
        (repeat split; first [done | intros H; by destruct (Hno H)]).
    + by repeat split.
  - apply bool_decide_eq_false in Hk. by repeat split.
Qed.

Lemma X15_witness :
  let st := mount text_config (browser_env false)
              (first_render text_config (browser_env false)
                 {["name" := "Ada"]}) in
  listening st = true ∧ value st = "Ada" ∧
  value (deliver text_config (Some "name") (Some "Grace") true st) = "Grace" ∧
  deliver text_config (Some "theme") (Some "dark") true st = st ∧
  value (deliver text_config (Some "name") None true st) = "anonymous".
Proof.
  intros st.
  assert (listening st = true) as Hl by reflexivity.
  destruct (X15_storage_event_updates_state_only text_config st
              (Some "name") (Some "Grace") true Hl) as (_ & H1 & _).
  destruct (X15_storage_event_updates_state_only text_config st
              (Some "theme") (Some "dark") true Hl) as (_ & _ & _ & H2 & _).
  destruct (X15_storage_event_updates_state_only text_config st
              (Some "name") None true Hl) as (_ & _ & _ & _ & H3).
  assert (Some "theme" ≠ Some (key text_config)) as Hne by discriminate.
  exact (conj Hl (conj eq_refl (conj H1 (conj (H2 (or_introl Hne))
           (proj1 (H3 eq_refl eq_refl eq_refl)))))).
Defined.

(** X16: no operation of the hook lets an exception escape, whatever the
    storage and the serializer do: the initializer always returns a value,
    and [setValue], [removeValue], the initialisation effect and the storage
    handler always return. *)
Theorem X16_hook_never_throws {T} (c : Config T) (e : Env) (rm : bool)
    (st : St T) (u : Update T) (k v : option string) (area : bool) :
  (∃ x, fst (initialValue c e st) = Ok x) ∧
  fst (setStoredValue c e rm u st) = Ok tt ∧
  fst (removeValue c e rm st) = Ok tt ∧
  fst (initEffect c e st) = Ok tt ∧
  fst (handleStorageChange c k v area st) = Ok tt.
Proof.
  ls_unfold. repeat split.
  - destruct (has_window e); cbn; [| eauto].
    destruct (storage_read_throws e); cbn.
    { destruct (onError c); cbn; eauto. }
    destruct (items st !! key c) as [s|]; cbn; [| eauto].
    destruct (read c s); cbn; [eauto |].
    destruct (onError c); cbn; eauto.
  - cbn. destruct (has_window e); cbn; [| done].
    destruct (nullish c _); cbn.
    + destruct rm; cbn; [| done]. by destruct (onError c).
    + destruct (write c _); cbn.
      * destruct (storage_write_throws e); cbn; [| done].
        by destruct (onError c).
      * by destruct (onError c).
  - cbn. destruct (has_window e); cbn; [| done].
    destruct rm; cbn; [| done]. by destruct (onError c).
  - destruct (has_window e); cbn; [| done].
    destruct (storage_read_throws e); cbn.
    { by destruct (onError c). }
    destruct (items st !! key c) as [s|]; cbn; [| done].
    destruct (read c s); cbn; [done |]. by destruct (onError c).
  - destruct (bool_decide _ && area); cbn; [| done].
    destruct v as [s|]; cbn; [| done].
    destruct (read c s); cbn; [done |]. by destruct (onError c).
Qed.

End LocalStorageFacts.
